(** * Residences-Import: the ODM container and its type-casting engine

    A shallow embedding of [src/wbe_odm/odm_mappers/base_mapper.py] and
    [src/odm/odm.py].  The program is Python over pandas 1.x (it calls
    [DataFrame.append], which pandas 2 removed) and Python's [re] module
    as of Python 3.7 and later.  Library behaviour the code
    relies on is modelled next to the function that uses it, and the
    remaining library functions (printing and reading of floats and of
    timestamps, geometry conversion, joins, the type inference of
    [read_json]) are fields of a record the definitions take as an
    argument.

    Strings are Rocq strings read as sequences of ASCII characters:
    the case and whitespace functions below act on the ASCII range. *)

From Stdlib Require Import String Ascii List ZArith Bool Arith Lia DecimalString.
Import ListNotations.
Local Open Scope string_scope.
Local Open Scope list_scope.
Local Open Scope nat_scope.

(** ** Python exceptions and results *)

Inductive exn : Type :=
| KeyError (key : string)
| ValueError (msg : string)
| TypeError (msg : string)
| IndexError (msg : string)
| AttributeError (name : string)
| NameError (name : string)
| OverflowError
| InvalidIndexError
| SettingWithCopyError.

Inductive result (A : Type) : Type :=
| Ok (a : A)
| Raise (e : exn).

Arguments Ok {A} a.
Arguments Raise {A} e.

Definition bind {A B : Type} (m : result A) (f : A -> result B) : result B :=
  match m with
  | Ok a => f a
  | Raise e => Raise e
  end.

Notation "'do' x <- m ; f" := (bind m (fun x => f))
  (at level 10, x name, m at level 100, f at level 200).

Fixpoint mapM {A B : Type} (f : A -> result B) (l : list A) : result (list B) :=
  match l with
  | [] => Ok []
  | a :: l' => do b <- f a; do bs <- mapM f l'; Ok (b :: bs)
  end.

Definition is_ok {A : Type} (m : result A) : bool :=
  match m with Ok _ => true | Raise _ => false end.

(** ** Python [str] methods *)

Module Str.

(** [str.isspace] on the ASCII range: tab, line feed, vertical tab, form
    feed, carriage return, the four separators 28 to 31, and space. *)
Definition is_space (c : ascii) : bool :=
  let n := nat_of_ascii c in
  ((9 <=? n) && (n <=? 13)) || ((28 <=? n) && (n <=? 32)).

Definition is_upper (c : ascii) : bool :=
  let n := nat_of_ascii c in (65 <=? n) && (n <=? 90).

Definition lower_char (c : ascii) : ascii :=
  if is_upper c then ascii_of_nat (nat_of_ascii c + 32) else c.

Fixpoint lower (s : string) : string :=
  match s with
  | EmptyString => EmptyString
  | String c s' => String (lower_char c) (lower s')
  end.

Fixpoint lstrip (s : string) : string :=
  match s with
  | EmptyString => EmptyString
  | String c s' => if is_space c then lstrip s' else s
  end.

Fixpoint rstrip (s : string) : string :=
  match s with
  | EmptyString => EmptyString
  | String c s' =>
      match rstrip s' with
      | EmptyString => if is_space c then EmptyString else String c EmptyString
      | r => String c r
      end
  end.

Definition strip (s : string) : string := rstrip (lstrip s).

(** [s.startswith(p)] *)
Fixpoint startswith (s p : string) {struct p} : bool :=
  match p, s with
  | EmptyString, _ => true
  | String a p', String b s' => Ascii.eqb a b && startswith s' p'
  | String _ _, EmptyString => false
  end.

(** [sub in s] *)
Fixpoint contains (sub s : string) : bool :=
  startswith s sub ||
  match s with
  | EmptyString => false
  | String _ s' => contains sub s'
  end.

Fixpoint drop (n : nat) (s : string) : string :=
  match n, s with
  | S n', String _ s' => drop n' s'
  | _, _ => s
  end.

Definition endswith (s p : string) : bool :=
  (String.length p <=? String.length s) &&
  String.eqb (drop (String.length s - String.length p) s) p.

(** [s.replace(old, new)] for a non-empty [old]: occurrences are
    taken left to right and do not overlap.  [skip] counts the characters
    of an occurrence still to be passed over. *)
Fixpoint replace_from (old new : string) (skip : nat) (s : string) : string :=
  match s with
  | EmptyString => EmptyString
  | String c s' =>
      match skip with
      | S k => replace_from old new k s'
      | O =>
          if startswith s old
          then String.append new (replace_from old new (String.length old - 1) s')
          else String c (replace_from old new 0 s')
      end
  end.

(** With an empty [old], Python puts [new] before every character and at
    the end. *)
Fixpoint interleave (new s : string) : string :=
  match s with
  | EmptyString => new
  | String c s' => String.append new (String c (interleave new s'))
  end.

Definition replace (old new s : string) : string :=
  match old with
  | EmptyString => interleave new s
  | _ => replace_from old new 0 s
  end.

(** [s.split(sep)] for a one-character separator: always at least one
    piece. *)
Fixpoint split (sep : ascii) (s : string) : list string :=
  match s with
  | EmptyString => [EmptyString]
  | String c s' =>
      if Ascii.eqb c sep then EmptyString :: split sep s'
      else match split sep s' with
           | [] => [String c EmptyString]
           | p :: ps => String c p :: ps
           end
  end.

(** [sep.join(parts)] *)
Fixpoint join (sep : string) (parts : list string) : string :=
  match parts with
  | [] => EmptyString
  | [p] => p
  | p :: ps => String.append p (String.append sep (join sep ps))
  end.

End Str.

(** ** Python's [re]: the part of the pattern language the program uses

    A backtracking matcher in continuation-passing style, as [sre] is:
    alternatives are tried left to right, [?], [*] and [+] are greedy, and
    the first way to reach the end of the pattern wins. *)

Module Re.

Inductive regex : Type :=
| REmpty
| RChar (c : ascii)
| RAny                          (* [.]: any character but a line feed *)
| RSet (cs : list ascii)        (* [[...]], a plain set of characters *)
| RBol                          (* [^] *)
| REol                          (* [$] *)
| RSeq (r1 r2 : regex)
| RAlt (r1 r2 : regex)
| ROpt (r : regex)
| RStar (r : regex)
| RPlus (r : regex).

Definition LF : ascii := ascii_of_nat 10.

(** Comparison of a pattern character with an input character; under
    [re.IGNORECASE] both are lower-cased first. *)
Definition chr_eq (ignorecase : bool) (c a : ascii) : bool :=
  if ignorecase then Ascii.eqb (Str.lower_char c) (Str.lower_char a)
  else Ascii.eqb c a.

(** [$] without [re.MULTILINE]: at the end of the input, or just before
    a line feed that ends it. *)
Definition at_end (s : string) : bool :=
  match s with
  | EmptyString => true
  | String c EmptyString => Ascii.eqb c LF
  | _ => false
  end.

(** A matcher state is the offset reached and the input left. *)
Definition cont : Type := nat -> string -> option (nat * string).
Definition matcher : Type := nat -> string -> cont -> option (nat * string).

(** A pattern item that takes one character, when it satisfies [P]. *)
Definition single (P : ascii -> bool) : matcher :=
  fun pos s k =>
    match s with
    | String a s' => if P a then k (S pos) s' else None
    | EmptyString => None
    end.

(** Greedy repetition: one more round of [m] first, the continuation
    second.  A round that consumes nothing is not repeated. *)
Fixpoint star_loop (m : matcher) (fuel : nat) (pos : nat) (s : string) (k : cont)
  : option (nat * string) :=
  match fuel with
  | O => k pos s
  | S fuel' =>
      match m pos s (fun pos' s' =>
                       if pos' =? pos then None else star_loop m fuel' pos' s' k) with
      | Some r => Some r
      | None => k pos s
      end
  end.

Fixpoint rmatch (ic : bool) (r : regex) (pos : nat) (s : string) (k : cont)
  {struct r} : option (nat * string) :=
  match r with
  | REmpty => k pos s
  | RChar c => single (chr_eq ic c) pos s k
  | RAny => single (fun a => negb (Ascii.eqb a LF)) pos s k
  | RSet cs => single (fun a => existsb (fun c => chr_eq ic c a) cs) pos s k
  | RBol => if pos =? 0 then k pos s else None
  | REol => if at_end s then k pos s else None
  | RSeq r1 r2 => rmatch ic r1 pos s (fun pos' s' => rmatch ic r2 pos' s' k)
  | RAlt r1 r2 =>
      match rmatch ic r1 pos s k with
      | Some x => Some x
      | None => rmatch ic r2 pos s k
      end
  | ROpt r1 =>
      match rmatch ic r1 pos s k with
      | Some x => Some x
      | None => k pos s
      end
  | RStar r1 => star_loop (rmatch ic r1) (S (String.length s)) pos s k
  | RPlus r1 =>
      rmatch ic r1 pos s
        (fun pos' s' => star_loop (rmatch ic r1) (S (String.length s')) pos' s' k)
  end.

(** [pattern.fullmatch(s)]: the match has to end where the input ends. *)
Definition fullmatch (ic : bool) (r : regex) (s : string) : bool :=
  match rmatch ic r 0 s (fun e rest =>
                           match rest with
                           | EmptyString => Some (e, rest)
                           | _ => None
                           end) with
  | Some _ => true
  | None => false
  end.

(** One attempt of [pattern.sub] at offset [pos].  After an empty match
    the next one may not be empty at the same place ([must_advance]). *)
Definition match_here (ic : bool) (r : regex) (must_advance : bool) (pos : nat)
  (s : string) : option (nat * string) :=
  rmatch ic r pos s
    (fun e rest => if must_advance && (e =? pos) then None else Some (e, rest)).

(** [pattern.sub(repl, s)] for a replacement without group references:
    the leftmost match is replaced, the scan goes on where it ended, and
    an offset without a match keeps its character.  Every step either
    passes a character or is an empty match followed by such a step, so
    [2 * len(s) + 2] steps are enough. *)
Fixpoint sub_loop (ic : bool) (r : regex) (repl : string) (fuel : nat)
  (must_advance : bool) (pos : nat) (s : string) : string :=
  match fuel with
  | O => s
  | S fuel' =>
      match match_here ic r must_advance pos s with
      | Some (e, rest) =>
          String.append repl (sub_loop ic r repl fuel' (e =? pos) e rest)
      | None =>
          match s with
          | EmptyString => EmptyString
          | String c s' => String c (sub_loop ic r repl fuel' false (S pos) s')
          end
      end
  end.

Definition sub (ic : bool) (r : regex) (repl s : string) : string :=
  sub_loop ic r repl (2 * String.length s + 2) false 0 s.

(** *** Reading a pattern

    [compile] reads the pattern syntax the program's patterns are
    written in: literals, [\] before a punctuation character, [.], [^],
    [$], plain sets [[...]], [|] and the postfix [?], [*], [+].  Groups,
    ranges, classes and counted repetition are not read ([None]). *)

Inductive pmode : Type :=
| PNormal
| PEscape
| PSet (acc : list ascii).

Record pstate : Type := mkPstate {
  done_alts : list regex;      (* finished alternatives, last first *)
  cur_atoms : list regex;      (* atoms of the current one, last first *)
  mode : pmode
}.

Definition seq_of (atoms_rev : list regex) : regex :=
  fold_left (fun acc a => match acc with REmpty => a | _ => RSeq a acc end)
            atoms_rev REmpty.

Definition alt_of (alts_rev : list regex) : option regex :=
  match alts_rev with
  | [] => None
  | r :: rs => Some (fold_left (fun acc a => RAlt a acc) rs r)
  end.

Definition is_alnum (c : ascii) : bool :=
  let n := nat_of_ascii c in
  ((48 <=? n) && (n <=? 57)) || ((65 <=? n) && (n <=? 90)) || ((97 <=? n) && (n <=? 122)).

Definition quantify (q : regex -> regex) (st : pstate) : option pstate :=
  match cur_atoms st with
  | [] => None
  | a :: rest => Some (mkPstate (done_alts st) (q a :: rest) PNormal)
  end.

Definition push (a : regex) (st : pstate) : option pstate :=
  Some (mkPstate (done_alts st) (a :: cur_atoms st) PNormal).

Definition pstep (st : pstate) (c : ascii) : option pstate :=
  match mode st with
  | PEscape =>
      if is_alnum c then None else push (RChar c) st
  | PSet acc =>
      if Ascii.eqb c "]" then
        match acc with
        | [] => None
        | _ => push (RSet (rev acc)) st
        end
      else if Ascii.eqb c "\" || Ascii.eqb c "-" || Ascii.eqb c "^" || Ascii.eqb c "[" then None
      else Some (mkPstate (done_alts st) (cur_atoms st) (PSet (c :: acc)))
  | PNormal =>
      if Ascii.eqb c "\" then Some (mkPstate (done_alts st) (cur_atoms st) PEscape)
      else if Ascii.eqb c "[" then Some (mkPstate (done_alts st) (cur_atoms st) (PSet []))
      else if Ascii.eqb c "|" then
        Some (mkPstate (seq_of (cur_atoms st) :: done_alts st) [] PNormal)
      else if Ascii.eqb c "?" then quantify ROpt st
      else if Ascii.eqb c "*" then quantify RStar st
      else if Ascii.eqb c "+" then quantify RPlus st
      else if Ascii.eqb c "." then push RAny st
      else if Ascii.eqb c "^" then push RBol st
      else if Ascii.eqb c "$" then push REol st
      else if Ascii.eqb c "(" || Ascii.eqb c ")" || Ascii.eqb c "{" || Ascii.eqb c "}" then None
      else push (RChar c) st
  end.

Fixpoint pscan (st : pstate) (p : string) : option pstate :=
  match p with
  | EmptyString => Some st
  | String c p' =>
      match pstep st c with
      | Some st' => pscan st' p'
      | None => None
      end
  end.

Definition compile (pattern : string) : option regex :=
  match pscan (mkPstate [] [] PNormal) pattern with
  | Some st =>
      match mode st with
      | PNormal => alt_of (seq_of (cur_atoms st) :: done_alts st)
      | _ => None
      end
  | None => None
  end.

End Re.

(** ** Values, columns and the library interface *)

(** A float that is not a NaN, as its IEEE-754 binary64 bit pattern. *)
Definition float64 : Type := Z.

(** What a cell of a table can hold. *)
Inductive value : Type :=
| VNone                         (* None *)
| VNA                           (* pandas.NA *)
| VNaN                          (* float("nan"), numpy.nan *)
| VNaT                          (* pandas.NaT *)
| VBool (b : bool)
| VInt (z : Z)
| VFloat (x : float64)
| VStr (s : string)
| VTime (ns : Z).               (* pandas.Timestamp: nanoseconds since the epoch *)

Inductive dtype : Type :=
| DObject | DBool | DInt64 | DFloat64 | DDatetime | DString | DCategory.

Definition dtype_eqb (a b : dtype) : bool :=
  match a, b with
  | DObject, DObject | DBool, DBool | DInt64, DInt64 | DFloat64, DFloat64
  | DDatetime, DDatetime | DString, DString | DCategory, DCategory => true
  | _, _ => false
  end.

(** The dtype a type token names; any other token makes pandas raise
    [TypeError: data type not understood]. *)
Definition dtype_of_token (t : string) : option dtype :=
  if String.eqb t "object" then Some DObject
  else if String.eqb t "bool" then Some DBool
  else if String.eqb t "int64" then Some DInt64
  else if String.eqb t "float64" then Some DFloat64
  else if String.eqb t "datetime64[ns]" then Some DDatetime
  else if String.eqb t "string" then Some DString
  else if String.eqb t "category" then Some DCategory
  else None.

Record Series : Type := mkSeries {
  sname : string;
  sdtype : dtype;
  svalues : list value
}.

(** A table: the index labels, and the columns in order.  Every column
    of a well-formed table holds one cell per label. *)
Record DataFrame : Type := mkDF {
  index : list value;
  columns : list Series
}.

#[local] Set Warnings "-register-all".

(** A JSON scalar: what a cell or a label of a table is written as. *)
Inductive scalar : Type :=
| SNull
| SBool (b : bool)
| SInt (z : Z)
| SFloat (x : float64)
| SStr (s : string).

(** The JSON value that [DataFrame.to_json(orient="split")] spells: the
    column labels, the index labels, and the rows. *)
Record split_table : Type := mkSplit {
  split_columns : list string;
  split_index : list scalar;
  split_data : list (list scalar)
}.

(** JSON-like Python data: what [get_geoJSON] builds and what the
    envelope codec reads and writes.  A string that spells a table in
    split orientation is kept as the table it spells, [JSplit]; the
    spelling itself is not modelled. *)
Inductive json : Type :=
| JNull
| JBool (b : bool)
| JInt (z : Z)
| JFloat (x : float64)
| JStr (s : string)
| JSplit (t : split_table)
| JArr (items : list json)
| JObj (fields : list (string * json)).

(** The Python objects the codec meets: what [json] reads, and the
    three classes [OdmEncoder.default] knows.  An [Odm] instance is its
    [__dict__]. *)
Inductive pyobj : Type :=
| PNone
| PBool (b : bool)
| PInt (z : Z)
| PFloat (x : float64)
| PStr (s : string)
| PSplit (t : split_table)
| PList (items : list pyobj)
| PDict (items : list (string * pyobj))
| PTimestamp (ns : Z)
| PDataFrame (df : DataFrame)
| POdm (attrs : list (string * pyobj)).

(** Library functions on floats, timestamps and geometry the embedding
    does not define.  Every statement below holds for any choice of
    them. *)
Record PyLib : Type := mkPyLib {
  (* str(x) of a float *)
  float_repr : float64 -> string;
  (* str(t) of a Timestamp *)
  timestamp_str : Z -> string;
  (* float(n) of an int *)
  float_of_int : Z -> float64;
  (* int(x) of a float; None for an infinity *)
  float_trunc : float64 -> option Z;
  (* float(s): None when it raises, Some None for a NaN *)
  float_of_string : string -> option (option float64);
  (* the number pandas.to_numeric reads from a string, None when it
     reads none or a NaN *)
  to_numeric_string : string -> option float64;
  (* the timestamp pandas reads from a string, None when it raises *)
  parse_datetime : string -> option Z;
  (* utilities.convert_wkt_to_geojson, None when it raises *)
  convert_wkt_to_geojson : value -> option json;
  (* the order in which Python iterates over the set built from these
     strings: some arrangement of its distinct elements, which changes
     with the hash seed of the process *)
  set_iter : list string -> list string;
  (* whether pandas flags [df[col].iloc[i] = v] on this table as a
     chained assignment *)
  chained_assignment_flagged : DataFrame -> string -> bool;
  (* df.groupby(key).agg(utilities.reduce_by_type) *)
  groupby_reduce : string -> DataFrame -> result DataFrame;
  (* pandas.merge(left, right, how="left", left_on=..., right_on=...) *)
  merge_left : DataFrame -> DataFrame -> string -> string -> result DataFrame;
  (* the SQLite left join of combine_sample_site_measure *)
  sqlite_between_join : DataFrame -> DataFrame -> result DataFrame;
  (* the ISO 8601 text DataFrame.to_json(date_format="iso") writes for
     a timestamp *)
  iso_format : Z -> string;
  (* what DataFrame.to_json writes for a float: the number to ten
     decimals (double_precision=10), or null *)
  json_float : float64 -> scalar;
  (* read_json, _try_convert_to_date: the timestamps read from a whole
     column, None when the column is left as it is *)
  try_convert_to_date : list scalar -> option (list value);
  (* read_json, _try_convert_data without dates: the dtype pandas
     settles on for a column (it tries float64, then int64) *)
  convert_dtype : list scalar -> dtype;
  (* a cell of the column converted to that dtype *)
  convert_cell : dtype -> scalar -> scalar;
  (* read_json, _convert_axes: the index labels read back *)
  convert_axis : list scalar -> list value;
  (* pandas.read_json(x, orient="split") of anything but the spelling
     of a table with one label per row and one cell per column in each
     row *)
  read_json_other : pyobj -> result DataFrame;
  (* pandas.to_datetime(x) of anything but a string *)
  to_datetime_other : pyobj -> result pyobj;
  (* the items dict.update(x) reads from anything but a dict *)
  update_items : pyobj -> result (list (string * pyobj))
}.

Definition string_of_Z (z : Z) : string := NilZero.string_of_int (Z.to_int z).

(** [str(v)] *)
Definition py_str (L : PyLib) (v : value) : string :=
  match v with
  | VNone => "None"
  | VNA => "<NA>"
  | VNaN => "nan"
  | VNaT => "NaT"
  | VBool true => "True"
  | VBool false => "False"
  | VInt z => string_of_Z z
  | VFloat x => float_repr L x
  | VStr s => s
  | VTime t => timestamp_str L t
  end.

(** [int(s)]: blanks around, an optional sign, then digits, with single
    underscores allowed between digits. *)
Module PyInt.

Definition digit (c : ascii) : option Z :=
  let n := nat_of_ascii c in
  if (48 <=? n) && (n <=? 57) then Some (Z.of_nat (n - 48)) else None.

(** [last] tells what came before: 0 nothing, 1 a digit, 2 an underscore. *)
Fixpoint digits (acc : Z) (last : nat) (s : string) : option Z :=
  match s with
  | EmptyString => if last =? 1 then Some acc else None
  | String c s' =>
      match digit c with
      | Some d => digits (10 * acc + d)%Z 1 s'
      | None =>
          if Ascii.eqb c "_" && (last =? 1) then digits acc 2 s' else None
      end
  end.

Definition parse (s : string) : option Z :=
  match Str.strip s with
  | String "-" s' => option_map Z.opp (digits 0 0 s')
  | String "+" s' => digits 0 0 s'
  | s' => digits 0 0 s'
  end.

End PyInt.

Definition in_int64 (z : Z) : bool :=
  ((- 2 ^ 63 <=? z) && (z <? 2 ^ 63))%Z.

Definition is_missing (v : value) : bool :=
  match v with
  | VNone | VNA | VNaN | VNaT => true
  | _ => false
  end.

(** One cell under [astype(dt)]. *)
Definition cast_cell (L : PyLib) (dt : dtype) (v : value) : result value :=
  match dt with
  | DObject | DCategory => Ok v
  | DBool =>
      match v with
      | VBool b => Ok (VBool b)
      | VNone => Ok (VBool false)
      | VNA => Raise (TypeError "boolean value of NA is ambiguous")
      | VNaN | VNaT | VTime _ => Ok (VBool true)
      | VInt z => Ok (VBool (negb (z =? 0)%Z))
      | VFloat x => Ok (VBool (negb ((x =? 0)%Z || (x =? 2 ^ 63)%Z)))
      | VStr s => Ok (VBool (negb (String.eqb s "")))
      end
  | DInt64 =>
      match v with
      | VInt z => if in_int64 z then Ok (VInt z) else Raise OverflowError
      | VBool b => Ok (VInt (if b then 1 else 0))
      | VStr s =>
          match PyInt.parse s with
          | Some z => if in_int64 z then Ok (VInt z) else Raise OverflowError
          | None => Raise (ValueError "invalid literal for int() with base 10")
          end
      | VFloat x =>
          match float_trunc L x with
          | Some z => if in_int64 z then Ok (VInt z) else Raise OverflowError
          | None => Raise OverflowError
          end
      | VNaN => Raise (ValueError "cannot convert float NaN to integer")
      | VNaT => Raise (ValueError "cannot convert NaT to integer")
      | VTime t => Ok (VInt t)
      | VNone | VNA => Raise (TypeError "int() argument must be a string or a number")
      end
  | DFloat64 =>
      match v with
      | VFloat x => Ok (VFloat x)
      | VNaN | VNone => Ok VNaN
      | VInt z => Ok (VFloat (float_of_int L z))
      | VBool b => Ok (VFloat (float_of_int L (if b then 1 else 0)))
      | VStr s =>
          match float_of_string L s with
          | Some (Some x) => Ok (VFloat x)
          | Some None => Ok VNaN
          | None => Raise (ValueError "could not convert string to float")
          end
      | VNA | VNaT | VTime _ => Raise (TypeError "float() argument must be a string or a number")
      end
  | DDatetime =>
      match v with
      | VTime t => Ok (VTime t)
      | VNaT | VNone | VNaN | VNA => Ok VNaT
      | VInt z => Ok (VTime z)
      | VStr s =>
          match parse_datetime L s with
          | Some t => Ok (VTime t)
          | None => Raise (ValueError "could not convert object to datetime")
          end
      | VFloat _ | VBool _ => Raise (TypeError "cannot astype to datetime64")
      end
  | DString =>
      match v with
      | VStr s => Ok (VStr s)
      | VNone | VNA | VNaN | VNaT => Ok VNA
      | _ => Ok (VStr (py_str L v))
      end
  end.

(** [series.astype(token)] *)
Definition astype (L : PyLib) (token : string) (series : Series) : result Series :=
  match dtype_of_token token with
  | None => Raise (TypeError "data type not understood")
  | Some dt =>
      do vs <- mapM (cast_cell L dt) (svalues series);
      Ok (mkSeries (sname series) dt vs)
  end.

(** [series.astype(str)]: every cell becomes its [str]. *)
Definition astype_str (L : PyLib) (series : Series) : Series :=
  mkSeries (sname series) DObject (map (fun v => VStr (py_str L v)) (svalues series)).

(** The [.str] accessor applies a string method to the string cells and
    gives NaN for the others. *)
Definition str_map (f : string -> value) (series : Series) : Series :=
  mkSeries (sname series) DObject
    (map (fun v => match v with VStr s => f s | _ => VNaN end) (svalues series)).

Definition str_strip : Series -> Series := str_map (fun s => VStr (Str.strip s)).
Definition str_lower : Series -> Series := str_map (fun s => VStr (Str.lower s)).
Definition str_startswith (p : string) : Series -> Series :=
  str_map (fun s => VBool (Str.startswith s p)).

(** [series.str.replace(pat, repl, case=..., regex=True)]: [pat] is
    compiled, with [re.IGNORECASE] when [case] is false, and every cell goes
    through its [sub]. *)
Definition str_replace (pat repl : string) (case : bool) (series : Series)
  : result Series :=
  match Re.compile pat with
  | None => Raise (ValueError "re.error")
  | Some r => Ok (str_map (fun s => VStr (Re.sub (negb case) r repl s)) series)
  end.

(** [pandas.to_numeric(series, errors="coerce")] *)
Definition to_numeric_coerce (L : PyLib) (series : Series) : Series :=
  mkSeries (sname series) DFloat64
    (map (fun v =>
            match v with
            | VInt z => VInt z
            | VFloat x => VFloat x
            | VBool b => VBool b
            | VStr s =>
                match to_numeric_string L s with
                | Some x => VFloat x
                | None => VNaN
                end
            | VTime t =>
                match sdtype series with
                | DDatetime => VInt t
                | _ => VNaN
                end
            | VNone | VNA | VNaN | VNaT => VNaN
            end) (svalues series)).

(** ** base_mapper.py *)

(** Python dictionaries with string keys, in insertion order. *)
Definition dict (V : Type) : Type := list (string * V).

Fixpoint dict_get {V : Type} (d : dict V) (key : string) : option V :=
  match d with
  | [] => None
  | (k, v) :: d' => if String.eqb k key then Some v else dict_get d' key
  end.

Definition dict_get_default {V : Type} (d : dict V) (key : string) (default : V) : V :=
  match dict_get d key with
  | Some v => v
  | None => default
  end.

Definition dict_getitem {V : Type} (d : dict V) (key : string) : result V :=
  match dict_get d key with
  | Some v => Ok v
  | None => Raise (KeyError key)
  end.

Definition UNKNOWN_TOKENS : list string :=
  [ "nan"; "na"; "ndn.d"; "none"; "-"; "unknown"; "n/a"; "n/d"; "" ].

Definition UNKNOWN_REGEX : string := "$^|n\.?[a|d|/|n]+\.?|^-$|unk.*|none".

(** [DATA_TYPES], the result of [get_data_types()]: table name, then
    lower-cased variable name, then the entry [{"variableType": token}]
    read from the remote registry. *)
Definition registry : Type := dict (dict (dict string)).

Definition parse_types (L : PyLib) (DATA_TYPES : registry)
  (table_name : string) (series : Series) : result Series :=
  let variable_name := Str.lower (sname series) in
  let types := DATA_TYPES in
  do lookup_table <- dict_getitem types table_name;
  let lookup_type := dict_get_default lookup_table variable_name [] in
  let desired_type := dict_get_default lookup_type "variableType" "string" in
  do series <-
    (if String.eqb desired_type "bool" then
       let series := astype_str L series in
       let default_bool :=
         if Str.contains "qualityFlag" variable_name then "false" else "true" in
       let series := str_lower (str_strip series) in
       do series <- str_replace UNKNOWN_REGEX default_bool true series;
       do series <- str_replace "oui" "true" false series;
       do series <- str_replace "yes" "true" false series;
       Ok (str_startswith "true" series)
     else if String.eqb desired_type "string" || String.eqb desired_type "category" then
       let series := astype_str L series in
       let series := str_strip series in
       do series <- str_replace UNKNOWN_REGEX "" false series;
       Ok (if negb (String.eqb variable_name "wkt") then str_lower series else series)
     else if existsb (String.eqb desired_type) ["inst64"; "float64"] then
       Ok (to_numeric_coerce L series)
     else Ok series);
  astype L desired_type series.



(** ** Tables: the pandas operations odm.py calls *)

Definition value_eqb (a b : value) : bool :=
  match a, b with
  | VNone, VNone | VNA, VNA | VNaN, VNaN | VNaT, VNaT => true
  | VBool x, VBool y => Bool.eqb x y
  | VInt x, VInt y => (x =? y)%Z
  | VFloat x, VFloat y => (x =? y)%Z
  | VStr x, VStr y => String.eqb x y
  | VTime x, VTime y => (x =? y)%Z
  | _, _ => false
  end.

(** A row as [iterrows] and [iloc] give it: the cells by column name,
    in column order. *)
Definition row : Type := list (string * value).

Definition nrows (df : DataFrame) : nat := length (index df).

Definition col_names (df : DataFrame) : list string := map sname (columns df).

(** [name in df.columns] *)
Definition has_column (df : DataFrame) (name : string) : bool :=
  existsb (String.eqb name) (col_names df).

Fixpoint find_column (cols : list Series) (name : string) : option Series :=
  match cols with
  | [] => None
  | c :: cols' => if String.eqb (sname c) name then Some c else find_column cols' name
  end.

(** [df[name]] *)
Definition df_getitem (df : DataFrame) (name : string) : result Series :=
  match find_column (columns df) name with
  | Some c => Ok c
  | None => Raise (KeyError name)
  end.

(** [row[name]] *)
Definition row_getitem (r : row) (name : string) : result value :=
  dict_getitem r name.

(** A cell of an int64 column that becomes float64: the integer as the
    float of the same value. *)
Definition int_as_float (L : PyLib) (v : value) : value :=
  match v with
  | VInt z => VFloat (float_of_int L z)
  | _ => v
  end.

(** A row is a Series of one dtype, the common dtype of the columns:
    float64 when every column is int64 or float64 and one of them is
    float64, in which case an integer cell comes as the float of the
    same value; in every other table the cells come as the columns
    hold them. *)
Definition rows_are_float (df : DataFrame) : bool :=
  forallb (fun c => match sdtype c with
                    | DInt64 | DFloat64 => true
                    | _ => false
                    end) (columns df)
  && existsb (fun c => dtype_eqb (sdtype c) DFloat64) (columns df).

Definition row_cell (L : PyLib) (df : DataFrame) (v : value) : value :=
  if rows_are_float df then int_as_float L v else v.

(** [df.iloc[pos]] for a position inside the table *)
Definition get_row (L : PyLib) (df : DataFrame) (pos : nat) : row :=
  map (fun c => (sname c, row_cell L df (nth pos (svalues c) VNaN))) (columns df).

(** [df.iterrows()]: the label and the row at every position *)
Definition iterrows (L : PyLib) (df : DataFrame) : list (value * row) :=
  combine (index df) (map (get_row L df) (seq 0 (nrows df))).

(** [df[name] = None; df[name] = df[name].astype(dt)]: a new last
    column, or the column of that name replaced, holding what [None]
    becomes under the dtype. *)
Definition replace_column (cols : list Series) (c : Series) : list Series :=
  if existsb (fun c' => String.eqb (sname c') (sname c)) cols
  then map (fun c' => if String.eqb (sname c') (sname c) then c else c') cols
  else cols ++ [c].

Definition set_column (df : DataFrame) (c : Series) : DataFrame :=
  mkDF (index df) (replace_column (columns df) c).

Definition new_column (L : PyLib) (df : DataFrame) (name : string) (dt : dtype)
  : result DataFrame :=
  do vs <- mapM (cast_cell L dt) (repeat VNone (nrows df));
  Ok (set_column df (mkSeries name dt vs)).

(** [df.loc[i, name] = v]: every row labelled [i] gets [v] in column
    [name]. *)
Fixpoint set_where (labels : list value) (i : value) (v : value) (vs : list value)
  : list value :=
  match labels, vs with
  | l :: labels', x :: vs' =>
      (if value_eqb l i then v else x) :: set_where labels' i v vs'
  | _, _ => vs
  end.

Definition loc_set (df : DataFrame) (i : value) (name : string) (v : value)
  : DataFrame :=
  mkDF (index df)
       (map (fun c =>
               if String.eqb (sname c) name
               then mkSeries (sname c) (sdtype c) (set_where (index df) i v (svalues c))
               else c) (columns df)).

(** [df.drop(columns=labels)]: a label that names no column raises. *)
Definition drop_columns (df : DataFrame) (labels : list string) : result DataFrame :=
  match find (fun l => negb (has_column df l)) labels with
  | Some l => Raise (KeyError l)
  | None =>
      Ok (mkDF (index df)
               (filter (fun c => negb (existsb (String.eqb (sname c)) labels))
                       (columns df)))
  end.

(** [df.add_prefix(p)] *)
Definition add_prefix (p : string) (df : DataFrame) : DataFrame :=
  mkDF (index df)
       (map (fun c => mkSeries (String.append p (sname c)) (sdtype c) (svalues c))
            (columns df)).

(** [series.fillna(other)] for two columns of one table *)
Fixpoint fillna (vs other : list value) : list value :=
  match vs, other with
  | v :: vs', o :: other' => (if is_missing v then o else v) :: fillna vs' other'
  | _, _ => vs
  end.

(** [df.set_index(name, inplace=True)] *)
Definition set_index (df : DataFrame) (name : string) : result DataFrame :=
  do c <- df_getitem df name;
  Ok (mkDF (svalues c)
           (filter (fun c' => negb (String.eqb (sname c') name)) (columns df))).

(** *** [append] and [drop_duplicates] *)

Fixpoint has_dup (l : list string) : bool :=
  match l with
  | [] => false
  | x :: l' => existsb (String.eqb x) l' || has_dup l'
  end.

Definition names_eqb (a b : list string) : bool :=
  (length a =? length b) && forallb (fun p => String.eqb (fst p) (snd p)) (combine a b).

(** The dtype of a column put together from a part of dtype [a] and a
    part of dtype [b]: an int64 and a float64 part make a float64
    column, any other two dtypes that differ an object column. *)
Definition common_dtype (a b : dtype) : dtype :=
  if dtype_eqb a b then a
  else match a, b with
       | DInt64, DFloat64 | DFloat64, DInt64 => DFloat64
       | _, _ => DObject
       end.

(** The dtype of a column that has its cells from one of the two
    tables only, the others being NaN: integers cannot stand beside
    NaN and become floats, booleans become objects. *)
Definition filled_dtype (d : dtype) : dtype :=
  match d with
  | DInt64 => DFloat64
  | DBool => DObject
  | _ => d
  end.

(** The cells of a part of dtype [from] in a column of dtype [to]: in a
    float64 column an integer becomes the float of the same value. *)
Definition upcast (L : PyLib) (from to : dtype) (vs : list value) : list value :=
  match from, to with
  | DInt64, DFloat64 => map (int_as_float L) vs
  | _, _ => vs
  end.

(** [df.append(other)]: the rows of [other] after those of [df], labels
    kept.  When the two column lists differ the result has the columns of
    [df] followed by the new ones of [other], cells without a source
    being NaN; pandas can only line the columns up when neither list
    repeats a name, and raises otherwise. *)
Definition append (L : PyLib) (df other : DataFrame) : result DataFrame :=
  let a := col_names df in
  let b := col_names other in
  if names_eqb a b then
    Ok (mkDF (index df ++ index other)
             (map (fun p =>
                     let dt := common_dtype (sdtype (fst p)) (sdtype (snd p)) in
                     mkSeries (sname (fst p)) dt
                              (upcast L (sdtype (fst p)) dt (svalues (fst p))
                               ++ upcast L (sdtype (snd p)) dt (svalues (snd p))))
                  (combine (columns df) (columns other))))
  else if has_dup a || has_dup b then Raise InvalidIndexError
  else
    let names := a ++ filter (fun n => negb (existsb (String.eqb n) a)) b in
    Ok (mkDF (index df ++ index other)
             (map (fun n =>
                     match find_column (columns df) n, find_column (columns other) n with
                     | Some c, Some c' =>
                         let dt := common_dtype (sdtype c) (sdtype c') in
                         mkSeries n dt (upcast L (sdtype c) dt (svalues c)
                                        ++ upcast L (sdtype c') dt (svalues c'))
                     | Some c, None =>
                         let dt := filled_dtype (sdtype c) in
                         mkSeries n dt (upcast L (sdtype c) dt (svalues c)
                                        ++ repeat VNaN (nrows other))
                     | None, Some c' =>
                         let dt := filled_dtype (sdtype c') in
                         mkSeries n dt (repeat VNaN (nrows df)
                                        ++ upcast L (sdtype c') dt (svalues c'))
                     | None, None =>
                         mkSeries n DObject
                                  (repeat VNaN (nrows df) ++ repeat VNaN (nrows other))
                     end)
                  names)).

(** Two cells count as the same for [drop_duplicates] when both are
    missing or they are equal. *)
Definition same_cell (a b : value) : bool :=
  (is_missing a && is_missing b) || value_eqb a b.

Fixpoint same_row (r1 r2 : list value) : bool :=
  match r1, r2 with
  | [], [] => true
  | x :: r1', y :: r2' => same_cell x y && same_row r1' r2'
  | _, _ => false
  end.

Definition row_cells (df : DataFrame) (pos : nat) : list value :=
  map (fun c => nth pos (svalues c) VNaN) (columns df).

(** The positions [drop_duplicates] keeps: the first of each group of
    equal rows. *)
Fixpoint keep_first (df : DataFrame) (seen : list (list value)) (positions : list nat)
  : list nat :=
  match positions with
  | [] => []
  | p :: ps =>
      let r := row_cells df p in
      if existsb (same_row r) seen then keep_first df seen ps
      else p :: keep_first df (r :: seen) ps
  end.

Definition take_rows (df : DataFrame) (positions : list nat) : DataFrame :=
  mkDF (map (fun p => nth p (index df) VNaN) positions)
       (map (fun c =>
               mkSeries (sname c) (sdtype c)
                        (map (fun p => nth p (svalues c) VNaN) positions))
            (columns df)).

Definition drop_duplicates (df : DataFrame) : DataFrame :=
  take_rows df (keep_first df [] (seq 0 (nrows df))).

(** [df.append(new_row, ignore_index=True)] for a row of the table's own
    columns: one more row at the end, and the labels become 0, 1, ... *)
Definition append_row (df : DataFrame) (r : row) : DataFrame :=
  mkDF (map (fun n => VInt (Z.of_nat n)) (seq 0 (S (nrows df))))
       (map (fun c =>
               mkSeries (sname c) (sdtype c)
                        (svalues c ++ [dict_get_default r (sname c) VNaN]))
            (columns df)).

(** ** odm.py: the [Odm] container *)

(** An [Odm] object is its [__dict__]: the attributes in the order
    [__init__] sets them, each [None] or a table.  (The [lookup]
    argument of [__init__] is not stored.) *)
Definition Odm : Type := dict (option DataFrame).

Definition Odm_init (sample ww_measure site site_measure reporter lab assay_method
                     instrument polygon cphd : option DataFrame) : Odm :=
  [ ("sample", sample); ("ww_measure", ww_measure); ("site", site);
    ("site_measure", site_measure); ("reporter", reporter); ("lab", lab);
    ("assay_method", assay_method); ("instrument", instrument);
    ("polygon", polygon); ("cphd", cphd) ].

Definition Odm_empty : Odm :=
  Odm_init None None None None None None None None None None.

Definition getattr (self : Odm) (attribute : string) : result (option DataFrame) :=
  match dict_get self attribute with
  | Some v => Ok v
  | None => Raise (AttributeError attribute)
  end.

Fixpoint dict_set {V : Type} (d : dict V) (key : string) (v : V) : dict V :=
  match d with
  | [] => [(key, v)]
  | (k, x) :: d' =>
      if String.eqb k key then (k, v) :: d' else (k, x) :: dict_set d' key v
  end.

Definition setattr (self : Odm) (attribute : string) (v : option DataFrame) : Odm :=
  dict_set self attribute v.

(** A method called on an attribute that is [None] raises
    [AttributeError]. *)
Definition table_of (self : Odm) (attribute : string) : result DataFrame :=
  do v <- getattr self attribute;
  match v with
  | Some df => Ok df
  | None => Raise (AttributeError "NoneType")
  end.

Definition conversion_dict : dict (dict string) :=
  [ ("ww_measure", [("odm_name", "WWMeasure"); ("excel_name", "WWMeasure")]);
    ("site_measure", [("odm_name", "SiteMeasure"); ("excel_name", "SiteMeasure")]);
    ("sample", [("odm_name", "Sample"); ("excel_name", "Sample")]);
    ("site", [("odm_name", "Site"); ("excel_name", "Site")]);
    ("polygon", [("odm_name", "Polygon"); ("excel_name", "Polygon")]);
    ("cphd", [("odm_name", "CovidPublicHealthData"); ("excel_name", "CPHD")]);
    ("reporter", [("odm_name", "Reporter"); ("excel_name", "Reporter")]);
    ("lab", [("odm_name", "Lab"); ("excel_name", "Lab")]);
    ("assay_method", [("odm_name", "AssayMethod"); ("excel_name", "AssayMethod")]);
    ("instrument", [("odm_name", "Instrument"); ("excel_name", "Instrument")]) ].

Definition get_attribute_from_name (name : string) : option string :=
  option_map fst
    (find (fun entry => existsb (fun kv => String.eqb name (snd kv)) (snd entry))
          conversion_dict).

Fixpoint foldM {A S : Type} (f : S -> A -> result S) (l : list A) (s : S) : result S :=
  match l with
  | [] => Ok s
  | a :: l' => do s' <- f s a; foldM f l' s'
  end.

(** The text a qualifier value contributes to a column name. *)
Definition qualifier_text (L : PyLib) (qualifier : string) (qualifier_value : value)
  : string :=
  let qualifier_value := Str.replace "/" "-" (py_str L qualifier_value) in
  if String.eqb qualifier "qualityFlag"
  then Str.replace "False" "no_issue" (Str.replace "True" "quality_issue" qualifier_value)
  else qualifier_value.

(** The name of the column a row's feature goes to. *)
Definition feature_name_of (L : PyLib) (feature : string) (qualifiers : list string)
  (r : row) : result string :=
  do qualifying_values <-
    mapM (fun qualifier =>
            do qualifier_value <- row_getitem r qualifier;
            Ok (qualifier_text L qualifier qualifier_value)) qualifiers;
  let qualifying_text := Str.join "." qualifying_values in
  Ok (Str.join "." [qualifying_text; feature]).

(** The body of the inner loop of [__widen], on the table being built. *)
Definition widen_step (L : PyLib) (feature : string) (qualifiers : list string)
  (df : DataFrame) (ir : value * row) : result DataFrame :=
  let (i, r) := ir in
  do feature_name <- feature_name_of L feature qualifiers r;
  do feature_value <- row_getitem r feature;
  do feature_col <- df_getitem df feature;
  let feature_dtype := sdtype feature_col in
  do df <- (if negb (has_column df feature_name)
            then new_column L df feature_name feature_dtype
            else Ok df);
  Ok (loc_set df i feature_name feature_value).

(** [__widen]: the rows are read from a copy made on entry, the columns
    are added to the table passed in. *)
Definition widen (L : PyLib) (df : DataFrame) (features qualifiers : list string)
  : result DataFrame :=
  let df_copy := df in
  do df <- foldM (fun df feature =>
                    foldM (widen_step L feature qualifiers) (iterrows L df_copy) df)
                 features df;
  let columns_to_delete := features ++ qualifiers in
  drop_columns df columns_to_delete.

Definition remove_access (df : DataFrame) : result DataFrame :=
  let to_remove :=
    filter (fun col => Str.contains "access" (Str.lower col)) (col_names df) in
  drop_columns df to_remove.

Definition parse_ww_measure (L : PyLib) (self : Odm) : result DataFrame :=
  do df <- table_of self "ww_measure";
  let assay_col :=
    if existsb (String.eqb "assayID") (col_names df) then "assayID" else "assayMethodID" in
  do df <- remove_access df;
  do df <- widen L df
             ["value"; "analysisDate"; "reportDate"; "notes"; "qualityFlag"; assay_col]
             ["fractionAnalyzed"; "type"; "unit"; "aggregation"];
  Ok (add_prefix "WWMeasure." df).

(** [reset_index(inplace=True)] after a [groupby]: the key comes back
    as the first column. *)
Definition reset_index (key : string) (df : DataFrame) : DataFrame :=
  mkDF (map (fun n => VInt (Z.of_nat n)) (seq 0 (nrows df)))
       (mkSeries key DObject (index df) :: columns df).

Definition parse_site_measure (L : PyLib) (self : Odm) : result DataFrame :=
  do df <- table_of self "site_measure";
  do df <- remove_access df;
  do df <- widen L df ["value"; "notes"] ["type"; "unit"; "aggregation"];
  do df <- groupby_reduce L "dateTime" df;
  let df := reset_index "dateTime" df in
  Ok (add_prefix "SiteMeasure." df).

Definition parse_site (self : Odm) : result DataFrame :=
  do df <- table_of self "site";
  Ok (add_prefix "Site." df).

Definition parse_polygon (self : Odm) : result DataFrame :=
  do df <- table_of self "polygon";
  Ok (add_prefix "Polygon." df).

Definition parse_cphd (L : PyLib) (self : Odm) : result DataFrame :=
  do df <- table_of self "cphd";
  do df <- remove_access df;
  do df <- widen L df ["value"; "date"; "notes"] ["type"; "dateType"];
  do df <- groupby_reduce L "cphdID" df;
  let df := reset_index "cphdID" df in
  Ok (add_prefix "CPHD." df).

(** *** [__parse_sample]

    [df] starts as the stored table itself ([df = self.sample]), so what
    is written to it is written to the attribute, until [df.append]
    rebinds [df] to a new table. *)
Record sample_state : Type := mkSampleState {
  stored : DataFrame;            (* the table [self.sample] refers to *)
  rebound : option DataFrame     (* [df], once it is another table *)
}.

Definition current (st : sample_state) : DataFrame :=
  match rebound st with
  | Some df => df
  | None => stored st
  end.

Definition write (st : sample_state) (df : DataFrame) : sample_state :=
  match rebound st with
  | Some _ => mkSampleState (stored st) (Some df)
  | None => mkSampleState df None
  end.

(** The position [.iloc[i]] reads an index label as. *)
Definition iloc_position (n : nat) (i : value) : result nat :=
  match i with
  | VInt z =>
      if ((0 <=? z) && (z <? Z.of_nat n))%Z then Ok (Z.to_nat z)
      else if ((- Z.of_nat n <=? z) && (z <? 0))%Z then Ok (Z.to_nat (Z.of_nat n + z))
      else Raise (IndexError "iloc cannot enlarge its target object")
  | _ => Raise (TypeError "Cannot index by location index with a non-integer key")
  end.

Fixpoint set_nth (pos : nat) (v : value) (vs : list value) : list value :=
  match pos, vs with
  | O, _ :: vs' => v :: vs'
  | S p, x :: vs' => x :: set_nth p v vs'
  | _, [] => []
  end.

(** [df[name].iloc[pos] = v], written through to the table *)
Definition iloc_set (df : DataFrame) (name : string) (pos : nat) (v : value)
  : DataFrame :=
  mkDF (index df)
       (map (fun c =>
               if String.eqb (sname c) name
               then mkSeries (sname c) (sdtype c) (set_nth pos v (svalues c))
               else c) (columns df)).

(** The body of the loop over the rows of the copy.  Under
    [mode.chained_assignment = "raise"] (set when the module is loaded)
    an assignment pandas flags raises before anything is written. *)
Definition explode_step (L : PyLib) (st : sample_state) (ir : value * row)
  : result sample_state :=
  let (i, r) := ir in
  do sites <- row_getitem r "siteID";
  match sites with
  | VStr sites =>
      if Str.contains ";" sites then
        let site_ids := set_iter L (map Str.strip (Str.split ";" sites)) in
        match site_ids with
        | [] => Raise (KeyError "pop from an empty set")
        | popped :: site_ids =>
            do _ <- df_getitem (current st) "siteID";
            do pos <- iloc_position (nrows (current st)) i;
            if chained_assignment_flagged L (current st) "siteID"
            then Raise SettingWithCopyError
            else
              let st := write st (iloc_set (current st) "siteID" pos (VStr popped)) in
              foldM (fun st site_id =>
                       do pos <- iloc_position (nrows (current st)) i;
                       let new_row := get_row L (current st) pos in
                       let new_row := dict_set new_row "siteID" (VStr site_id) in
                       Ok (mkSampleState (stored st)
                                         (Some (append_row (current st) new_row))))
                    site_ids st
        end
      else Ok st
  | _ => Raise (TypeError "argument is not iterable")
  end.

(** [df[target] = df[target].fillna(df[source])] *)
Definition fill_from (df : DataFrame) (target source : string) : result DataFrame :=
  do t <- df_getitem df target;
  do s <- df_getitem df source;
  Ok (set_column df (mkSeries target (sdtype t) (fillna (svalues t) (svalues s)))).

(** [__parse_sample]: the table it returns, and the object as the call
    leaves it. *)
Definition parse_sample (L : PyLib) (self : Odm) : result (DataFrame * Odm) :=
  do df <- table_of self "sample";
  let df_copy := df in
  do st <- foldM (explode_step L) (iterrows L df_copy) (mkSampleState df None);
  do df <- fill_from (current st) "dateTimeStart" "dateTime";
  let st := write st df in
  do df <- fill_from (current st) "dateTimeEnd" "dateTime";
  let st := write st df in
  do df <- drop_columns (current st) ["dateTime"];
  let st := write st df in
  Ok (add_prefix "Sample." (current st), setattr self "sample" (Some (stored st))).

(** *** [add_to_attr] and [append_odm]

    The second component is what [print(e)] wrote. *)
Definition add_to_attr (L : PyLib) (self : Odm) (attribute : string)
  (new_df : option DataFrame)
  : result (Odm * list exn) :=
  do current_value <- getattr self attribute;
  match current_value with
  | None => Ok (setattr self attribute new_df, [])
  | Some current_value =>
      let attempt :=
        do appended <- match new_df with
                       | Some new_df => append L current_value new_df
                       | None => Ok current_value
                       end;
        Ok (drop_duplicates appended) in
      match attempt with
      | Ok combined_df => Ok (setattr self attribute (Some combined_df), [])
      | Raise e => Ok (setattr self attribute (Some current_value), [e])
      end
  end.

Definition append_odm (L : PyLib) (self other_odm : Odm) : result (Odm * list exn) :=
  foldM (fun acc attribute =>
           do other_value <- getattr other_odm attribute;
           do r <- add_to_attr L (fst acc) attribute other_value;
           Ok (fst r, snd acc ++ snd r))
        (map fst self) (self, []).

(** *** [get_geoJSON] *)

Record Feature : Type := mkFeature {
  f_type : string;
  f_geometry : json;
  f_properties : dict value;
  f_id : value
}.

Record FeatureCollection : Type := mkFeatureCollection {
  fc_type : string;
  fc_features : list Feature
}.

Definition get_geoJSON (L : PyLib) (self : Odm) : result FeatureCollection :=
  do polygon_df <- table_of self "polygon";
  do features <-
    mapM (fun ir : value * row =>
            let (i, r) := ir in
            do wkt <- row_getitem r "wkt";
            do geometry <- match convert_wkt_to_geojson L wkt with
                           | Some g => Ok g
                           | None => Raise (ValueError "convert_wkt_to_geojson")
                           end;
            do properties <-
              foldM (fun d col => do v <- row_getitem r col; Ok (dict_set d col v))
                    (filter (fun col => negb (Str.contains "wkt" col))
                            (col_names polygon_df))
                    [];
            Ok (mkFeature "Feature" geometry properties i))
         (iterrows L polygon_df);
  Ok (mkFeatureCollection "FeatureCollection" features).

(** *** [combine_per_sample]

    The local variables of the function, which its nested helpers see:
    a name is [None] until it is assigned. *)
Record locals : Type := mkLocals {
  ww_measure_var : option DataFrame;
  sample_var : option DataFrame;
  merged_var : option DataFrame;
  site_measure_var : option DataFrame;
  site_var : option DataFrame;
  cphd_var : option DataFrame
}.

Definition no_locals : locals := mkLocals None None None None None None.

Definition agg_ww_measure_per_sample (L : PyLib) (ww : DataFrame) : result DataFrame :=
  groupby_reduce L "WWMeasure.sampleID" ww.

Definition combine_ww_measure_and_sample (L : PyLib) (ww sample : DataFrame)
  : result DataFrame :=
  merge_left L sample ww "Sample.sampleID" "WWMeasure.sampleID".

Definition combine_sample_site_measure (L : PyLib) (sample site_measure : DataFrame)
  : result DataFrame :=
  sqlite_between_join L sample site_measure.

Definition combine_site_sample (L : PyLib) (sample site : DataFrame)
  : result DataFrame :=
  merge_left L sample site "Sample.siteID" "Site.siteID".

(** The body is [return merged]: the name is not a parameter, so it is
    looked up in the enclosing function when the helper runs. *)
Definition combine_cphd_by_geo (frame : locals) (sample cphd : DataFrame)
  : result DataFrame :=
  match merged_var frame with
  | Some merged => Ok merged
  | None => Raise (NameError "merged")
  end.

Definition combine_per_sample (L : PyLib) (self : Odm) : result (DataFrame * Odm) :=
  let frame := no_locals in
  do ww_measure <- parse_ww_measure L self;
  do ww_measure <- agg_ww_measure_per_sample L ww_measure;
  let frame := mkLocals (Some ww_measure) (sample_var frame) (merged_var frame)
                        (site_measure_var frame) (site_var frame) (cphd_var frame) in
  do sample_self <- parse_sample L self;
  let (sample, self) := sample_self in
  let frame := mkLocals (ww_measure_var frame) (Some sample) (merged_var frame)
                        (site_measure_var frame) (site_var frame) (cphd_var frame) in
  do merged <- combine_ww_measure_and_sample L ww_measure sample;
  let frame := mkLocals (ww_measure_var frame) (sample_var frame) (Some merged)
                        (site_measure_var frame) (site_var frame) (cphd_var frame) in
  do site_measure <- parse_site_measure L self;
  let frame := mkLocals (ww_measure_var frame) (sample_var frame) (merged_var frame)
                        (Some site_measure) (site_var frame) (cphd_var frame) in
  do merged <- combine_sample_site_measure L merged site_measure;
  let frame := mkLocals (ww_measure_var frame) (sample_var frame) (Some merged)
                        (site_measure_var frame) (site_var frame) (cphd_var frame) in
  do site <- parse_site self;
  let frame := mkLocals (ww_measure_var frame) (sample_var frame) (merged_var frame)
                        (site_measure_var frame) (Some site) (cphd_var frame) in
  do merged <- combine_site_sample L merged site;
  let frame := mkLocals (ww_measure_var frame) (sample_var frame) (Some merged)
                        (site_measure_var frame) (site_var frame) (cphd_var frame) in
  do cphd <- parse_cphd L self;
  let frame := mkLocals (ww_measure_var frame) (sample_var frame) (merged_var frame)
                        (site_measure_var frame) (site_var frame) (Some cphd) in
  do merged <- combine_cphd_by_geo frame merged cphd;
  do merged <- set_index merged "Sample.sampleID";
  Ok (merged, self).

(** ** The envelope codec: [OdmEncoder] and [decode_object] *)

(** What [to_json(date_format="iso")] writes for a cell or a label: a
    missing value as null, a timestamp as its ISO 8601 text. *)
Definition scalar_of_value (L : PyLib) (v : value) : scalar :=
  match v with
  | VNone | VNA | VNaN | VNaT => SNull
  | VBool b => SBool b
  | VInt z => SInt z
  | VFloat x => json_float L x
  | VStr s => SStr s
  | VTime t => SStr (iso_format L t)
  end.

(** [df.to_json(date_format="iso", orient="split")] *)
Definition to_json_split (L : PyLib) (df : DataFrame) : split_table :=
  mkSplit (col_names df)
          (map (scalar_of_value L) (index df))
          (map (fun pos =>
                  map (fun c => scalar_of_value L (nth pos (svalues c) VNone))
                      (columns df))
               (seq 0 (nrows df))).

(** The columns [read_json] tries to read as dates (its
    [keep_default_dates]): those whose label, lower-cased, ends in
    [_at] or [_time], begins with [timestamp], or is [modified], [date]
    or [datetime]. *)
Definition date_like_label (col : string) : bool :=
  let col_lower := Str.lower col in
  Str.endswith col_lower "_at"
  || Str.endswith col_lower "_time"
  || String.eqb col_lower "modified"
  || String.eqb col_lower "date"
  || String.eqb col_lower "datetime"
  || Str.startswith col_lower "timestamp".

(** A cell of a column that was not read as dates. *)
Definition value_of_scalar (dt : dtype) (s : scalar) : value :=
  match s with
  | SNull => match dt with DFloat64 => VNaN | _ => VNone end
  | SBool b => VBool b
  | SInt z => VInt z
  | SFloat x => VFloat x
  | SStr t => VStr t
  end.

(** One column read back: dates are tried on a date-like label only,
    and on a column that has cells; then the type conversion. *)
Definition read_column (L : PyLib) (name : string) (cells : list scalar) : Series :=
  let dates :=
    if date_like_label name
    then match cells with
         | [] => None
         | _ :: _ => try_convert_to_date L cells
         end
    else None in
  match dates with
  | Some stamps => mkSeries name DDatetime stamps
  | None =>
      let dt := convert_dtype L cells in
      mkSeries name dt (map (fun s => value_of_scalar dt (convert_cell L dt s)) cells)
  end.

Fixpoint read_columns (L : PyLib) (data : list (list scalar)) (pos : nat)
         (names : list string) : list Series :=
  match names with
  | [] => []
  | name :: names' =>
      read_column L name (map (fun r => nth pos r SNull) data)
        :: read_columns L data (S pos) names'
  end.

(** One label per row, one cell per column in each row. *)
Definition well_shaped (t : split_table) : bool :=
  (length (split_data t) =? length (split_index t))
  && forallb (fun r => length r =? length (split_columns t)) (split_data t).

(** [pd.read_json(payload, orient="split")].  Column labels are kept as
    they are written: pandas converts a list of labels that all read as
    numbers or as dates, which no table of the data model has. *)
Definition read_json_split (L : PyLib) (payload : pyobj) : result DataFrame :=
  match payload with
  | PSplit t =>
      if well_shaped t
      then Ok (mkDF (convert_axis L (split_index t))
                    (read_columns L (split_data t) 0 (split_columns t)))
      else read_json_other L payload
  | _ => read_json_other L payload
  end.

(** [d.update(items)] *)
Definition dict_update {V : Type} (d items : dict V) : dict V :=
  fold_left (fun acc kv => dict_set acc (fst kv) (snd kv)) items d.

(** [json.dumps(o, cls=OdmEncoder)]: [default] wraps an [Odm] instance,
    a timestamp and a table in a one-key dict, which is then written
    like any dict; every object of [pyobj] is written by the encoder or
    by [default]. *)
Fixpoint dumps (L : PyLib) (o : pyobj) : json :=
  match o with
  | PNone => JNull
  | PBool b => JBool b
  | PInt z => JInt z
  | PFloat x => JFloat x
  | PStr s => JStr s
  | PSplit t => JSplit t
  | PList items => JArr (map (dumps L) items)
  | PDict items => JObj (map (fun kv => (fst kv, dumps L (snd kv))) items)
  | PTimestamp t => JObj [("__Timestamp__", JStr (timestamp_str L t))]
  | PDataFrame df => JObj [("__DataFrame__", JSplit (to_json_split L df))]
  | POdm attrs =>
      JObj [("__Odm__", JObj (map (fun kv => (fst kv, dumps L (snd kv))) attrs))]
  end.

Definition decode_object (L : PyLib) (o : dict pyobj) : result pyobj :=
  match dict_get o "__Odm__" with
  | Some payload =>
      (* a = Odm(payload): the payload is the [sample] argument *)
      let a := dict_set (map (fun kv => (fst kv, PNone)) Odm_empty) "sample" payload in
      do items <- match payload with
                  | PDict items => Ok items
                  | _ => update_items L payload
                  end;
      Ok (POdm (dict_update a items))
  | None =>
      match dict_get o "__DataFrame__" with
      | Some payload =>
          do a <- read_json_split L payload;
          Ok (PDataFrame a)
      | None =>
          match dict_get o "__Timestamp__" with
          | Some (PStr s) =>
              match parse_datetime L s with
              | Some t => Ok (PTimestamp t)
              | None => Raise (ValueError s)
              end
          | Some payload => to_datetime_other L payload
          | None => Ok (PDict o)
          end
      end
  end.

(** [json.loads(text, object_hook=decode_object)]: the hook is given
    every JSON object once its members are read, innermost first. *)
Fixpoint loads (L : PyLib) (j : json) : result pyobj :=
  match j with
  | JNull => Ok PNone
  | JBool b => Ok (PBool b)
  | JInt z => Ok (PInt z)
  | JFloat x => Ok (PFloat x)
  | JStr s => Ok (PStr s)
  | JSplit t => Ok (PSplit t)
  | JArr items =>
      do os <- (fix each (l : list json) : result (list pyobj) :=
                  match l with
                  | [] => Ok []
                  | x :: l' => do o <- loads L x; do os <- each l'; Ok (o :: os)
                  end) items;
      Ok (PList os)
  | JObj fields =>
      do items <- (fix each (l : list (string * json))
                     : result (list (string * pyobj)) :=
                     match l with
                     | [] => Ok []
                     | (k, x) :: l' =>
                         do o <- loads L x; do os <- each l'; Ok ((k, o) :: os)
                     end) fields;
      decode_object L (dict_update [] items)
  end.

(** The two calls of [test_serialization_deserialization]. *)
Definition serialization_deserialization (L : PyLib) (odm_instance : pyobj)
  : result pyobj :=
  let serialized := dumps L odm_instance in
  loads L serialized.

(** * Definitions the statements are written with *)

(** ** Definitions the statements and proofs below use *)

(** The pattern [UNKNOWN_REGEX], read ([Re.compile] gives it back), with
    a name for each of its five alternatives. *)
Definition re_set_tail : Re.regex :=
  Re.RSeq (Re.RPlus (Re.RSet ["a"; "|"; "d"; "|"; "/"; "|"; "n"]%char))
          (Re.ROpt (Re.RChar ".")).

Definition re_empty : Re.regex := Re.RSeq Re.REol Re.RBol.

Definition re_n_forms : Re.regex :=
  Re.RSeq (Re.RChar "n") (Re.RSeq (Re.ROpt (Re.RChar ".")) re_set_tail).

Definition re_dash : Re.regex := Re.RSeq Re.RBol (Re.RSeq (Re.RChar "-") Re.REol).

Definition re_unk : Re.regex :=
  Re.RSeq (Re.RChar "u")
          (Re.RSeq (Re.RChar "n") (Re.RSeq (Re.RChar "k") (Re.RStar Re.RAny))).

Definition re_none : Re.regex :=
  Re.RSeq (Re.RChar "n")
          (Re.RSeq (Re.RChar "o") (Re.RSeq (Re.RChar "n") (Re.RChar "e"))).

Definition unknown_re : Re.regex :=
  Re.RAlt re_empty (Re.RAlt re_n_forms (Re.RAlt re_dash (Re.RAlt re_unk re_none))).

(** The unknown tokens as the specification lists them. *)
Definition listed_unknown_tokens : list string :=
  [ "nan"; "na"; "nd"; "n.d"; "none"; "-"; "unknown"; "n/a"; "n/d"; "" ].

(** Greedy repetition of a one-character item, by recursion on the
    input: the longest run first, then shorter ones. *)
Fixpoint backtrack (P : ascii -> bool) (k : Re.cont) (pos : nat) (s : string)
  : option (nat * string) :=
  match s with
  | String a s' =>
      if P a then
        match backtrack P k (S pos) s' with
        | Some r => Some r
        | None => k pos s
        end
      else k pos s
  | EmptyString => k pos s
  end.

(** What is left of [s] after its longest prefix of characters
    satisfying [P], and the length of that prefix. *)
Fixpoint eat (P : ascii -> bool) (s : string) : string :=
  match s with
  | String a s' => if P a then eat P s' else s
  | EmptyString => EmptyString
  end.

Fixpoint run (P : ascii -> bool) (s : string) : nat :=
  match s with
  | String a s' => if P a then S (run P s') else 0
  | EmptyString => 0
  end.

(** The continuation of [fullmatch]: the input has to be used up. *)
Definition at_eof : Re.cont :=
  fun e rest =>
    match rest with
    | EmptyString => Some (e, rest)
    | _ => None
    end.

(** The continuation of a first attempt of [sub]. *)
Definition anywhere : Re.cont := fun e rest => Some (e, rest).

(** The character set of [UNKNOWN_REGEX], and the items in it. *)
Definition in_set (a : ascii) : bool :=
  existsb (fun c => Re.chr_eq true c a) ["a"; "|"; "d"; "|"; "/"; "|"; "n"]%char.

Definition not_lf (a : ascii) : bool := negb (Ascii.eqb a Re.LF).

(** An optional full stop, then [k]. *)
Definition opt_dot (k : Re.cont) : Re.cont :=
  fun pos s =>
    match Re.single (Re.chr_eq true ".") pos s k with
    | Some x => Some x
    | None => k pos s
    end.

(** [[a|d|/|n]+\.?], then [k], once the repetition is resolved. *)
Definition set_run (k : Re.cont) (pos : nat) (s : string) : option (nat * string) :=
  match s with
  | String c s' =>
      if in_set c then opt_dot k (S pos + run in_set s') (eat in_set s') else None
  | EmptyString => None
  end.

(** A continuation that accepts wherever it is asked, or only at the end
    of the input. *)
Definition settled (k : Re.cont) : Prop :=
  (forall pos s, k pos s <> None) \/ (forall pos a s, k pos (String a s) = None).

(** The patterns [oui] and [yes], read. *)
Definition oui_re : Re.regex :=
  Re.RSeq (Re.RChar "o") (Re.RSeq (Re.RChar "u") (Re.RChar "i")).

Definition yes_re : Re.regex :=
  Re.RSeq (Re.RChar "y") (Re.RSeq (Re.RChar "e") (Re.RChar "s")).

(** The type token [parse_types] finds for a column: its three lookups
    in [DATA_TYPES]; [None] when the table is not in the registry. *)
Definition declared_type (DATA_TYPES : registry) (table_name column : string)
  : option string :=
  option_map
    (fun lookup_table =>
       dict_get_default (dict_get_default lookup_table (Str.lower column) [])
                        "variableType" "string")
    (dict_get DATA_TYPES table_name).

(** What one cell of a text column becomes. *)
Definition text_cell (L : PyLib) (column : string) (v : value) : value :=
  let s := Re.sub true unknown_re "" (Str.strip (py_str L v)) in
  VStr (if negb (String.eqb (Str.lower column) "wkt") then Str.lower s else s).

(** What one cell of a boolean column becomes, [default_bool] being the
    replacement of unknown values. *)
Definition bool_cell (L : PyLib) (default_bool : string) (v : value) : value :=
  let s := Str.lower (Str.strip (py_str L v)) in
  let s := Re.sub false unknown_re default_bool s in
  let s := Re.sub true oui_re "true" s in
  let s := Re.sub true yes_re "true" s in
  VBool (Str.startswith s "true").


(** An instance of the library interface, for statements that need one
    and do not depend on which: it reads no number or date from any
    string, prints all floats alike and all timestamps alike, keeps the
    first table of a join, iterates a set in the order of first
    insertion, flags no assignment and converts no column it reads. *)
Definition some_lib : PyLib :=
  mkPyLib (fun _ => "0.0") (fun _ => "1970-01-01 00:00:00")
          (fun _ => 0%Z) (fun _ => Some 0%Z)
          (fun _ => None) (fun _ => None) (fun _ => None)
          (fun _ => Some (JObj []))
          (fun l => rev (nodup string_dec (rev l)))
          (fun _ _ => false)
          (fun _ df => Ok df) (fun left _ _ _ => Ok left) (fun left _ => Ok left)
          (fun _ => "1970-01-01T00:00:00.000Z") (fun x => SFloat x)
          (fun _ => None) (fun _ => DObject) (fun _ s => s)
          (fun labels =>
             map (fun s => match s with
                           | SNull => VNone
                           | SBool b => VBool b
                           | SInt z => VInt z
                           | SFloat x => VFloat x
                           | SStr t => VStr t
                           end) labels)
          (fun _ => Raise (ValueError "Expected object or value"))
          (fun _ => Raise (TypeError "to_datetime"))
          (fun _ => Raise (TypeError "object is not iterable")).

(** A registry with four WWMeasure variables of the four kinds. *)
Definition example_registry : registry :=
  [ ("WWMeasure",
     [ ("qualityflag", [("variableType", "bool")]);
       ("index", [("variableType", "int64")]);
       ("value", [("variableType", "float64")]);
       ("notes", [("variableType", "string")]) ]) ].

(** The default index of a table of [n] rows: 0, 1, ..., n-1. *)
Definition default_index (n : nat) : list value :=
  map (fun p => VInt (Z.of_nat p)) (seq 0 n).

(** The cell of column [name] at position [pos]. *)
Definition cell (df : DataFrame) (name : string) (pos : nat) : option value :=
  match find_column (columns df) name with
  | Some c => nth_error (svalues c) pos
  | None => None
  end.

(** Two tables whose append fails: each repeats a column name, and the
    column lists differ. *)
Definition repeated_ab : DataFrame :=
  mkDF [VInt 0]
       [ mkSeries "polygonID" DString [VStr "p1"];
         mkSeries "name" DString [VStr "east"];
         mkSeries "name" DString [VStr "est"] ].

Definition plain_abc : DataFrame :=
  mkDF [VInt 0]
       [ mkSeries "polygonID" DString [VStr "p2"];
         mkSeries "name" DString [VStr "west"];
         mkSeries "wkt" DString [VStr "POLYGON ((0 0, 1 0, 1 1, 0 0))"] ].

(** Two Polygon tables of one row each, as two loads give them, and the
    object after both are merged in. *)
Definition polygons_a : DataFrame :=
  mkDF [VInt 0]
       [ mkSeries "polygonID" DString [VStr "p1"];
         mkSeries "name" DString [VStr "east"];
         mkSeries "wkt" DString [VStr "POLYGON ((0 0, 1 0, 1 1, 0 0))"] ].

Definition polygons_b : DataFrame :=
  mkDF [VInt 0]
       [ mkSeries "polygonID" DString [VStr "p2"];
         mkSeries "name" DString [VStr "west"];
         mkSeries "wkt" DString [VStr "POLYGON ((2 2, 3 2, 3 3, 2 2))"] ].

Definition polygons_merged : DataFrame :=
  mkDF [VInt 0; VInt 0]
       [ mkSeries "polygonID" DString [VStr "p1"; VStr "p2"];
         mkSeries "name" DString [VStr "east"; VStr "west"];
         mkSeries "wkt" DString [VStr "POLYGON ((0 0, 1 0, 1 1, 0 0))";
                                 VStr "POLYGON ((2 2, 3 2, 3 3, 2 2))"] ].

(** [combine_per_sample] has come to the call of [combine_cphd_by_geo]:
    every step before it returned; [merged] is the result of the join
    with the Site table, [cphd] the parsed public-health table, and
    [self'] the object as [__parse_sample] left it. *)
Definition reaches_final_join (L : PyLib) (self : Odm)
  (merged cphd : DataFrame) (self' : Odm) : Prop :=
  exists ww_measure ww_measure' sample merged1 site_measure merged2 site,
    parse_ww_measure L self = Ok ww_measure /\
    agg_ww_measure_per_sample L ww_measure = Ok ww_measure' /\
    parse_sample L self = Ok (sample, self') /\
    combine_ww_measure_and_sample L ww_measure' sample = Ok merged1 /\
    parse_site_measure L self' = Ok site_measure /\
    combine_sample_site_measure L merged1 site_measure = Ok merged2 /\
    parse_site self' = Ok site /\
    combine_site_sample L merged2 site = Ok merged /\
    parse_cphd L self' = Ok cphd.

(** A small object with all the tables [combine_per_sample] reads. *)
Definition example_ww_measure : DataFrame :=
  mkDF [VInt 0]
       [ mkSeries "sampleID" DString [VStr "s1"];
         mkSeries "fractionAnalyzed" DString [VStr "solid"];
         mkSeries "type" DString [VStr "covn1"];
         mkSeries "unit" DString [VStr "gc/ml"];
         mkSeries "aggregation" DString [VStr "single"];
         mkSeries "value" DFloat64 [VFloat 4638057246429675520%Z];
         mkSeries "analysisDate" DDatetime [VTime 1612137600000000000];
         mkSeries "reportDate" DDatetime [VNaT];
         mkSeries "notes" DString [VStr ""];
         mkSeries "qualityFlag" DBool [VBool false];
         mkSeries "assayID" DString [VStr "a1"];
         mkSeries "accessToAll" DBool [VBool true] ].

Definition example_sample : DataFrame :=
  mkDF [VInt 0; VInt 1]
       [ mkSeries "sampleID" DString [VStr "s1"; VStr "s2"];
         mkSeries "siteID" DString [VStr "site1"; VStr "site2"];
         mkSeries "dateTime" DDatetime [VTime 1612137600000000000; VNaT];
         mkSeries "dateTimeStart" DDatetime [VNaT; VTime 1612051200000000000];
         mkSeries "dateTimeEnd" DDatetime [VNaT; VTime 1612137600000000000] ].

Definition example_site_measure : DataFrame :=
  mkDF [VInt 0]
       [ mkSeries "siteID" DString [VStr "site1"];
         mkSeries "dateTime" DDatetime [VTime 1612137600000000000];
         mkSeries "type" DString [VStr "wwflow"];
         mkSeries "unit" DString [VStr "m3/d"];
         mkSeries "aggregation" DString [VStr "single"];
         mkSeries "value" DFloat64 [VFloat 4652007308841189376%Z];
         mkSeries "notes" DString [VStr ""] ].

Definition example_site : DataFrame :=
  mkDF [VInt 0]
       [ mkSeries "siteID" DString [VStr "site1"];
         mkSeries "polygonID" DString [VStr "p1"] ].

Definition example_cphd : DataFrame :=
  mkDF [VInt 0]
       [ mkSeries "cphdID" DString [VStr "c1"];
         mkSeries "polygonID" DString [VStr "p1"];
         mkSeries "type" DString [VStr "conf"];
         mkSeries "dateType" DString [VStr "report"];
         mkSeries "value" DFloat64 [VFloat 4621819117588971520%Z];
         mkSeries "date" DDatetime [VTime 1612137600000000000];
         mkSeries "notes" DString [VStr ""] ].

Definition example_odm : Odm :=
  Odm_init (Some example_sample) (Some example_ww_measure) (Some example_site)
           (Some example_site_measure) None None None None (Some polygons_a)
           (Some example_cphd).

(** The tables the steps of [combine_per_sample] give on [example_odm]
    with [some_lib] (evaluated). *)
Definition result_or {A : Type} (default : A) (r : result A) : A :=
  match r with
  | Ok a => a
  | Raise _ => default
  end.

Definition example_ww_parsed : DataFrame :=
  Eval vm_compute in result_or (mkDF [] []) (parse_ww_measure some_lib example_odm).

Definition example_sample_parsed : DataFrame :=
  Eval vm_compute in
    fst (result_or (mkDF [] [], Odm_empty) (parse_sample some_lib example_odm)).

Definition example_odm_after : Odm :=
  Eval vm_compute in
    snd (result_or (mkDF [] [], Odm_empty) (parse_sample some_lib example_odm)).

Definition example_site_measure_parsed : DataFrame :=
  Eval vm_compute in
    result_or (mkDF [] []) (parse_site_measure some_lib example_odm_after).

Definition example_site_parsed : DataFrame :=
  Eval vm_compute in result_or (mkDF [] []) (parse_site example_odm_after).

Definition example_cphd_parsed : DataFrame :=
  Eval vm_compute in result_or (mkDF [] []) (parse_cphd some_lib example_odm_after).

(** [name in names] *)
Definition mem (name : string) (names : list string) : bool :=
  existsb (String.eqb name) names.

(** The column list after a value was written under [name]: a name that
    is new goes to the end. *)
Definition add_name (names : list string) (name : string) : list string :=
  if mem name names then names else names ++ [name].

(** The different strings of a list, in the order of their first
    occurrence. *)
Fixpoint distinct (l : list string) : list string :=
  match l with
  | [] => []
  | x :: l' => x :: filter (fun y => negb (String.eqb y x)) (distinct l')
  end.

(** The names of the columns [__widen] writes the rows of [df] to,
    row by row. *)
Definition generated_names (L : PyLib) (df : DataFrame) (feature : string)
  (qualifiers : list string) : result (list string) :=
  mapM (fun ir : value * row => feature_name_of L feature qualifiers (snd ir))
       (iterrows L df).

(** Two rows with different types whose generated names coincide. *)
Definition slash_and_dash : DataFrame :=
  mkDF [VInt 0; VInt 1]
       [ mkSeries "sampleID" DString [VStr "s1"; VStr "s2"];
         mkSeries "type" DString [VStr "cov/n1"; VStr "cov-n1"];
         mkSeries "unit" DString [VStr "gc"; VStr "gc"];
         mkSeries "value" DFloat64 [VFloat 4607182418800017408%Z;
                                    VFloat 4611686018427387904%Z] ].

(** Two rows with two combinations and distinct generated names. *)
Definition two_measures : DataFrame :=
  mkDF [VInt 0; VInt 1; VInt 2]
       [ mkSeries "sampleID" DString [VStr "s1"; VStr "s1"; VStr "s2"];
         mkSeries "type" DString [VStr "covn1"; VStr "covn2"; VStr "covn1"];
         mkSeries "unit" DString [VStr "gc/ml"; VStr "gc/ml"; VStr "gc/ml"];
         mkSeries "value" DFloat64 [VFloat 4607182418800017408%Z;
                                    VFloat 4611686018427387904%Z;
                                    VFloat 4613937818241073152%Z] ].

(** The same with an integer value column. *)
Definition two_counts : DataFrame :=
  mkDF [VInt 0; VInt 1]
       [ mkSeries "type" DString [VStr "covn1"; VStr "covn2"];
         mkSeries "unit" DString [VStr "n"; VStr "n"];
         mkSeries "value" DInt64 [VInt 1; VInt 2] ].

(** Two Sample tables of one row each, as two loads give them, and the
    table [add_to_attr] makes of them: both rows keep the label 0. *)
Definition samples_a : DataFrame :=
  mkDF [VInt 0]
       [ mkSeries "sampleID" DString [VStr "s1"];
         mkSeries "siteID" DString [VStr "X"];
         mkSeries "dateTime" DDatetime [VTime 1612137600000000000];
         mkSeries "dateTimeStart" DDatetime [VNaT];
         mkSeries "dateTimeEnd" DDatetime [VNaT] ].

Definition samples_b : DataFrame :=
  mkDF [VInt 0]
       [ mkSeries "sampleID" DString [VStr "s2"];
         mkSeries "siteID" DString [VStr "A; B"];
         mkSeries "dateTime" DDatetime [VTime 1612224000000000000];
         mkSeries "dateTimeStart" DDatetime [VNaT];
         mkSeries "dateTimeEnd" DDatetime [VNaT] ].

Definition samples_merged : DataFrame :=
  mkDF [VInt 0; VInt 0]
       [ mkSeries "sampleID" DString [VStr "s1"; VStr "s2"];
         mkSeries "siteID" DString [VStr "X"; VStr "A; B"];
         mkSeries "dateTime" DDatetime
                  [VTime 1612137600000000000; VTime 1612224000000000000];
         mkSeries "dateTimeStart" DDatetime [VNaT; VNaT];
         mkSeries "dateTimeEnd" DDatetime [VNaT; VNaT] ].

(** The step of the inner loop of [__parse_sample]: one more row for a
    further site id. *)
Definition extra_row_step (L : PyLib) (i : value) (st : sample_state) (site_id : string)
  : result sample_state :=
  do pos <- iloc_position (nrows (current st)) i;
  let new_row := get_row L (current st) pos in
  let new_row := dict_set new_row "siteID" (VStr site_id) in
  Ok (mkSampleState (stored st) (Some (append_row (current st) new_row))).

(** An attribute of an [Odm] instance, and the instance, as Python
    objects. *)
Definition object_of_table (v : option DataFrame) : pyobj :=
  match v with
  | Some df => PDataFrame df
  | None => PNone
  end.

Definition object_of_Odm (self : Odm) : pyobj :=
  POdm (map (fun kv => (fst kv, object_of_table (snd kv))) self).

(** The members of a JSON object read in order: the inner loop of
    [loads]. *)
Definition loads_members (L : PyLib)
  : list (string * json) -> result (list (string * pyobj)) :=
  fix each (l : list (string * json)) : result (list (string * pyobj)) :=
    match l with
    | [] => Ok []
    | (k, x) :: l' => do o <- loads L x; do os <- each l'; Ok ((k, o) :: os)
    end.

(** A column as [to_json] writes it, and as [read_json] reads it back
    when it tries no dates on it. *)
Definition written (L : PyLib) (c : Series) : list scalar :=
  map (scalar_of_value L) (svalues c).

Definition reread (L : PyLib) (c : Series) : Series :=
  let dt := convert_dtype L (written L c) in
  mkSeries (sname c) dt
           (map (fun s => value_of_scalar dt (convert_cell L dt s)) (written L c)).

(** A table written by [to_json] and read back by [read_json]. *)
Definition reread_table (L : PyLib) (df : DataFrame) : DataFrame :=
  mkDF (convert_axis L (map (scalar_of_value L) (index df)))
       (read_columns L (split_data (to_json_split L df)) 0 (col_names df)).

Definition reread_Odm (L : PyLib) (self : Odm) : Odm :=
  map (fun kv => (fst kv, option_map (reread_table L) (snd kv))) self.

(** A Sample table with a text column, a numeric column and a timestamp
    column, and an [Odm] instance that holds it. *)
Definition codec_sample : DataFrame :=
  mkDF [VInt 0]
       [ mkSeries "sampleID" DString [VStr "s1"];
         mkSeries "sizeL" DFloat64 [VFloat 4609434218613702656%Z];
         mkSeries "dateTimeStart" DDatetime [VTime 1612137600000000000] ].

Definition codec_odm : Odm := setattr Odm_empty "sample" (Some codec_sample).

Definition codec_sample_read : DataFrame :=
  Eval vm_compute in reread_table some_lib codec_sample.

(** A measures table with no row. *)
Definition no_measures : DataFrame :=
  mkDF []
       [ mkSeries "sampleID" DString [];
         mkSeries "type" DString [];
         mkSeries "unit" DString [];
         mkSeries "value" DFloat64 [] ].

(** What [combine_per_sample] returns on [example_odm] with [some_lib]
    (evaluated). *)
Definition example_combined : DataFrame :=
  Eval vm_compute in
    fst (result_or (mkDF [] [], Odm_empty) (combine_per_sample some_lib example_odm)).

(** [combine_per_sample] as the chain of its steps, without the record
    of its local variables. *)
Definition combine_steps (L : PyLib) (self : Odm) : result (DataFrame * Odm) :=
  do ww_measure <- parse_ww_measure L self;
  do ww_measure <- agg_ww_measure_per_sample L ww_measure;
  do sample_self <- parse_sample L self;
  do merged <- combine_ww_measure_and_sample L ww_measure (fst sample_self);
  do site_measure <- parse_site_measure L (snd sample_self);
  do merged <- combine_sample_site_measure L merged site_measure;
  do site <- parse_site (snd sample_self);
  do merged <- combine_site_sample L merged site;
  do cphd <- parse_cphd L (snd sample_self);
  do merged <- set_index merged "Sample.sampleID";
  Ok (merged, snd sample_self).


(** ** runscript.py *)

(** [load_files_from_folder(folder, extension)], on what
    [os.listdir(folder)] returned. *)
Definition load_files_from_folder (listdir : list string) (extension : string)
  : list string :=
  let files := listdir in
  filter (fun file => negb (Str.contains "$" file) && Str.contains extension file)
         files.



(** The rows of [other] under those of [df], column by column and cell
    by cell as they are. *)
Definition stack_cells (df other : DataFrame) : DataFrame :=
  mkDF (index df ++ index other)
       (map (fun p =>
               mkSeries (sname (fst p))
                        (common_dtype (sdtype (fst p)) (sdtype (snd p)))
                        (svalues (fst p) ++ svalues (snd p)))
            (combine (columns df) (columns other))).




(** ** odm.py: the helper of [test_finding_polygons] *)

(** The truth of [cell == name] for a string [name], as an [if] reads
    it: a string is compared, [pd.NA] gives [NA], whose truth value is
    an error, and every other cell is unequal to a string. *)
Definition cell_equals_str (v : value) (name : string) : result bool :=
  match v with
  | VStr s => Ok (String.eqb s name)
  | VNA => Raise (TypeError "boolean value of NA is ambiguous")
  | _ => Ok false
  end.

Fixpoint first_feature_named (features : list Feature) (name : string)
  : result (option value) :=
  match features with
  | [] => Ok None
  | feature :: features' =>
      do n <- dict_getitem (f_properties feature) "name";
      do same <- cell_equals_str n name;
      if same
      then do id <- dict_getitem (f_properties feature) "polygonID"; Ok (Some id)
      else first_feature_named features' name
  end.

(** [get_id_from_name_geojson(geo, name)] *)
Definition get_id_from_name_geojson (geo : FeatureCollection) (name : string)
  : result (option value) :=
  let features := fc_features geo in
  first_feature_named features name.

(** The body of the loop of [get_geoJSON]. *)
Definition feature_of_row (L : PyLib) (polygon_df : DataFrame) (ir : value * row)
  : result Feature :=
  let (i, r) := ir in
  do wkt <- row_getitem r "wkt";
  do geometry <- match convert_wkt_to_geojson L wkt with
                 | Some g => Ok g
                 | None => Raise (ValueError "convert_wkt_to_geojson")
                 end;
  do properties <-
    foldM (fun d col => do v <- row_getitem r col; Ok (dict_set d col v))
          (filter (fun col => negb (Str.contains "wkt" col)) (col_names polygon_df))
          [];
  Ok (mkFeature "Feature" geometry properties i).

(** Whether a row has the given name, and the row of a table that is
    the first to have it. *)
Definition row_named (name : string) (ir : value * row) : bool :=
  match dict_get (snd ir) "name" with
  | Some (VStr s) => String.eqb s name
  | _ => false
  end.

Definition first_row_named (L : PyLib) (df : DataFrame) (name : string) : option (value * row) :=
  find (row_named name) (iterrows L df).

(** ** base_mapper.py: [get_data_types]

    The function reads [Variables.csv] from the network; the embedding
    starts from the rows read, of which it uses three columns.  Every
    cell is taken to be a string. *)
Record variable : Type := mkVariable {
  tableName : string;
  variableName : string;
  variableType : string
}.

(** The pattern [date(time)?], written out: the pattern reader does
    not read groups. *)
Definition date_re : Re.regex :=
  Re.RSeq (Re.RChar "d") (Re.RSeq (Re.RChar "a") (Re.RSeq (Re.RChar "t")
    (Re.RSeq (Re.RChar "e")
       (Re.ROpt (Re.RSeq (Re.RChar "t") (Re.RSeq (Re.RChar "i")
                   (Re.RSeq (Re.RChar "m") (Re.RChar "e")))))))).

(** [series.replace(old, new)] on one cell: a cell that is [old]
    becomes [new]. *)
Definition replace_value (old new cell : string) : string :=
  if String.eqb cell old then new else cell.

(** The chain of replacements on [variableType]: the first is a
    regular-expression substitution inside the cell, the others replace
    whole cells. *)
Definition variable_type (t : string) : string :=
  let t := Re.sub false date_re "datetime64[ns]" t in
  let t := replace_value "boolean" "bool" t in
  let t := replace_value "float" "float64" t in
  let t := replace_value "integer" "int64" t in
  replace_value "blob" "object" t.

(** The keys of [groupby]: the table names, each once, in ascending
    order. *)
Fixpoint insert_sorted (x : string) (l : list string) : list string :=
  match l with
  | [] => [x]
  | y :: l' =>
      if String.eqb x y then l
      else if String.ltb x y then x :: l
      else y :: insert_sorted x l'
  end.

Definition group_keys (names : list string) : list string :=
  fold_right insert_sorted [] names.

(** [get_data_types()]: per table, the dictionary
    [x.set_index("variableName").to_dict(orient="index")] of its rows,
    which pandas refuses to build when a name occurs twice. *)
Definition get_data_types (variables : list variable) : result registry :=
  let variables :=
    map (fun v => mkVariable (tableName v) (Str.lower (variableName v))
                             (variable_type (variableType v))) variables in
  mapM (fun table =>
          let x := filter (fun v => String.eqb (tableName v) table) variables in
          if has_dup (map variableName x)
          then Raise (ValueError "DataFrame index must be unique for orient='index'.")
          else Ok (table,
                   map (fun v => (variableName v, [("variableType", variableType v)])) x))
       (group_keys (map tableName variables)).

(** Rows of a registry file. *)
Definition example_variables : list variable :=
  [ mkVariable "WWMeasure" "qualityFlag" "boolean";
    mkVariable "Sample" "dateTime" "datetime";
    mkVariable "WWMeasure" "index" "integer";
    mkVariable "WWMeasure" "value" "float";
    mkVariable "Sample" "sizeL" "float";
    mkVariable "WWMeasure" "notes" "string" ].

(** ** odm.py: [load_from_excel] and [load_from_db]

    Both read tables from outside and cast them with
    [utilities.parse_types], a module that is not part of the sources
    at hand: the cast and the readers are arguments of the
    embedding. *)

(** [df.rename(columns={old: new}, inplace=True)] *)
Definition rename_column (old new : string) (df : DataFrame) : DataFrame :=
  mkDF (index df)
       (map (fun c => if String.eqb (sname c) old
                      then mkSeries new (sdtype c) (svalues c) else c)
            (columns df)).

(** [df.apply(lambda x: f(x), axis=0)]: the columns keep their labels
    and get the cells [f] returns.  On a table without a row or without
    a column pandas only tries [f] on an empty column of its own,
    whatever that returns or raises, and returns a copy of the
    table. *)
Definition apply_columns (f : Series -> result Series) (df : DataFrame)
  : result DataFrame :=
  if (nrows df =? 0)%nat || (length (columns df) =? 0)%nat then Ok df
  else
    do cols <- mapM (fun c => do c' <- f c;
                              Ok (mkSeries (sname c) (sdtype c') (svalues c')))
                    (columns df);
    Ok (mkDF (index df) cols).

(** [self.conversion_dict[x][key] for x in self.conversion_dict.keys()] *)
Definition conversion_names (key : string) : result (list string) :=
  mapM (fun x => do dico <- dict_getitem conversion_dict x; dict_getitem dico key)
       (map fst conversion_dict).

(** [self.conversion_dict[attribute]["odm_name"]], where the attribute
    may be the [None] that [get_attribute_from_name] returns. *)
Definition odm_name_of (attribute : option string) : result string :=
  match attribute with
  | None => Raise (KeyError "None")
  | Some attribute =>
      do dico <- dict_getitem conversion_dict attribute;
      dict_getitem dico "odm_name"
  end.

(** [self.add_to_attr(attribute, df)] for what
    [get_attribute_from_name] returned; [getattr] wants a string. *)
Definition add_to_named_attr (L : PyLib) (acc : Odm * list exn)
  (attribute : option string)
  (df : DataFrame) : result (Odm * list exn) :=
  match attribute with
  | None => Raise (TypeError "getattr(): attribute name must be string")
  | Some attribute =>
      do r <- add_to_attr L (fst acc) attribute (Some df);
      Ok (fst r, snd acc ++ snd r)
  end.

Definition load_from_excel (L : PyLib)
  (parse_types : string -> Series -> result Series)
  (read_excel : list string -> result (dict DataFrame))
  (self : Odm) (sheet_names : option (list string)) : result (Odm * list exn) :=
  do sheet_names <- match sheet_names with
                    | None => conversion_names "excel_name"
                    | Some sheet_names => Ok sheet_names
                    end;
  do xls <- read_excel sheet_names;
  let attributes_to_fill := map get_attribute_from_name sheet_names in
  do odm_names <- mapM odm_name_of attributes_to_fill;
  foldM (fun acc item =>
           let '(attribute, odm_name, sheet) := item in
           do df <- dict_getitem xls sheet;
           let df := if String.eqb sheet "WWMeasure" && has_column df "assayMethodID"
                     then rename_column "assayMethodID" "assayID" df
                     else df in
           do type_cast_df <- apply_columns (parse_types odm_name) df;
           add_to_named_attr L acc attribute type_cast_df)
        (combine (combine attributes_to_fill odm_names) sheet_names)
        (self, []).

Definition load_from_db (L : PyLib)
  (parse_types : string -> Series -> result Series)
  (read_sql : string -> result DataFrame)
  (self : Odm) (table_names : option (list string)) : result (Odm * list exn) :=
  do table_names <- match table_names with
                    | None => conversion_names "odm_name"
                    | Some table_names => Ok table_names
                    end;
  let attributes_to_fill := map get_attribute_from_name table_names in
  foldM (fun acc item =>
           let '(attribute, table) := item in
           do df <- read_sql table;
           do type_cast_df <- apply_columns (parse_types table) df;
           add_to_named_attr L acc attribute type_cast_df)
        (combine attributes_to_fill table_names)
        (self, []).

(** * Theorems *)

(** ** The matcher on the unknown-value pattern *)

Lemma compile_UNKNOWN_REGEX : Re.compile UNKNOWN_REGEX = Some unknown_re.
Proof. reflexivity. Qed.

Lemma star_loop_single (P : ascii -> bool) :
  forall fuel pos s k,
    String.length s < fuel ->
    Re.star_loop (Re.single P) fuel pos s k = backtrack P k pos s.
Proof.
  induction fuel as [|fuel IH]; intros pos s k Hlen; [lia|].
  destruct s as [|a s']; cbn [Re.star_loop Re.single backtrack].
  - reflexivity.
  - destruct (P a); [|reflexivity].
    replace (S pos =? pos) with false by (symmetry; apply Nat.eqb_neq; lia).
    rewrite IH by (simpl in Hlen; lia).
    reflexivity.
Qed.

(** When the continuation accepts wherever it is asked, or refuses
    whenever a character of the run is still ahead, the repetition ends
    after the longest run. *)
Lemma backtrack_total (P : ascii -> bool) (k : Re.cont) :
  (forall pos s, k pos s <> None) ->
  forall s pos, backtrack P k pos s = k (pos + run P s) (eat P s).
Proof.
  intros Hk; induction s as [|a s' IH]; intros pos; simpl.
  - now rewrite Nat.add_0_r.
  - destruct (P a).
    + rewrite IH, <- Nat.add_succ_comm.
      destruct (k (S pos + run P s') (eat P s')) eqn:E; [reflexivity|].
      now apply Hk in E.
    + now rewrite Nat.add_0_r.
Qed.

Lemma backtrack_refusing (P : ascii -> bool) (k : Re.cont) :
  (forall pos a s, P a = true -> k pos (String a s) = None) ->
  forall s pos, backtrack P k pos s = k (pos + run P s) (eat P s).
Proof.
  intros Hk; induction s as [|a s' IH]; intros pos; simpl.
  - now rewrite Nat.add_0_r.
  - destruct (P a) eqn:Pa.
    + rewrite IH, <- Nat.add_succ_comm.
      destruct (k (S pos + run P s') (eat P s')) eqn:E; [reflexivity|].
      now apply Hk.
    + now rewrite Nat.add_0_r.
Qed.

Lemma in_set_not_dot a : in_set a = true -> Re.chr_eq true "." a = false.
Proof.
  destruct a as [[] [] [] [] [] [] [] []]; vm_compute; congruence.
Qed.

Lemma dot_not_in_set a : Re.chr_eq true "." a = true -> in_set a = false.
Proof.
  destruct a as [[] [] [] [] [] [] [] []]; vm_compute; congruence.
Qed.

Lemma opt_dot_settled k :
  settled k ->
  (forall pos s, opt_dot k pos s <> None) \/
  (forall pos a s, in_set a = true -> opt_dot k pos (String a s) = None).
Proof.
  intros [Hk|Hk]; [left|right].
  - intros pos s. unfold opt_dot.
    destruct (Re.single _ pos s k); [discriminate|apply Hk].
  - intros pos a s Ha. unfold opt_dot, Re.single.
    rewrite (in_set_not_dot a Ha). apply Hk.
Qed.

Lemma at_eof_settled : settled at_eof.
Proof. right; reflexivity. Qed.

Lemma anywhere_settled : settled anywhere.
Proof. left; discriminate. Qed.

Lemma set_run_eval k pos s :
  settled k -> Re.rmatch true re_set_tail pos s k = set_run k pos s.
Proof.
  intros Hk. unfold re_set_tail. cbn [Re.rmatch].
  change (fun a : ascii => existsb (fun c : ascii => Re.chr_eq true c a)
            ["a"; "|"; "d"; "|"; "/"; "|"; "n"]%char) with in_set.
  change (fun (pos0 : nat) (s0 : string) (k0 : Re.cont) => Re.single in_set pos0 s0 k0)
    with (Re.single in_set).
  change (fun (pos'0 : nat) (s'0 : string) =>
            match Re.single (Re.chr_eq true ".") pos'0 s'0 k with
            | Some x => Some x
            | None => k pos'0 s'0
            end) with (opt_dot k).
  destruct s as [|c s']; [reflexivity|].
  unfold Re.single at 1, set_run.
  destruct (in_set c); [|reflexivity].
  rewrite star_loop_single by lia.
  destruct (opt_dot_settled k Hk) as [H|H].
  - now apply backtrack_total.
  - now apply backtrack_refusing.
Qed.

(** Where the set run can end the input, a first attempt ends it too. *)
Lemma set_run_full pos s :
  set_run at_eof pos s <> None ->
  exists e, set_run anywhere pos s = Some (S e, "").
Proof.
  unfold set_run. destruct s as [|c s']; [congruence|].
  destruct (in_set c); [|congruence].
  change (S pos + run in_set s') with (S (pos + run in_set s')).
  generalize (pos + run in_set s'); intros q.
  destruct (eat in_set s') as [|d u]; unfold opt_dot, Re.single.
  - intros _. simpl. eexists. reflexivity.
  - destruct (Re.chr_eq true "." d).
    + destruct u; unfold at_eof, anywhere; [|congruence].
      intros _. eexists; reflexivity.
    + unfold at_eof. congruence.
Qed.

Lemma n_forms_eval k c0 t1 :
  settled k ->
  Re.rmatch true re_n_forms 0 (String c0 t1) k =
  if Re.chr_eq true "n" c0 then
    match t1 with
    | String d t2 =>
        if Re.chr_eq true "." d then
          match set_run k 2 t2 with
          | Some x => Some x
          | None => set_run k 1 t1
          end
        else set_run k 1 t1
    | EmptyString => set_run k 1 t1
    end
  else None.
Proof.
  intros Hk. unfold re_n_forms. cbn [Re.rmatch]. unfold Re.single at 1.
  destruct (Re.chr_eq true "n" c0); [|reflexivity].
  destruct t1 as [|d t2]; unfold Re.single.
  - now rewrite set_run_eval.
  - destruct (Re.chr_eq true "." d); now rewrite ?set_run_eval.
Qed.

Lemma n_forms_full c0 t1 :
  Re.rmatch true re_n_forms 0 (String c0 t1) at_eof <> None ->
  exists e, Re.rmatch true re_n_forms 0 (String c0 t1) anywhere = Some (S e, "").
Proof.
  rewrite !n_forms_eval by (apply at_eof_settled || apply anywhere_settled).
  destruct (Re.chr_eq true "n" c0); [|congruence].
  destruct t1 as [|d t2]; [apply set_run_full|].
  destruct (Re.chr_eq true "." d) eqn:Hd; [|apply set_run_full].
  destruct (set_run at_eof 2 t2) eqn:E.
  - intros _. destruct (set_run_full 2 t2) as [e He]; [congruence|].
    rewrite He. now exists e.
  - unfold set_run at 1. now rewrite (dot_not_in_set d Hd).
Qed.

Lemma unk_eval k c0 t1 :
  settled k ->
  Re.rmatch true re_unk 0 (String c0 t1) k =
  if Re.chr_eq true "u" c0 then
    match t1 with
    | String c1 (String c2 t3) =>
        if Re.chr_eq true "n" c1 then
          if Re.chr_eq true "k" c2 then k (3 + run not_lf t3) (eat not_lf t3)
          else None
        else None
    | String c1 EmptyString => None
    | EmptyString => None
    end
  else None.
Proof.
  intros Hk. unfold re_unk. cbn [Re.rmatch]. unfold Re.single at 1.
  destruct (Re.chr_eq true "u" c0); [|reflexivity].
  destruct t1 as [|c1 t2]; [reflexivity|]. unfold Re.single at 1.
  destruct (Re.chr_eq true "n" c1); [|now destruct t2].
  destruct t2 as [|c2 t3]; [reflexivity|]. unfold Re.single at 1.
  destruct (Re.chr_eq true "k" c2); [|reflexivity].
  change (fun (pos : nat) (s : string) (k0 : Re.cont) =>
            Re.single (fun a : ascii => negb (a =? Re.LF)%char) pos s k0)
    with (Re.single not_lf).
  rewrite star_loop_single by lia.
  destruct Hk as [Hk|Hk].
  - now apply backtrack_total.
  - apply backtrack_refusing. intros; apply Hk.
Qed.

Lemma unk_full c0 t1 :
  Re.rmatch true re_unk 0 (String c0 t1) at_eof <> None ->
  exists e, Re.rmatch true re_unk 0 (String c0 t1) anywhere = Some (S e, "").
Proof.
  rewrite !unk_eval by (apply at_eof_settled || apply anywhere_settled).
  destruct (Re.chr_eq true "u" c0); [|congruence].
  destruct t1 as [|c1 [|c2 t3]]; try congruence.
  destruct (Re.chr_eq true "n" c1); [|congruence].
  destruct (Re.chr_eq true "k" c2); [|congruence].
  unfold at_eof, anywhere.
  destruct (eat not_lf t3); [|congruence].
  intros _. eexists; reflexivity.
Qed.

Lemma first_char_cases c :
  (Re.chr_eq true "n" c = true /\ Re.chr_eq true "-" c = false /\
   Re.chr_eq true "u" c = false /\ Ascii.eqb c Re.LF = false) \/
  (Re.chr_eq true "n" c = false /\ Re.chr_eq true "-" c = true /\
   Re.chr_eq true "u" c = false /\ Ascii.eqb c Re.LF = false) \/
  (Re.chr_eq true "n" c = false /\ Re.chr_eq true "-" c = false /\
   Re.chr_eq true "u" c = true /\ Ascii.eqb c Re.LF = false) \/
  (Re.chr_eq true "n" c = false /\ Re.chr_eq true "-" c = false /\
   Re.chr_eq true "u" c = false).
Proof.
  destruct c as [[] [] [] [] [] [] [] []]; vm_compute; tauto.
Qed.

Lemma letter_o_is_plain c :
  Re.chr_eq true "o" c = true -> Re.chr_eq true "." c = false /\ in_set c = false.
Proof.
  destruct c as [[] [] [] [] [] [] [] []]; vm_compute; intuition congruence.
Qed.

Lemma empty_eval k c0 t1 :
  Re.rmatch true re_empty 0 (String c0 t1) k =
  if Re.at_end (String c0 t1) then k 0 (String c0 t1) else None.
Proof. reflexivity. Qed.

Lemma dash_eval k c0 t1 :
  Re.rmatch true re_dash 0 (String c0 t1) k =
  if Re.chr_eq true "-" c0 then (if Re.at_end t1 then k 1 t1 else None) else None.
Proof. reflexivity. Qed.

Lemma none_eval k c0 t1 :
  Re.rmatch true re_none 0 (String c0 t1) k =
  if Re.chr_eq true "n" c0 then
    Re.single (Re.chr_eq true "o") 1 t1
      (fun p s => Re.single (Re.chr_eq true "n") p s
         (fun p s => Re.single (Re.chr_eq true "e") p s k))
  else None.
Proof. reflexivity. Qed.

Lemma at_end_first c0 t1 :
  Ascii.eqb c0 Re.LF = false -> Re.at_end (String c0 t1) = false.
Proof. intros H. destruct t1; simpl; [exact H|reflexivity]. Qed.

Lemma dash_full c0 t1 :
  Re.rmatch true re_dash 0 (String c0 t1) at_eof <> None ->
  Re.rmatch true re_dash 0 (String c0 t1) anywhere = Some (1, "").
Proof.
  rewrite !dash_eval. destruct (Re.chr_eq true "-" c0); [|congruence].
  destruct t1 as [|c1 t2]; [reflexivity|].
  destruct (Re.at_end (String c1 t2)); unfold at_eof; congruence.
Qed.

Lemma none_full c0 t1 :
  Re.rmatch true re_none 0 (String c0 t1) at_eof <> None ->
  Re.rmatch true re_n_forms 0 (String c0 t1) anywhere = None /\
  Re.rmatch true re_none 0 (String c0 t1) anywhere = Some (4, "").
Proof.
  rewrite !none_eval, n_forms_eval by apply anywhere_settled.
  destruct (Re.chr_eq true "n" c0); [|congruence].
  destruct t1 as [|c1 t2]; [simpl; congruence|].
  unfold Re.single at 1 4.
  destruct (Re.chr_eq true "o" c1) eqn:Ho; [|congruence].
  destruct (letter_o_is_plain c1 Ho) as [Hd Hs]. rewrite Hd.
  unfold set_run. rewrite Hs.
  destruct t2 as [|c2 t3]; [simpl; congruence|].
  unfold Re.single at 1 3.
  destruct (Re.chr_eq true "n" c2); [|congruence].
  destruct t3 as [|c3 t4]; [simpl; congruence|].
  unfold Re.single.
  destruct (Re.chr_eq true "e" c3); [|congruence].
  destruct t4; unfold at_eof, anywhere; [intros _; split; reflexivity|congruence].
Qed.

(** A value the whole pattern matches is matched whole by the first
    attempt of a substitution. *)
Lemma first_attempt_full c0 t1 :
  Re.rmatch true unknown_re 0 (String c0 t1) at_eof <> None ->
  exists e, Re.rmatch true unknown_re 0 (String c0 t1) anywhere = Some (S e, "").
Proof.
  unfold unknown_re. cbn [Re.rmatch].
  pose proof (n_forms_full c0 t1) as Hn.
  pose proof (unk_full c0 t1) as Hu.
  pose proof (dash_full c0 t1) as Hd.
  pose proof (none_full c0 t1) as Ho.
  assert (Hn0 : Re.chr_eq true "n" c0 = false ->
                forall k, settled k -> Re.rmatch true re_n_forms 0 (String c0 t1) k = None).
  { intros E k Hk. rewrite n_forms_eval by exact Hk. now rewrite E. }
  assert (Ho0 : Re.chr_eq true "n" c0 = false ->
                forall k, Re.rmatch true re_none 0 (String c0 t1) k = None).
  { intros E k. rewrite none_eval. now rewrite E. }
  assert (Hu0 : Re.chr_eq true "u" c0 = false ->
                forall k, settled k -> Re.rmatch true re_unk 0 (String c0 t1) k = None).
  { intros E k Hk. rewrite unk_eval by exact Hk. now rewrite E. }
  assert (Hd0 : Re.chr_eq true "-" c0 = false ->
                forall k, Re.rmatch true re_dash 0 (String c0 t1) k = None).
  { intros E k. rewrite dash_eval. now rewrite E. }
  rewrite !empty_eval.
  destruct (first_char_cases c0)
    as [(H1 & H2 & H3 & H4)|[(H1 & H2 & H3 & H4)|[(H1 & H2 & H3 & H4)|(H1 & H2 & H3)]]].
  - rewrite (at_end_first c0 t1 H4).
    rewrite !(Hd0 H2), !(Hu0 H3) by (apply at_eof_settled || apply anywhere_settled).
    destruct (Re.rmatch true re_n_forms 0 (String c0 t1) at_eof) eqn:E.
    + intros _. destruct Hn as [e He]; [congruence|]. rewrite He. now exists e.
    + intros H. destruct Ho as [Ho1 Ho2]; [exact H|]. rewrite Ho1, Ho2. now exists 3.
  - rewrite (at_end_first c0 t1 H4).
    rewrite !(Hn0 H1), !(Hu0 H3), !(Ho0 H1) by (apply at_eof_settled || apply anywhere_settled).
    destruct (Re.rmatch true re_dash 0 (String c0 t1) at_eof) eqn:E; [|congruence].
    intros _. rewrite Hd by congruence. now exists 0.
  - rewrite (at_end_first c0 t1 H4).
    rewrite !(Hn0 H1), !(Hd0 H2), !(Ho0 H1) by (apply at_eof_settled || apply anywhere_settled).
    destruct (Re.rmatch true re_unk 0 (String c0 t1) at_eof) eqn:E; [|congruence].
    intros _. destruct Hu as [e He]; [congruence|]. rewrite He. now exists e.
  - rewrite !(Hn0 H1), !(Hd0 H2), !(Hu0 H3), !(Ho0 H1)
      by (apply at_eof_settled || apply anywhere_settled).
    destruct (Re.at_end (String c0 t1)); unfold at_eof; congruence.
Qed.

Lemma no_match_after_end e :
  Re.match_here true unknown_re false (S e) "" = None.
Proof. reflexivity. Qed.

(** [fullmatch] makes [sub] with an empty replacement leave nothing. *)
Lemma sub_unknown_fullmatch t :
  Re.fullmatch true unknown_re t = true -> Re.sub true unknown_re "" t = "".
Proof.
  destruct t as [|c0 t1]; [reflexivity|].
  unfold Re.fullmatch. intros H.
  destruct (first_attempt_full c0 t1) as [e He].
  { change (fun (e0 : nat) (rest : string) =>
              match rest with "" => Some (e0, rest) | String _ _ => None end)
      with at_eof in H.
    destruct (Re.rmatch true unknown_re 0 (String c0 t1) at_eof); congruence. }
  unfold Re.sub. cbn [String.length Nat.mul Nat.add].
  rewrite Nat.add_succ_r. cbn [Re.sub_loop].
  change (Re.match_here true unknown_re false 0 (String c0 t1))
    with (Re.rmatch true unknown_re 0 (String c0 t1) anywhere).
  rewrite He. cbn [Nat.eqb Nat.add]. rewrite Nat.add_succ_r.
  cbn [Re.sub_loop]. now rewrite no_match_after_end.
Qed.

Lemma lower_char_inv c x :
  Str.lower_char c = x ->
  c = x \/ (c = ascii_of_nat (nat_of_ascii x - 32) /\ Str.is_upper c = true).
Proof.
  intros <-. destruct c as [[] [] [] [] [] [] [] []]; vm_compute; auto.
Qed.

Ltac case_variants H :=
  match type of H with
  | _ = Str.lower ?t =>
      destruct t as [|?c ?t]; cbn [Str.lower] in H; try discriminate H;
      try (let Hc := fresh "Hc" in
           let Ht := fresh "Ht" in
           injection H as Hc Ht;
           symmetry in Hc; apply lower_char_inv in Hc;
           destruct Hc as [Hc|[Hc Hu]];
           [|vm_compute in Hc; subst; vm_compute in Hu; try discriminate Hu; clear Hu];
           subst; case_variants Ht)
  end.

Lemma sub_unknown_token t :
  In (Str.lower t) listed_unknown_tokens -> Re.sub true unknown_re "" t = "".
Proof.
  unfold listed_unknown_tokens. cbn [In].
  intros [H|[H|[H|[H|[H|[H|[H|[H|[H|[H|[]]]]]]]]]]];
    case_variants H; vm_compute; reflexivity.
Qed.

Lemma upper_F_not_lower c : Ascii.eqb "F" (Str.lower_char c) = false.
Proof. destruct c as [[] [] [] [] [] [] [] []]; reflexivity. Qed.

Lemma startswith_qualityFlag_lower s :
  Str.startswith (Str.lower s) "qualityFlag" = false.
Proof.
  do 8 (destruct s as [|? s]; [cbn; rewrite ?andb_false_r; reflexivity|]).
  cbn [Str.lower Str.startswith].
  rewrite upper_F_not_lower. cbn. now rewrite !andb_false_r.
Qed.

Lemma qualityFlag_never_in_lower s :
  Str.contains "qualityFlag" (Str.lower s) = false.
Proof.
  induction s as [|c s IH].
  - reflexivity.
  - change (Str.lower (String c s)) with (String (Str.lower_char c) (Str.lower s)).
    cbn [Str.contains].
    change (String (Str.lower_char c) (Str.lower s)) with (Str.lower (String c s)).
    now rewrite startswith_qualityFlag_lower, IH.
Qed.

(** ** [parse_types], branch by branch *)

Lemma mapM_map_ok {A B C : Type} (f : B -> result C) (g : A -> B) (h : A -> C) l :
  (forall x, f (g x) = Ok (h x)) -> mapM f (map g l) = Ok (map h l).
Proof.
  intros H. induction l as [|x l IH]; [reflexivity|].
  cbn [map mapM]. rewrite H. cbn [bind]. rewrite IH. reflexivity.
Qed.

Lemma declared_type_lookup DATA_TYPES table_name column ty :
  declared_type DATA_TYPES table_name column = Some ty ->
  exists lookup_table,
    dict_getitem DATA_TYPES table_name = Ok lookup_table /\
    dict_get_default (dict_get_default lookup_table (Str.lower column) [])
                     "variableType" "string" = ty.
Proof.
  unfold declared_type, dict_getitem.
  destruct (dict_get DATA_TYPES table_name) as [lt|]; [|discriminate].
  intros [= <-]. now exists lt.
Qed.

Lemma compile_oui : Re.compile "oui" = Some oui_re.
Proof. reflexivity. Qed.

Lemma compile_yes : Re.compile "yes" = Some yes_re.
Proof. reflexivity. Qed.

Ltac series_cells :=
  unfold str_lower, str_strip, str_startswith, str_map, astype_str, to_numeric_coerce;
  cbn [svalues sname sdtype bind]; rewrite ?map_map.

Lemma parse_types_text L DATA_TYPES table_name name dt vs ty :
  declared_type DATA_TYPES table_name name = Some ty ->
  ty = "string" \/ ty = "category" ->
  parse_types L DATA_TYPES table_name (mkSeries name dt vs) =
  Ok (mkSeries name (if String.eqb ty "string" then DString else DCategory)
               (map (text_cell L name) vs)).
Proof.
  intros Hty Hcase.
  destruct (declared_type_lookup _ _ _ _ Hty) as (lt & Hlt & Hd).
  unfold parse_types. cbn [sname]. rewrite Hlt. cbn [bind]. rewrite Hd.
  unfold str_replace. rewrite compile_UNKNOWN_REGEX.
  destruct Hcase as [-> | ->]; cbn [String.eqb Ascii.eqb Bool.eqb orb bind negb];
    unfold astype; cbn [dtype_of_token String.eqb Ascii.eqb Bool.eqb];
    unfold text_cell;
    destruct (negb (Str.lower name =? "wkt")%string); series_cells;
    (erewrite mapM_map_ok; [reflexivity|intros x; reflexivity]).
Qed.

Lemma parse_types_bool L DATA_TYPES table_name name dt vs :
  declared_type DATA_TYPES table_name name = Some "bool" ->
  parse_types L DATA_TYPES table_name (mkSeries name dt vs) =
  Ok (mkSeries name DBool (map (bool_cell L "true") vs)).
Proof.
  intros Hty.
  destruct (declared_type_lookup _ _ _ _ Hty) as (lt & Hlt & Hd).
  unfold parse_types. cbn [sname]. rewrite Hlt. cbn [bind]. rewrite Hd.
  rewrite qualityFlag_never_in_lower.
  unfold str_replace. rewrite compile_UNKNOWN_REGEX, compile_oui, compile_yes.
  cbn [String.eqb Ascii.eqb Bool.eqb orb bind negb].
  unfold astype; cbn [dtype_of_token String.eqb Ascii.eqb Bool.eqb].
  unfold bool_cell. series_cells.
  erewrite mapM_map_ok; [reflexivity|intros x; reflexivity].
Qed.



(** ** The claims on [parse_types] *)

(** C1.  A boolean column named [qualityFlag] casts the unknown value
    [n/a] to [True], where the specification says [False]: the name is
    lower-cased before it is searched for the mixed-case text
    [qualityFlag], so the [false] default is never chosen. *)
Theorem qualityFlag_unknown_casts_to_true (L : PyLib) :
  parse_types L example_registry "WWMeasure"
              (mkSeries "qualityFlag" DObject [VStr "n/a"]) =
  Ok (mkSeries "qualityFlag" DBool [VBool true]).
Proof. reflexivity. Qed.

(** The default is [true] for every boolean column, whatever its name. *)
Lemma bool_default_is_always_true L DATA_TYPES table_name name dt vs :
  declared_type DATA_TYPES table_name name = Some "bool" ->
  parse_types L DATA_TYPES table_name (mkSeries name dt vs) =
  Ok (mkSeries name DBool (map (bool_cell L "true") vs)).
Proof. apply parse_types_bool. Qed.

(** The other three cases of the boolean cast: an unknown value casts to
    [True], and so do [oui] and [yes] in any case and with blanks
    around. *)
Lemma bool_cell_unknown L : bool_cell L "true" (VStr "n/a") = VBool true.
Proof. reflexivity. Qed.

Lemma bool_cell_oui_yes L v :
  Str.lower (Str.strip (py_str L v)) = "oui" \/
  Str.lower (Str.strip (py_str L v)) = "yes" ->
  bool_cell L "true" v = VBool true.
Proof. unfold bool_cell. intros [-> | ->]; reflexivity. Qed.

(** C2.  An integer column with a value that is no integer makes
    [parse_types] raise: the numeric parse is selected by the tokens
    [inst64] and [float64], so a column declared [int64] skips it and the
    final [astype] meets the raw value. *)
Theorem int_column_unparsable_raises (L : PyLib) :
  parse_types L example_registry "WWMeasure"
              (mkSeries "index" DObject [VStr "1"; VStr "n/a"]) =
  Raise (ValueError "invalid literal for int() with base 10").
Proof. reflexivity. Qed.

Lemma int_column_missing_raises (L : PyLib) :
  parse_types L example_registry "WWMeasure" (mkSeries "index" DFloat64 [VNaN]) =
  Raise (ValueError "cannot convert float NaN to integer").
Proof. reflexivity. Qed.



(** C8.  In a text column (declared [string] or [category], or not
    declared at all) every cell whose value, blanks at its ends apart, is
    one of the listed unknown tokens in any case, or is matched whole by
    the unknown pattern, is cast to the empty string; and the cast of such
    a column does not raise. *)
Theorem unknown_values_cast_to_empty_text
  L DATA_TYPES table_name name dt vs ty r :
  declared_type DATA_TYPES table_name name = Some ty ->
  ty = "string" \/ ty = "category" ->
  Re.compile UNKNOWN_REGEX = Some r ->
  exists out,
    parse_types L DATA_TYPES table_name (mkSeries name dt vs) = Ok out /\
    length (svalues out) = length vs /\
    forall i s,
      nth_error vs i = Some (VStr s) ->
      In (Str.lower (Str.strip s)) listed_unknown_tokens \/
      Re.fullmatch true r (Str.strip s) = true ->
      nth_error (svalues out) i = Some (VStr "").
Proof.
  intros Hty Hcase Hr.
  rewrite compile_UNKNOWN_REGEX in Hr. injection Hr as <-.
  rewrite (parse_types_text _ _ _ _ _ _ _ Hty Hcase).
  eexists; split; [reflexivity|]. cbn [svalues]. split; [apply length_map|].
  intros i s Hi Hs. rewrite nth_error_map, Hi. cbn [option_map].
  unfold text_cell. cbn [py_str].
  assert (E : Re.sub true unknown_re "" (Str.strip s) = "").
  { destruct Hs as [Hs|Hs]; [now apply sub_unknown_token|now apply sub_unknown_fullmatch]. }
  rewrite E. now destruct (negb (Str.lower name =? "wkt")%string).
Qed.

Lemma unknown_values_cast_to_empty_text_witness :
  exists out,
    parse_types some_lib example_registry "WWMeasure"
                (mkSeries "notes" DObject [VStr " N/A "; VStr "Unknown site"; VStr "ok"])
    = Ok out /\
    length (svalues out) = 3 /\
    forall i s,
      nth_error [VStr " N/A "; VStr "Unknown site"; VStr "ok"] i = Some (VStr s) ->
      In (Str.lower (Str.strip s)) listed_unknown_tokens \/
      Re.fullmatch true unknown_re (Str.strip s) = true ->
      nth_error (svalues out) i = Some (VStr "").
Proof.
  apply (unknown_values_cast_to_empty_text some_lib example_registry "WWMeasure"
           "notes" DObject [VStr " N/A "; VStr "Unknown site"; VStr "ok"] "string"
           unknown_re).
  - reflexivity.
  - left; reflexivity.
  - reflexivity.
Defined.

(** What the pattern matches inside a longer value is cut out of it, and
    the rest stays: the cast of a text column is a substitution, not a
    test of the whole value. *)
Lemma text_column_partial_match L :
  parse_types L example_registry "WWMeasure"
              (mkSeries "notes" DObject [VStr "London"; VStr "banana"])
  = Ok (mkSeries "notes" DString [VStr "loon"; VStr "ba"]).
Proof. reflexivity. Qed.

(** ** [add_to_attr] *)

Lemma dict_get_set_same {V : Type} (d : dict V) key (v : V) :
  dict_get (dict_set d key v) key = Some v.
Proof.
  induction d as [|[k x] d IH]; cbn [dict_set dict_get].
  - now rewrite String.eqb_refl.
  - destruct (String.eqb k key) eqn:E; cbn [dict_get]; rewrite E; [reflexivity|exact IH].
Qed.

Lemma dict_get_set_other {V : Type} (d : dict V) key key' (v : V) :
  key' <> key -> dict_get (dict_set d key v) key' = dict_get d key'.
Proof.
  intros Hne. induction d as [|[k x] d IH]; cbn [dict_set dict_get].
  - destruct (String.eqb_spec key key'); [congruence|reflexivity].
  - destruct (String.eqb_spec k key) as [->|Hk]; cbn [dict_get].
    + destruct (String.eqb_spec key key'); [congruence|reflexivity].
    + destruct (String.eqb k key'); [reflexivity|exact IH].
Qed.

Lemma dict_set_unchanged {V : Type} (d : dict V) key (v : V) :
  dict_get d key = Some v -> dict_set d key v = d.
Proof.
  induction d as [|[k x] d IH]; cbn [dict_set dict_get]; [discriminate|].
  destruct (String.eqb_spec k key) as [->|Hk].
  - now intros [= ->].
  - intros H. now rewrite IH.
Qed.

Lemma getattr_setattr self attribute v :
  getattr (setattr self attribute v) attribute = Ok v.
Proof. unfold getattr, setattr. now rewrite dict_get_set_same. Qed.

(** C3.  When the attribute holds a table and appending the incoming
    one fails, [add_to_attr] returns normally, has printed the error, and
    leaves the object as it was; when the attribute holds nothing, the
    incoming table becomes its value. *)
Theorem add_to_attr_failure_and_first_write L self attribute new_df :
  (forall current_value e,
      getattr self attribute = Ok (Some current_value) ->
      append L current_value new_df = Raise e ->
      add_to_attr L self attribute (Some new_df) = Ok (self, [e]) /\
      getattr self attribute = Ok (Some current_value)) /\
  (getattr self attribute = Ok None ->
   add_to_attr L self attribute (Some new_df) =
     Ok (setattr self attribute (Some new_df), []) /\
   getattr (setattr self attribute (Some new_df)) attribute = Ok (Some new_df)).
Proof.
  split.
  - intros current_value e Hcur Happ. split; [|exact Hcur].
    unfold add_to_attr. rewrite Hcur. cbn [bind]. rewrite Happ. cbn [bind].
    unfold setattr. rewrite dict_set_unchanged; [reflexivity|].
    unfold getattr in Hcur.
    destruct (dict_get self attribute); [congruence|discriminate].
  - intros Hnone. split; [|apply getattr_setattr].
    unfold add_to_attr. now rewrite Hnone.
Qed.

(** An append that fails, and [add_to_attr] on it. *)
Lemma add_to_attr_failure_witness :
  append some_lib repeated_ab plain_abc = Raise InvalidIndexError /\
  add_to_attr some_lib (setattr Odm_empty "polygon" (Some repeated_ab)) "polygon"
              (Some plain_abc)
  = Ok (setattr Odm_empty "polygon" (Some repeated_ab), [InvalidIndexError]).
Proof.
  split; [reflexivity|].
  apply (proj1 (add_to_attr_failure_and_first_write some_lib
                  (setattr Odm_empty "polygon" (Some repeated_ab)) "polygon" plain_abc)
               repeated_ab InvalidIndexError);
    reflexivity.
Defined.

(** Appending a table with other columns does not fail: the result has
    the columns of both. *)
Lemma append_other_columns_succeeds :
  exists df, append some_lib polygons_a (mkDF [VInt 0] [mkSeries "notes" DString [VStr "x"]]) = Ok df /\
             col_names df = ["polygonID"; "name"; "wkt"; "notes"].
Proof. eexists; split; reflexivity. Qed.

Lemma add_to_attr_other_columns_merges :
  exists df,
    add_to_attr some_lib (setattr Odm_empty "polygon" (Some polygons_a)) "polygon"
                (Some (mkDF [VInt 0] [mkSeries "notes" DString [VStr "x"]]))
    = Ok (setattr Odm_empty "polygon" (Some df), []) /\
    col_names df = ["polygonID"; "name"; "wkt"; "notes"] /\
    nrows df = S (nrows polygons_a).
Proof. eexists. split; [reflexivity|]. split; reflexivity. Qed.

(** ** Rows of a table *)

Lemma mapM_total {A B : Type} (f : A -> result B) l :
  (forall x, In x l -> exists y, f x = Ok y) -> exists out, mapM f l = Ok out.
Proof.
  induction l as [|x l IH]; intros H; [now exists []|].
  destruct (H x (or_introl eq_refl)) as [y Hy].
  destruct IH as [out Hout]; [intros; apply H; now right|].
  exists (y :: out). cbn [mapM]. now rewrite Hy, Hout.
Qed.

Lemma mapM_nth {A B : Type} (f : A -> result B) l out :
  mapM f l = Ok out ->
  length out = length l /\
  forall p y, nth_error out p = Some y ->
              exists x, nth_error l p = Some x /\ f x = Ok y.
Proof.
  revert out. induction l as [|x l IH]; intros out; cbn [mapM].
  - intros [= <-]. split; [reflexivity|]. intros [|p] y; discriminate.
  - destruct (f x) as [y0|e] eqn:Hx; cbn [bind]; [|discriminate].
    destruct (mapM f l) as [ys|e]; cbn [bind]; [|discriminate].
    intros [= <-]. destruct (IH ys eq_refl) as [Hlen Hnth].
    split; [cbn; now rewrite Hlen|].
    intros [|p] y; cbn [nth_error].
    + intros [= <-]. now exists x.
    + apply Hnth.
Qed.

Lemma nth_error_combine {A B : Type} (l1 : list A) (l2 : list B) p a b :
  nth_error (combine l1 l2) p = Some (a, b) <->
  nth_error l1 p = Some a /\ nth_error l2 p = Some b.
Proof.
  revert l2 p. induction l1 as [|x l1 IH]; intros [|y l2] [|p]; cbn;
    try (split; [discriminate|intros [? ?]; discriminate]).
  - split; [intros [= -> ->]; auto|intros [[= ->] [= ->]]; reflexivity].
  - apply IH.
Qed.

Lemma nth_error_iterrows L df p i r :
  nth_error (iterrows L df) p = Some (i, r) <->
  nth_error (index df) p = Some i /\ r = get_row L df p.
Proof.
  unfold iterrows. rewrite nth_error_combine, nth_error_map, nth_error_seq.
  split.
  - intros [Hi Hr]. split; [exact Hi|].
    destruct (p <? nrows df); cbn in Hr; [now injection Hr|discriminate].
  - intros [Hi ->]. split; [exact Hi|].
    assert (Hp : p < nrows df) by (unfold nrows; apply nth_error_Some; congruence).
    apply Nat.ltb_lt in Hp. now rewrite Hp.
Qed.

Lemma length_iterrows L df : length (iterrows L df) = nrows df.
Proof.
  unfold iterrows, nrows.
  rewrite length_combine, length_map, length_seq. apply Nat.min_id.
Qed.

Lemma dict_get_get_row L df p name :
  dict_get (get_row L df p) name =
  option_map (fun c => row_cell L df (nth p (svalues c) VNaN))
             (find_column (columns df) name).
Proof.
  unfold get_row. generalize (row_cell L df) as up. intro up.
  induction (columns df) as [|c cols IH]; [reflexivity|].
  cbn [map dict_get find_column]. destruct (String.eqb (sname c) name); [reflexivity|exact IH].
Qed.

Lemma find_column_has cols name :
  existsb (String.eqb name) (map sname cols) = true <-> find_column cols name <> None.
Proof.
  induction cols as [|c cols IH]; cbn [map existsb find_column].
  - split; [discriminate|congruence].
  - rewrite (String.eqb_sym name). destruct (String.eqb (sname c) name); cbn [orb].
    + split; [discriminate|reflexivity].
    + exact IH.
Qed.

(** ** [get_geoJSON] *)

(** The dictionary comprehension of the properties. *)
Lemma properties_fold (r : row) cols :
  (forall c, In c cols -> dict_get r c <> None) ->
  forall d0, exists d,
    foldM (fun d col => do v <- row_getitem r col; Ok (dict_set d col v)) cols d0 = Ok d /\
    forall c, dict_get d c =
              if existsb (String.eqb c) cols then dict_get r c else dict_get d0 c.
Proof.
  induction cols as [|col cols IH]; intros Hin d0.
  - exists d0. split; reflexivity.
  - cbn [foldM]. unfold row_getitem, dict_getitem.
    destruct (dict_get r col) as [v|] eqn:Hv;
      [|exfalso; apply (Hin col); [now left|exact Hv]].
    cbn [bind].
    destruct (IH (fun c H => Hin c (or_intror H)) (dict_set d0 col v)) as (d & Hd & Hget).
    exists d. split; [exact Hd|]. intros c. rewrite Hget. cbn [existsb].
    destruct (existsb (String.eqb c) cols) eqn:E.
    + now rewrite orb_true_r.
    + rewrite orb_false_r. destruct (String.eqb_spec c col) as [->|Hne].
      * now rewrite dict_get_set_same.
      * now rewrite dict_get_set_other.
Qed.

(** C9 (amended).  For a Polygon table with a [wkt] column whose
    geometries convert, [get_geoJSON] gives one Feature per row, in row
    order; its geometry is the converted [wkt] cell, its properties are
    exactly the cells of the columns whose name does not contain [wkt],
    and its id is the index label of the row, which is the position of
    the row when the table has the default index. *)
Theorem get_geoJSON_features L self polygon_df :
  table_of self "polygon" = Ok polygon_df ->
  has_column polygon_df "wkt" = true ->
  (forall p wkt, p < nrows polygon_df ->
                 dict_get (get_row L polygon_df p) "wkt" = Some wkt ->
                 convert_wkt_to_geojson L wkt <> None) ->
  exists features,
    get_geoJSON L self = Ok (mkFeatureCollection "FeatureCollection" features) /\
    length features = nrows polygon_df /\
    forall p f,
      nth_error features p = Some f ->
      f_type f = "Feature" /\
      nth_error (index polygon_df) p = Some (f_id f) /\
      (index polygon_df = default_index (nrows polygon_df) ->
       f_id f = VInt (Z.of_nat p)) /\
      (exists wkt, dict_get (get_row L polygon_df p) "wkt" = Some wkt /\
                   convert_wkt_to_geojson L wkt = Some (f_geometry f)) /\
      forall col,
        dict_get (f_properties f) col =
        if Str.contains "wkt" col then None else dict_get (get_row L polygon_df p) col.
Proof.
  intros Htab Hwkt Hconv. unfold get_geoJSON. rewrite Htab. cbn [bind].
  match goal with |- context [mapM ?f (iterrows L polygon_df)] => set (step := f) end.
  assert (Hstep : forall p i r,
             nth_error (iterrows L polygon_df) p = Some (i, r) ->
             exists f, step (i, r) = Ok f /\
               f_type f = "Feature" /\ f_id f = i /\
               (exists wkt, dict_get r "wkt" = Some wkt /\
                            convert_wkt_to_geojson L wkt = Some (f_geometry f)) /\
               forall col, dict_get (f_properties f) col =
                           if Str.contains "wkt" col then None else dict_get r col).
  { intros p i r Hp. apply nth_error_iterrows in Hp as [Hi ->].
    assert (Hlt : p < nrows polygon_df) by (unfold nrows; apply nth_error_Some; congruence).
    unfold step. unfold row_getitem at 1. unfold dict_getitem.
    destruct (dict_get (get_row L polygon_df p) "wkt") as [wkt|] eqn:Hw.
    2:{ rewrite dict_get_get_row in Hw. apply find_column_has in Hwkt.
        destruct (find_column (columns polygon_df) "wkt"); [discriminate|congruence]. }
    cbn [bind].
    destruct (convert_wkt_to_geojson L wkt) as [g|] eqn:Hg;
      [|exfalso; now apply (Hconv p wkt Hlt Hw)].
    cbn [bind].
    destruct (properties_fold (get_row L polygon_df p)
                (filter (fun col => negb (Str.contains "wkt" col)) (col_names polygon_df)))
      with (d0 := @nil (string * value)) as (d & Hd & Hget).
    { intros c Hc. apply filter_In in Hc as [Hc _].
      rewrite dict_get_get_row.
      assert (H : find_column (columns polygon_df) c <> None).
      { apply find_column_has. apply existsb_exists. exists c. split; [exact Hc|apply String.eqb_refl]. }
      destruct (find_column (columns polygon_df) c); [discriminate|congruence]. }
    rewrite Hd. cbn [bind]. eexists. split; [reflexivity|].
    cbn [f_type f_id f_geometry f_properties].
    repeat split; [now exists wkt|].
    intros col. rewrite Hget. cbn [dict_get].
    destruct (Str.contains "wkt" col) eqn:Hc.
    - destruct (existsb (String.eqb col) _) eqn:E; [|reflexivity].
      apply existsb_exists in E as (x & Hx & Hxe). apply String.eqb_eq in Hxe. subst x.
      apply filter_In in Hx as [_ Hx]. now rewrite Hc in Hx.
    - destruct (existsb (String.eqb col) _) eqn:E; [reflexivity|].
      rewrite dict_get_get_row.
      destruct (find_column (columns polygon_df) col) eqn:Hf; [|reflexivity].
      exfalso. assert (Hin : In col (col_names polygon_df)).
      { assert (H : find_column (columns polygon_df) col <> None) by congruence.
        apply find_column_has in H. apply existsb_exists in H as (x & Hx & Hxe).
        apply String.eqb_eq in Hxe. now subst. }
      assert (existsb (String.eqb col)
                (filter (fun col => negb (Str.contains "wkt" col)) (col_names polygon_df)) = true).
      { apply existsb_exists. exists col. split; [|apply String.eqb_refl].
        apply filter_In. split; [exact Hin|now rewrite Hc]. }
      congruence. }
  destruct (mapM_total step (iterrows L polygon_df)) as [features Hf].
  { intros [i r] Hin. apply In_nth_error in Hin as [p Hp].
    destruct (Hstep p i r Hp) as (f & Hf & _). now exists f. }
  exists features. rewrite Hf. cbn [bind]. split; [reflexivity|].
  destruct (mapM_nth _ _ _ Hf) as [Hlen Hnth].
  split; [now rewrite Hlen, length_iterrows|].
  intros p f Hp. destruct (Hnth p f Hp) as ([i r] & Hir & Hfx).
  destruct (Hstep p i r Hir) as (f' & Hf' & Hty & Hid & Hgeo & Hprops).
  assert (f' = f) by congruence. subst f'.
  apply nth_error_iterrows in Hir as [Hi ->].
  repeat split; try assumption.
  - now rewrite Hid.
  - intros Hdef. rewrite Hid. rewrite Hdef in Hi. unfold default_index in Hi.
    rewrite nth_error_map, nth_error_seq in Hi.
    destruct (p <? nrows polygon_df); cbn in Hi; [now injection Hi|discriminate].
Qed.

Lemma get_geoJSON_features_witness :
  exists features,
    get_geoJSON some_lib (setattr Odm_empty "polygon" (Some polygons_a))
    = Ok (mkFeatureCollection "FeatureCollection" features) /\
    length features = nrows polygons_a /\
    forall p f,
      nth_error features p = Some f ->
      f_type f = "Feature" /\
      nth_error (index polygons_a) p = Some (f_id f) /\
      (index polygons_a = default_index (nrows polygons_a) ->
       f_id f = VInt (Z.of_nat p)) /\
      (exists wkt, dict_get (get_row some_lib polygons_a p) "wkt" = Some wkt /\
                   convert_wkt_to_geojson some_lib wkt = Some (f_geometry f)) /\
      forall col,
        dict_get (f_properties f) col =
        if Str.contains "wkt" col then None else dict_get (get_row some_lib polygons_a p) col.
Proof.
  apply (get_geoJSON_features some_lib
           (setattr Odm_empty "polygon" (Some polygons_a)) polygons_a).
  - reflexivity.
  - reflexivity.
  - intros p wkt _ _. discriminate.
Defined.

(** C9 as stated fails on a Polygon table that two loads were merged
    into: [add_to_attr] keeps the labels of both tables, so both rows are
    labelled 0 and both Features get the id 0, while the rows are at
    positions 0 and 1. *)
Lemma get_geoJSON_id_is_the_label_not_the_position :
  add_to_attr some_lib (setattr Odm_empty "polygon" (Some polygons_a)) "polygon"
              (Some polygons_b)
  = Ok (setattr Odm_empty "polygon" (Some polygons_merged), []) /\
  exists features,
    get_geoJSON some_lib (setattr Odm_empty "polygon" (Some polygons_merged))
    = Ok (mkFeatureCollection "FeatureCollection" features) /\
    map f_id features = [VInt 0; VInt 0] /\
    map f_id features <> default_index (length features).
Proof.
  split; [reflexivity|].
  eexists. split; [reflexivity|]. split; [reflexivity|discriminate].
Qed.

(** ** [combine_per_sample] *)

(** The helper never looks at its arguments. *)
Lemma combine_cphd_by_geo_ignores_arguments frame sample cphd sample' cphd' :
  combine_cphd_by_geo frame sample cphd = combine_cphd_by_geo frame sample' cphd'.
Proof. reflexivity. Qed.

(** C10.  Once [combine_per_sample] has reached its last join, the
    helper [combine_cphd_by_geo] returns the table the enclosing function
    holds in [merged] (the result of the Site join) whatever its two
    arguments are, and raises nothing; so [combine_per_sample] returns
    that table with the sample id column moved to the index, and no
    column of it comes from CovidPublicHealthData. *)
Theorem combine_per_sample_returns_site_join L self merged cphd self' ids :
  reaches_final_join L self merged cphd self' ->
  df_getitem merged "Sample.sampleID" = Ok ids ->
  (forall frame sample cphd',
      merged_var frame = Some merged ->
      combine_cphd_by_geo frame sample cphd' = Ok merged) /\
  combine_per_sample L self =
    Ok (mkDF (svalues ids)
             (filter (fun c => negb (String.eqb (sname c) "Sample.sampleID"))
                     (columns merged)),
        self').
Proof.
  intros (ww & ww' & sample & m1 & sm & m2 & site & H1 & H2 & H3 & H4 & H5 & H6 & H7 & H8 & H9)
         Hids.
  split.
  - intros frame s c Hm. unfold combine_cphd_by_geo. now rewrite Hm.
  - unfold combine_per_sample.
    rewrite H1; cbn [bind]. rewrite H2; cbn [bind]. rewrite H3; cbn [bind].
    rewrite H4; cbn [bind]. rewrite H5; cbn [bind]. rewrite H6; cbn [bind].
    rewrite H7; cbn [bind]. rewrite H8; cbn [bind]. rewrite H9; cbn [bind].
    cbn [combine_cphd_by_geo merged_var bind].
    unfold set_index. rewrite Hids. reflexivity.
Qed.

Lemma example_reaches_final_join :
  reaches_final_join some_lib example_odm example_sample_parsed example_cphd_parsed
                     example_odm_after.
Proof.
  exists example_ww_parsed, example_ww_parsed, example_sample_parsed,
         example_sample_parsed, example_site_measure_parsed, example_sample_parsed,
         example_site_parsed.
  repeat split; vm_compute; reflexivity.
Qed.

Lemma combine_per_sample_returns_site_join_witness :
  (forall frame sample cphd',
      merged_var frame = Some example_sample_parsed ->
      combine_cphd_by_geo frame sample cphd' = Ok example_sample_parsed) /\
  combine_per_sample some_lib example_odm =
    Ok (mkDF [VStr "s1"; VStr "s2"]
             (filter (fun c => negb (String.eqb (sname c) "Sample.sampleID"))
                     (columns example_sample_parsed)),
        example_odm_after).
Proof.
  apply (combine_per_sample_returns_site_join some_lib example_odm
           example_sample_parsed example_cphd_parsed example_odm_after
           (mkSeries "Sample.sampleID" DString [VStr "s1"; VStr "s2"])).
  - exact example_reaches_final_join.
  - reflexivity.
Defined.

(** ** [__widen] *)

Lemma mapM_Forall2 {A B : Type} (f : A -> result B) l out :
  mapM f l = Ok out -> Forall2 (fun x y => f x = Ok y) l out.
Proof.
  revert out. induction l as [|x l IH]; intros out; cbn [mapM].
  - intros [= <-]. constructor.
  - destruct (f x) as [y|e] eqn:Hx; cbn [bind]; [|discriminate].
    destruct (mapM f l) as [ys|e]; cbn [bind]; [|discriminate].
    intros [= <-]. constructor; [exact Hx|now apply IH].
Qed.

Lemma mapM_repeat {A B : Type} (f : A -> result B) x y n :
  f x = Ok y -> mapM f (repeat x n) = Ok (repeat y n).
Proof.
  intros H. induction n as [|n IH]; [reflexivity|].
  cbn [repeat mapM]. now rewrite H, IH.
Qed.

Lemma cast_none_ok L dt : dt <> DInt64 -> exists v, cast_cell L dt VNone = Ok v.
Proof. destruct dt; intros H; try (eexists; reflexivity). congruence. Qed.

Lemma find_column_app cols extra name c :
  find_column cols name = Some c -> find_column (cols ++ extra) name = Some c.
Proof.
  induction cols as [|c0 cols IH]; cbn [app find_column]; [discriminate|].
  destruct (String.eqb (sname c0) name); [trivial|exact IH].
Qed.

Lemma find_column_map (g : Series -> Series) cols name :
  (forall c, sname (g c) = sname c) ->
  find_column (map g cols) name = option_map g (find_column cols name).
Proof.
  intros Hg. induction cols as [|c cols IH]; [reflexivity|].
  cbn [map find_column]. rewrite Hg.
  destruct (String.eqb (sname c) name); [reflexivity|exact IH].
Qed.

Lemma existsb_sname cols name :
  existsb (fun c => String.eqb (sname c) name) cols = mem name (map sname cols).
Proof.
  unfold mem. induction cols as [|c0 cols IH]; [reflexivity|].
  cbn [map existsb]. now rewrite IH, String.eqb_sym.
Qed.

Lemma replace_column_new cols c :
  mem (sname c) (map sname cols) = false -> replace_column cols c = cols ++ [c].
Proof.
  intros H. unfold replace_column. now rewrite existsb_sname, H.
Qed.

Lemma col_names_loc_set df i name v : col_names (loc_set df i name v) = col_names df.
Proof.
  unfold col_names, loc_set. cbn [columns]. rewrite map_map.
  apply map_ext. intros c. now destruct (String.eqb (sname c) name).
Qed.

Lemma find_column_loc_set df i name v f c :
  find_column (columns df) f = Some c ->
  exists c', find_column (columns (loc_set df i name v)) f = Some c' /\
             sdtype c' = sdtype c.
Proof.
  intros H. unfold loc_set. cbn [columns]. rewrite find_column_map.
  - rewrite H. cbn [option_map]. eexists; split; [reflexivity|].
    now destruct (String.eqb (sname c) name).
  - intros c0. now destruct (String.eqb (sname c0) name).
Qed.

Lemma widen_step_ok L f qs df i r name v c :
  feature_name_of L f qs r = Ok name ->
  row_getitem r f = Ok v ->
  find_column (columns df) f = Some c ->
  sdtype c <> DInt64 ->
  exists df',
    widen_step L f qs df (i, r) = Ok df' /\
    index df' = index df /\
    col_names df' = add_name (col_names df) name /\
    exists c', find_column (columns df') f = Some c' /\ sdtype c' = sdtype c.
Proof.
  intros Hname Hv Hc Hdt. unfold widen_step.
  rewrite Hname, Hv. cbn [bind]. unfold df_getitem. rewrite Hc. cbn [bind].
  unfold add_name. change (has_column df name) with (mem name (col_names df)).
  destruct (mem name (col_names df)) eqn:Hmem; cbn [negb bind].
  - destruct (find_column_loc_set df i name v f c Hc) as (c' & Hc' & Hd).
    eexists. split; [reflexivity|]. split; [reflexivity|].
    split; [apply col_names_loc_set|]. now exists c'.
  - unfold new_column. destruct (cast_none_ok L (sdtype c) Hdt) as [v0 Hv0].
    rewrite (mapM_repeat _ _ _ _ Hv0). cbn [bind].
    unfold set_column. rewrite replace_column_new by exact Hmem.
    set (df1 := mkDF (index df) (columns df ++ [mkSeries name (sdtype c) (repeat v0 (nrows df))])).
    assert (Hc1 : find_column (columns df1) f = Some c) by (now apply find_column_app).
    destruct (find_column_loc_set df1 i name v f c Hc1) as (c' & Hc' & Hd).
    eexists. split; [reflexivity|]. split; [reflexivity|].
    split.
    + rewrite col_names_loc_set. unfold col_names, df1. cbn [columns].
      now rewrite map_app.
    + now exists c'.
Qed.

Lemma widen_rows_ok L f qs :
  forall rows names df c,
    Forall2 (fun (ir : value * row) n =>
               feature_name_of L f qs (snd ir) = Ok n /\
               exists v, row_getitem (snd ir) f = Ok v) rows names ->
    find_column (columns df) f = Some c ->
    sdtype c <> DInt64 ->
    exists df',
      foldM (widen_step L f qs) rows df = Ok df' /\
      index df' = index df /\
      col_names df' = fold_left add_name names (col_names df).
Proof.
  induction rows as [|[i r] rows IH]; intros names df c HF Hc Hdt.
  - inversion HF; subst. exists df. repeat split.
  - inversion HF as [|x n l l' [Hn [v Hv]] HF']; subst. cbn [snd] in *.
    destruct (widen_step_ok L f qs df i r n v c Hn Hv Hc Hdt)
      as (df1 & Hstep & Hidx & Hcols & c1 & Hc1 & Hd1).
    destruct (IH l' df1 c1 HF' Hc1) as (df' & Hfold & Hidx' & Hcols').
    { now rewrite Hd1. }
    exists df'. cbn [foldM]. rewrite Hstep. cbn [bind].
    split; [exact Hfold|]. split; [congruence|].
    cbn [fold_left]. now rewrite Hcols', Hcols.
Qed.

Lemma filter_comm {A : Type} (P Q : A -> bool) l :
  filter P (filter Q l) = filter Q (filter P l).
Proof.
  induction l as [|x l IH]; [reflexivity|]. cbn [filter].
  destruct (P x) eqn:HP, (Q x) eqn:HQ; cbn [filter]; rewrite ?HP, ?HQ, IH; reflexivity.
Qed.

Lemma distinct_filter P l : distinct (filter P l) = filter P (distinct l).
Proof.
  induction l as [|x l IH]; [reflexivity|]. cbn [filter distinct].
  destruct (P x) eqn:HP; cbn [distinct filter]; rewrite ?HP.
  - now rewrite IH, filter_comm.
  - rewrite IH. rewrite (filter_comm P). symmetry.
    assert (E : forall l', filter (fun y => negb (String.eqb y x)) (filter P l') = filter P l').
    { induction l' as [|y l' IH']; [reflexivity|]. cbn [filter].
      destruct (P y) eqn:Hy; [|exact IH']. cbn [filter].
      destruct (String.eqb_spec y x) as [->|Hne]; [congruence|].
      cbn [negb]. now rewrite IH'. }
    apply E.
Qed.

Lemma mem_app name l1 l2 : mem name (l1 ++ l2) = mem name l1 || mem name l2.
Proof. apply existsb_app. Qed.

Lemma fold_add_name names :
  forall cols,
    fold_left add_name names cols =
    cols ++ distinct (filter (fun n => negb (mem n cols)) names).
Proof.
  induction names as [|x names IH]; intros cols; cbn [fold_left filter].
  - now rewrite app_nil_r.
  - unfold add_name at 2. destruct (mem x cols) eqn:Hx; cbn [negb].
    + apply IH.
    + rewrite IH, <- app_assoc. cbn [app distinct]. do 2 f_equal.
      rewrite <- distinct_filter. f_equal.
      rewrite filter_comm.
      assert (E : forall l, filter (fun n => negb (mem n (cols ++ [x]))) l =
                            filter (fun n => negb (mem n cols))
                                   (filter (fun y => negb (String.eqb y x)) l)).
      { induction l as [|y l IHl]; [reflexivity|]. cbn [filter].
        rewrite mem_app. unfold mem at 2. cbn [existsb]. rewrite orb_false_r.
        destruct (String.eqb y x); cbn [negb filter].
        - rewrite orb_true_r. exact IHl.
        - rewrite orb_false_r. destruct (mem y cols); cbn [negb]; now rewrite IHl. }
      apply E.
Qed.

Lemma filter_all_true {A : Type} (P : A -> bool) l :
  (forall x, In x l -> P x = true) -> filter P l = l.
Proof.
  induction l as [|x l IH]; intros H; [reflexivity|]. cbn [filter].
  rewrite (H x (or_introl eq_refl)), IH; [reflexivity|].
  intros; apply H; now right.
Qed.

Lemma distinct_In x l : In x l <-> In x (distinct l).
Proof.
  induction l as [|y l IH]; [reflexivity|]. cbn [distinct In].
  rewrite filter_In, <- IH. split.
  - intros [->|H]; [now left|].
    destruct (String.eqb_spec x y) as [->|Hne]; [now left|right; split; auto].
  - intros [->|[H _]]; auto.
Qed.

Lemma mem_In name l : mem name l = true <-> In name l.
Proof.
  unfold mem. rewrite existsb_exists. split.
  - intros (x & Hx & E). apply String.eqb_eq in E. now subst.
  - intros H. exists name. split; [exact H|apply String.eqb_refl].
Qed.

Lemma col_names_filter (P : string -> bool) cols :
  map sname (filter (fun c => P (sname c)) cols) = filter P (map sname cols).
Proof.
  induction cols as [|c cols IH]; [reflexivity|]. cbn [filter map].
  destruct (P (sname c)); cbn [map]; now rewrite IH.
Qed.

Lemma find_column_mem cols name :
  mem name (map sname cols) = true <-> find_column cols name <> None.
Proof. apply find_column_has. Qed.

Lemma str_append_assoc (a b c : string) :
  String.append (String.append a b) c = String.append a (String.append b c).
Proof. induction a as [|x a IH]; [reflexivity|]. cbn [String.append]. now rewrite IH. Qed.

(** The name a row is written to, for the qualifiers [type] and [unit]. *)
Lemma feature_name_type_unit L r :
  feature_name_of L "value" ["type"; "unit"] r =
  do t <- row_getitem r "type";
  do u <- row_getitem r "unit";
  Ok (String.append (Str.replace "/" "-" (py_str L t))
        (String.append "."
           (String.append (Str.replace "/" "-" (py_str L u)) ".value"))).
Proof.
  unfold feature_name_of. cbn [mapM].
  destruct (row_getitem r "type") as [t|e]; cbn [bind]; [|reflexivity].
  destruct (row_getitem r "unit") as [u|e]; cbn [bind]; [|reflexivity].
  unfold qualifier_text. cbn [String.eqb Ascii.eqb Bool.eqb Str.join].
  now rewrite !str_append_assoc.
Qed.

(** C5 (amended).  For a table with a [value] column of a dtype other
    than [int64] whose rows are written to exactly two different column
    names, neither of them a column of the table already, [__widen] with
    the feature [value] and the qualifiers [type] and [unit] returns a
    table with the same rows (same index) whose columns are the other
    columns of the table followed by those two names, in the order
    the rows meet them: [value], [type] and [unit] are gone.  The name
    a row is written to is the text of its type and of its unit, [/]
    replaced by [-], and [value], joined by dots. *)
Theorem widen_two_generated_columns L df c names n1 n2 :
  find_column (columns df) "value" = Some c ->
  sdtype c <> DInt64 ->
  generated_names L df "value" ["type"; "unit"] = Ok names ->
  distinct names = [n1; n2] ->
  mem n1 (col_names df) = false ->
  mem n2 (col_names df) = false ->
  (exists out,
      widen L df ["value"] ["type"; "unit"] = Ok out /\
      index out = index df /\
      col_names out =
        filter (fun n => negb (mem n ["value"; "type"; "unit"])) (col_names df)
        ++ [n1; n2]) /\
  (forall p n, nth_error names p = Some n ->
     exists t u,
       dict_get (get_row L df p) "type" = Some t /\
       dict_get (get_row L df p) "unit" = Some u /\
       n = String.append (Str.replace "/" "-" (py_str L t))
             (String.append "."
                (String.append (Str.replace "/" "-" (py_str L u)) ".value"))).
Proof.
  intros Hc Hdt Hnames Hdist Hn1 Hn2.
  pose proof (mapM_Forall2 _ _ _ Hnames) as HF.
  (* what a name is *)
  assert (Hname : forall p n, nth_error names p = Some n ->
     exists t u,
       dict_get (get_row L df p) "type" = Some t /\
       dict_get (get_row L df p) "unit" = Some u /\
       n = String.append (Str.replace "/" "-" (py_str L t))
             (String.append "."
                (String.append (Str.replace "/" "-" (py_str L u)) ".value"))).
  { intros p n Hp.
    destruct (mapM_nth _ _ _ Hnames) as [_ Hnth].
    destruct (Hnth p n Hp) as ([i r] & Hir & Hfn). cbn [snd] in Hfn.
    apply nth_error_iterrows in Hir as [_ ->].
    rewrite feature_name_type_unit in Hfn. unfold row_getitem, dict_getitem in Hfn.
    destruct (dict_get (get_row L df p) "type") as [t|]; cbn [bind] in Hfn; [|discriminate].
    destruct (dict_get (get_row L df p) "unit") as [u|]; cbn [bind] in Hfn; [|discriminate].
    exists t, u. repeat split. now injection Hfn. }
  split; [|exact Hname].
  (* the rows are read from the table itself *)
  assert (HF' : Forall2 (fun (ir : value * row) n =>
               feature_name_of L "value" ["type"; "unit"] (snd ir) = Ok n /\
               exists v, row_getitem (snd ir) "value" = Ok v) (iterrows L df) names).
  { clear -HF Hc.
    assert (Hrows : forall ir, In ir (iterrows L df) ->
                               exists v, row_getitem (snd ir) "value" = Ok v).
    { intros [i r] Hin. apply In_nth_error in Hin as [p Hp].
      apply nth_error_iterrows in Hp as [_ ->]. cbn [snd].
      unfold row_getitem, dict_getitem. rewrite dict_get_get_row, Hc. cbn. eauto. }
    induction HF as [|x n l l' Hx HF IH]; constructor.
    - split; [exact Hx|]. apply Hrows. now left.
    - apply IH. intros; apply Hrows; now right. }
  destruct (widen_rows_ok L "value" ["type"; "unit"] (iterrows L df) names df c HF' Hc Hdt)
    as (df' & Hfold & Hidx & Hcols).
  (* the columns after the loop *)
  assert (Hin12 : forall n, In n names -> n = n1 \/ n = n2).
  { intros n Hn. apply distinct_In in Hn. rewrite Hdist in Hn.
    destruct Hn as [<-|[<-|[]]]; auto. }
  assert (Hcols' : col_names df' = col_names df ++ [n1; n2]).
  { rewrite Hcols, fold_add_name. f_equal. rewrite filter_all_true; [exact Hdist|].
    intros n Hn. destruct (Hin12 n Hn) as [-> | ->]; now rewrite ?Hn1, ?Hn2. }
  (* type and unit are columns: the first row was read *)
  assert (Htu : mem "type" (col_names df) = true /\ mem "unit" (col_names df) = true).
  { destruct names as [|n names']; [discriminate|].
    destruct (Hname 0 n eq_refl) as (t & u & Ht & Hu & _).
    rewrite dict_get_get_row in Ht, Hu. unfold col_names.
    split; apply find_column_mem.
    - destruct (find_column (columns df) "type"); [discriminate|discriminate].
    - destruct (find_column (columns df) "unit"); [discriminate|discriminate]. }
  assert (Hval : mem "value" (col_names df) = true).
  { unfold col_names. apply find_column_mem. congruence. }
  destruct Htu as [Hty Hun].
  unfold widen. cbn [foldM]. rewrite Hfold. cbn [bind app].
  unfold drop_columns.
  assert (Hhas : forall l, mem l (col_names df) = true -> has_column df' l = true).
  { intros l Hl. unfold has_column. change (mem l (col_names df') = true).
    now rewrite Hcols', mem_app, Hl. }
  cbn [find]. rewrite (Hhas "value" Hval), (Hhas "type" Hty), (Hhas "unit" Hun).
  cbn [negb]. eexists. split; [reflexivity|]. cbn [index]. split; [exact Hidx|].
  unfold col_names at 1. cbn [columns].
  rewrite (col_names_filter (fun n => negb (existsb (String.eqb n) ["value"; "type"; "unit"]))).
  change (map sname (columns df')) with (col_names df'). rewrite Hcols', filter_app.
  f_equal. apply filter_all_true. intros n Hn.
  assert (Hnot : mem n (col_names df) = false).
  { destruct Hn as [<-|[<-|[]]]; assumption. }
  change (negb (mem n ["value"; "type"; "unit"]) = true).
  unfold mem at 1. cbn [existsb].
  destruct (String.eqb_spec n "value") as [->|_]; [congruence|].
  destruct (String.eqb_spec n "type") as [->|_]; [congruence|].
  destruct (String.eqb_spec n "unit") as [->|_]; [congruence|].
  reflexivity.
Qed.

Lemma widen_two_generated_columns_witness :
  (exists out,
      widen some_lib two_measures ["value"] ["type"; "unit"] = Ok out /\
      index out = index two_measures /\
      col_names out = ["sampleID"] ++ ["covn1.gc-ml.value"; "covn2.gc-ml.value"]) /\
  (forall p n,
     nth_error ["covn1.gc-ml.value"; "covn2.gc-ml.value"; "covn1.gc-ml.value"] p = Some n ->
     exists t u,
       dict_get (get_row some_lib two_measures p) "type" = Some t /\
       dict_get (get_row some_lib two_measures p) "unit" = Some u /\
       n = String.append (Str.replace "/" "-" (py_str some_lib t))
             (String.append "."
                (String.append (Str.replace "/" "-" (py_str some_lib u)) ".value"))).
Proof.
  apply (widen_two_generated_columns some_lib two_measures
           (mkSeries "value" DFloat64 [VFloat 4607182418800017408%Z;
                                       VFloat 4611686018427387904%Z;
                                       VFloat 4613937818241073152%Z])
           ["covn1.gc-ml.value"; "covn2.gc-ml.value"; "covn1.gc-ml.value"]
           "covn1.gc-ml.value" "covn2.gc-ml.value").
  - reflexivity.
  - discriminate.
  - reflexivity.
  - reflexivity.
  - reflexivity.
  - reflexivity.
Defined.

(** C5 as stated fails when two combinations give one name: the types
    [cov/n1] and [cov-n1] differ, and both rows are written to the one
    column [cov-n1.gc.value]. *)
Lemma widen_two_combinations_one_column :
  cell slash_and_dash "type" 0 = Some (VStr "cov/n1") /\
  cell slash_and_dash "type" 1 = Some (VStr "cov-n1") /\
  nrows slash_and_dash = 2 /\
  exists out,
    widen some_lib slash_and_dash ["value"] ["type"; "unit"] = Ok out /\
    col_names out = ["sampleID"; "cov-n1.gc.value"].
Proof.
  repeat split. eexists. split; reflexivity.
Qed.

(** With an integer [value] column the new column cannot be created:
    [None] has no [int64] value. *)
Lemma widen_int_feature_raises (L : PyLib) :
  widen L two_counts ["value"] ["type"; "unit"] =
  Raise (TypeError "int() argument must be a string or a number").
Proof. reflexivity. Qed.

(** ** [__parse_sample] *)

Lemma find_column_sname cols name c :
  find_column cols name = Some c -> sname c = name.
Proof.
  induction cols as [|c0 cols IH]; cbn [find_column]; [discriminate|].
  destruct (String.eqb_spec (sname c0) name); [now intros [= <-]|exact IH].
Qed.

Lemma nth_error_set_nth pos v l p :
  p <> pos -> nth_error (set_nth pos v l) p = nth_error l p.
Proof.
  revert pos p. induction l as [|x l IH]; intros [|pos] [|p] H; cbn; try reflexivity;
    try congruence.
  apply IH. congruence.
Qed.

Lemma current_write st df : current (write st df) = df.
Proof. unfold current, write. now destruct (rebound st). Qed.

Lemma cell_iloc_set df name pos v name' p x :
  cell df name' p = Some x ->
  name' <> name \/ p <> pos ->
  cell (iloc_set df name pos v) name' p = Some x.
Proof.
  unfold cell, iloc_set. cbn [columns]. intros H Hor.
  rewrite find_column_map by (intros c; now destruct (String.eqb (sname c) name)).
  destruct (find_column (columns df) name') as [c|] eqn:Hc; [|discriminate].
  cbn [option_map]. apply find_column_sname in Hc.
  destruct (String.eqb_spec (sname c) name) as [E|E]; [|exact H].
  cbn [svalues]. destruct Hor as [Hn|Hp]; [congruence|].
  now rewrite nth_error_set_nth.
Qed.

Lemma cell_append_row df r name p x :
  cell df name p = Some x -> cell (append_row df r) name p = Some x.
Proof.
  unfold cell, append_row. cbn [columns]. intros H.
  rewrite find_column_map by reflexivity.
  destruct (find_column (columns df) name) as [c|]; [|discriminate].
  cbn [option_map svalues]. rewrite nth_error_app1; [exact H|].
  apply nth_error_Some. congruence.
Qed.

Lemma col_names_iloc_set df name pos v : col_names (iloc_set df name pos v) = col_names df.
Proof.
  unfold col_names, iloc_set. cbn [columns]. rewrite map_map.
  apply map_ext. intros c. now destruct (String.eqb (sname c) name).
Qed.

Lemma col_names_append_row df r : col_names (append_row df r) = col_names df.
Proof. unfold col_names, append_row. cbn [columns]. now rewrite map_map. Qed.

(** What a successful step of the loop has done. *)
Lemma explode_step_inv L st i r st' :
  explode_step L st (i, r) = Ok st' ->
  st' = st \/
  exists pos popped site_ids,
    iloc_position (nrows (current st)) i = Ok pos /\
    foldM (extra_row_step L i) site_ids
          (write st (iloc_set (current st) "siteID" pos (VStr popped))) = Ok st'.
Proof.
  unfold explode_step.
  destruct (row_getitem r "siteID") as [sites|e]; cbn [bind]; [|discriminate].
  destruct sites as [ | | | | b | z | x | sites | t]; try discriminate.
  destruct (Str.contains ";" sites); [|intros [= <-]; now left].
  destruct (set_iter L _) as [|popped site_ids]; [discriminate|].
  destruct (df_getitem (current st) "siteID"); cbn [bind]; [|discriminate].
  destruct (iloc_position (nrows (current st)) i) as [pos|e] eqn:Hpos; cbn [bind];
    [|discriminate].
  destruct (chained_assignment_flagged L (current st) "siteID"); [discriminate|].
  intros H. right. exists pos, popped, site_ids. split; [reflexivity|exact H].
Qed.

Lemma extra_rows_cells L i site_ids :
  forall st st',
    foldM (extra_row_step L i) site_ids st = Ok st' ->
    col_names (current st') = col_names (current st) /\
    forall name p x, cell (current st) name p = Some x ->
                     cell (current st') name p = Some x.
Proof.
  induction site_ids as [|s site_ids IH]; intros st st'; cbn [foldM].
  - intros [= <-]. split; auto.
  - unfold extra_row_step at 1.
    destruct (iloc_position (nrows (current st)) i) as [pos|e]; cbn [bind]; [|discriminate].
    intros H. apply IH in H as [Hc H]. cbn [current rebound] in *.
    split.
    + now rewrite Hc, col_names_append_row.
    + intros name p x Hx. apply H. now apply cell_append_row.
Qed.

(** A step keeps the columns, and every cell but the site id at the
    position the label of the row is read as. *)
Lemma explode_step_cells L st i r st' :
  explode_step L st (i, r) = Ok st' ->
  col_names (current st') = col_names (current st) /\
  forall name p x,
    cell (current st) name p = Some x ->
    name <> "siteID" \/ (forall n, iloc_position n i <> Ok p) ->
    cell (current st') name p = Some x.
Proof.
  intros H. apply explode_step_inv in H as [->|(pos & popped & ids & Hpos & Hfold)].
  - split; auto.
  - apply extra_rows_cells in Hfold as [Hc Hcells]. rewrite current_write in *.
    split; [now rewrite Hc, col_names_iloc_set|].
    intros name p x Hx Hor. apply Hcells. apply cell_iloc_set; [exact Hx|].
    destruct Hor as [Hn|Hp]; [now left|right].
    intros ->. now apply (Hp (nrows (current st))).
Qed.

Lemma explode_loop_cells L rows :
  forall st st',
    foldM (explode_step L) rows st = Ok st' ->
    col_names (current st') = col_names (current st) /\
    forall name p x,
      cell (current st) name p = Some x ->
      name <> "siteID" \/
      (forall i r n, In (i, r) rows -> iloc_position n i <> Ok p) ->
      cell (current st') name p = Some x.
Proof.
  induction rows as [|[i r] rows IH]; intros st st'; cbn [foldM].
  - intros [= <-]. split; auto.
  - destruct (explode_step L st (i, r)) as [st1|e] eqn:Hstep; cbn [bind]; [|discriminate].
    intros H. apply IH in H as [Hc H]. apply explode_step_cells in Hstep as [Hc1 H1].
    split; [congruence|].
    intros name p x Hx Hor. apply H.
    + apply H1; [exact Hx|]. destruct Hor as [Hn|Hp]; [now left|right].
      intros n. apply (Hp i r n). now left.
    + destruct Hor as [Hn|Hp]; [now left|right].
      intros i' r' n Hin. apply (Hp i' r' n). now right.
Qed.

Lemma nth_error_fillna vs other p v d :
  nth_error vs p = Some v -> nth_error other p = Some d ->
  nth_error (fillna vs other) p = Some (if is_missing v then d else v).
Proof.
  revert other p. induction vs as [|x vs IH]; intros [|o other] [|p]; cbn; try discriminate.
  - now intros [= ->] [= ->].
  - apply IH.
Qed.

Lemma replace_column_old cols c :
  mem (sname c) (map sname cols) = true ->
  replace_column cols c =
  map (fun c' => if String.eqb (sname c') (sname c) then c else c') cols.
Proof. intros H. unfold replace_column. now rewrite existsb_sname, H. Qed.

Lemma find_column_replace cols c n name :
  sname c = n ->
  find_column (map (fun c' => if String.eqb (sname c') n then c else c') cols) name =
  if String.eqb n name
  then match find_column cols name with Some _ => Some c | None => None end
  else find_column cols name.
Proof.
  intros Hn. induction cols as [|c0 cols IH]; cbn [map find_column].
  - now destruct (String.eqb n name).
  - destruct (String.eqb_spec (sname c0) n) as [E|E].
    + destruct (String.eqb_spec n name) as [E'|E'].
      * rewrite Hn, E, E'. now rewrite String.eqb_refl.
      * rewrite Hn, E. destruct (String.eqb_spec n name); [congruence|exact IH].
    + destruct (String.eqb_spec (sname c0) name) as [E'|E'].
      * destruct (String.eqb_spec n name); [congruence|reflexivity].
      * exact IH.
Qed.

(** What [df[target] = df[target].fillna(df[source])] does to the cells. *)
Lemma fill_from_cells df target source df' :
  fill_from df target source = Ok df' ->
  col_names df' = col_names df /\
  (forall name p, name <> target -> cell df' name p = cell df name p) /\
  (forall p v d, cell df target p = Some v -> cell df source p = Some d ->
                 cell df' target p = Some (if is_missing v then d else v)).
Proof.
  unfold fill_from, df_getitem.
  destruct (find_column (columns df) target) as [t|] eqn:Ht; cbn [bind]; [|discriminate].
  destruct (find_column (columns df) source) as [s|] eqn:Hs; cbn [bind]; [|discriminate].
  intros [= <-]. unfold set_column.
  assert (Hmem : mem target (map sname (columns df)) = true).
  { apply find_column_mem. congruence. }
  rewrite replace_column_old by exact Hmem. cbn [sname].
  split; [|split].
  - unfold col_names. cbn [columns]. rewrite map_map. apply map_ext.
    intros c. destruct (String.eqb_spec (sname c) target); [now subst|reflexivity].
  - intros name p Hne. unfold cell. cbn [columns].
    rewrite find_column_replace by reflexivity.
    destruct (String.eqb_spec target name); [congruence|reflexivity].
  - intros p v d Hv Hd. unfold cell in *. cbn [columns].
    rewrite find_column_replace by reflexivity. rewrite String.eqb_refl, Ht.
    rewrite Ht in Hv. rewrite Hs in Hd. cbn [svalues].
    now apply nth_error_fillna.
Qed.

Lemma find_column_filter (P : string -> bool) cols name :
  P name = true ->
  find_column (filter (fun c => P (sname c)) cols) name = find_column cols name.
Proof.
  intros HP. induction cols as [|c cols IH]; [reflexivity|]. cbn [filter find_column].
  destruct (P (sname c)) eqn:Hc; cbn [find_column].
  - destruct (String.eqb (sname c) name); [reflexivity|exact IH].
  - destruct (String.eqb_spec (sname c) name) as [E|E]; [congruence|exact IH].
Qed.

Lemma drop_columns_cells df labels df' :
  drop_columns df labels = Ok df' ->
  index df' = index df /\
  col_names df' = filter (fun n => negb (mem n labels)) (col_names df) /\
  forall name p, mem name labels = false -> cell df' name p = cell df name p.
Proof.
  unfold drop_columns. destruct (find _ labels); [discriminate|].
  intros [= <-]. cbn [index]. split; [reflexivity|]. split.
  - unfold col_names. cbn [columns].
    apply (col_names_filter (fun n => negb (mem n labels))).
  - intros name p Hn. unfold cell. cbn [columns].
    rewrite (find_column_filter (fun n => negb (mem n labels))); [reflexivity|].
    now rewrite Hn.
Qed.

Lemma append_eqb (a x y : string) :
  String.eqb (String.append a x) (String.append a y) = String.eqb x y.
Proof.
  induction a as [|c a IH]; [reflexivity|]. cbn [String.append String.eqb].
  now rewrite Ascii.eqb_refl.
Qed.

Lemma cell_add_prefix pre df name p :
  cell (add_prefix pre df) (String.append pre name) p = cell df name p.
Proof.
  unfold cell, add_prefix. cbn [columns].
  induction (columns df) as [|c cols IH]; [reflexivity|].
  cbn [map find_column sname]. rewrite append_eqb.
  destruct (String.eqb (sname c) name); [reflexivity|exact IH].
Qed.

Lemma has_column_add_prefix pre df name :
  has_column (add_prefix pre df) (String.append pre name) = has_column df name.
Proof.
  unfold has_column, col_names, add_prefix. cbn [columns]. rewrite map_map. cbn [sname].
  induction (columns df) as [|c cols IH]; [reflexivity|].
  cbn [map existsb]. now rewrite append_eqb, IH.
Qed.

Lemma has_column_add_prefix_other pre df name :
  Str.startswith name pre = false -> has_column (add_prefix pre df) name = false.
Proof.
  intros H. unfold has_column, col_names, add_prefix. cbn [columns]. rewrite map_map.
  cbn [sname]. induction (columns df) as [|c cols IH]; [reflexivity|].
  cbn [map existsb]. rewrite IH, orb_false_r.
  destruct (String.eqb_spec name (String.append pre (sname c))) as [E|E]; [|reflexivity].
  exfalso. rewrite E in H. clear -H.
  induction pre as [|a pre IH]; [discriminate|].
  cbn [String.append Str.startswith] in H. rewrite Ascii.eqb_refl in H. now apply IH.
Qed.

(** The steps of [__parse_sample], when it returns. *)
Lemma parse_sample_steps L self out self' :
  parse_sample L self = Ok (out, self') ->
  exists df st d1 d2 d3,
    table_of self "sample" = Ok df /\
    foldM (explode_step L) (iterrows L df) (mkSampleState df None) = Ok st /\
    fill_from (current st) "dateTimeStart" "dateTime" = Ok d1 /\
    fill_from d1 "dateTimeEnd" "dateTime" = Ok d2 /\
    drop_columns d2 ["dateTime"] = Ok d3 /\
    out = add_prefix "Sample." d3.
Proof.
  unfold parse_sample.
  destruct (table_of self "sample") as [df|e] eqn:H0; cbn [bind]; [|discriminate].
  destruct (foldM (explode_step L) (iterrows L df) _) as [st|e] eqn:Hl; cbn [bind];
    [|discriminate].
  destruct (fill_from (current st) _ _) as [d1|e] eqn:H1; cbn [bind]; [|discriminate].
  rewrite current_write.
  destruct (fill_from d1 _ _) as [d2|e] eqn:H2; cbn [bind]; [|discriminate].
  rewrite current_write.
  destruct (drop_columns d2 _) as [d3|e] eqn:H3; cbn [bind]; [|discriminate].
  rewrite current_write. intros [= <- <-].
  exists df, st, d1, d2, d3. repeat split; try assumption; reflexivity.
Qed.

(** What the part after the loop does to the cells. *)
Lemma after_loop_cells d0 d1 d2 d3 :
  fill_from d0 "dateTimeStart" "dateTime" = Ok d1 ->
  fill_from d1 "dateTimeEnd" "dateTime" = Ok d2 ->
  drop_columns d2 ["dateTime"] = Ok d3 ->
  has_column (add_prefix "Sample." d3) "Sample.dateTime" = false /\
  has_column (add_prefix "Sample." d3) "dateTime" = false /\
  (forall name p,
      name <> "dateTime" -> name <> "dateTimeStart" -> name <> "dateTimeEnd" ->
      cell (add_prefix "Sample." d3) (String.append "Sample." name) p = cell d0 name p) /\
  (forall p v d,
      cell d0 "dateTime" p = Some d ->
      (cell d0 "dateTimeStart" p = Some v ->
       cell (add_prefix "Sample." d3) "Sample.dateTimeStart" p =
         Some (if is_missing v then d else v)) /\
      (cell d0 "dateTimeEnd" p = Some v ->
       cell (add_prefix "Sample." d3) "Sample.dateTimeEnd" p =
         Some (if is_missing v then d else v))).
Proof.
  intros H1 H2 H3.
  apply fill_from_cells in H1 as (C1 & O1 & F1).
  apply fill_from_cells in H2 as (C2 & O2 & F2).
  apply drop_columns_cells in H3 as (_ & C3 & O3).
  split; [|split; [|split]].
  - change "Sample.dateTime" with (String.append "Sample." "dateTime").
    rewrite has_column_add_prefix. unfold has_column. rewrite C3.
    destruct (existsb _ _) eqn:E; [|reflexivity].
    apply existsb_exists in E as (x & Hx & Hxe). apply String.eqb_eq in Hxe. subst x.
    apply filter_In in Hx as [_ Hx]. discriminate.
  - now apply has_column_add_prefix_other.
  - intros name p N1 N2 N3. rewrite cell_add_prefix, O3, O2, O1; auto.
    unfold mem. cbn [existsb]. destruct (String.eqb_spec name "dateTime"); [congruence|reflexivity].
  - intros p v d Hd. split; intros Hv.
    + change "Sample.dateTimeStart" with (String.append "Sample." "dateTimeStart").
      rewrite cell_add_prefix, O3 by reflexivity. rewrite O2 by discriminate.
      now apply F1.
    + change "Sample.dateTimeEnd" with (String.append "Sample." "dateTimeEnd").
      rewrite cell_add_prefix, O3 by reflexivity.
      apply F2; rewrite O1 by discriminate; assumption.
Qed.

Lemma explode_loop_no_lists L rows :
  (forall i r, In (i, r) rows ->
     exists s, row_getitem r "siteID" = Ok (VStr s) /\ Str.contains ";" s = false) ->
  forall st, foldM (explode_step L) rows st = Ok st.
Proof.
  induction rows as [|[i r] rows IH]; intros H st; [reflexivity|].
  cbn [foldM]. destruct (H i r (or_introl eq_refl)) as (s & Hs & Hc).
  unfold explode_step at 1. rewrite Hs. cbn [bind]. rewrite Hc. cbn [bind].
  apply IH. intros i' r' Hin. apply (H i' r'). now right.
Qed.

Lemma fill_from_ok df target source :
  has_column df target = true -> has_column df source = true ->
  exists df', fill_from df target source = Ok df' /\ index df' = index df.
Proof.
  intros Ht Hs. unfold fill_from, df_getitem.
  apply find_column_has in Ht, Hs.
  destruct (find_column (columns df) target); [|congruence].
  destruct (find_column (columns df) source); [|congruence].
  cbn [bind]. eexists; split; reflexivity.
Qed.

(** C7.  For a Sample table with the columns [dateTime], [dateTimeStart]
    and [dateTimeEnd]: when no site id holds a list, [__parse_sample]
    returns, with the rows of the table; and whenever it returns, a row in
    which [dateTimeStart] and [dateTimeEnd] are missing has both equal to
    its [dateTime] in the result, which has no [dateTime] column. *)
Theorem grab_sample_window L self df :
  table_of self "sample" = Ok df ->
  has_column df "dateTime" = true ->
  has_column df "dateTimeStart" = true ->
  has_column df "dateTimeEnd" = true ->
  ((forall i r, In (i, r) (iterrows L df) ->
      exists s, row_getitem r "siteID" = Ok (VStr s) /\ Str.contains ";" s = false) ->
   exists out self', parse_sample L self = Ok (out, self') /\ index out = index df) /\
  (forall out self',
      parse_sample L self = Ok (out, self') ->
      has_column out "Sample.dateTime" = false /\
      has_column out "dateTime" = false /\
      forall p d v1 v2,
        cell df "dateTime" p = Some d ->
        cell df "dateTimeStart" p = Some v1 ->
        cell df "dateTimeEnd" p = Some v2 ->
        is_missing v1 = true ->
        is_missing v2 = true ->
        cell out "Sample.dateTimeStart" p = Some d /\
        cell out "Sample.dateTimeEnd" p = Some d).
Proof.
  intros Htab Hdt Hstart Hend. split.
  - intros Hrows. unfold parse_sample. rewrite Htab. cbn [bind].
    rewrite (explode_loop_no_lists L (iterrows L df) Hrows). cbn [bind current rebound stored].
    destruct (fill_from_ok df "dateTimeStart" "dateTime" Hstart Hdt) as (d1 & H1 & I1).
    rewrite H1. cbn [bind]. rewrite current_write.
    pose proof (fill_from_cells _ _ _ _ H1) as (C1 & _ & _).
    destruct (fill_from_ok d1 "dateTimeEnd" "dateTime") as (d2 & H2 & I2);
      [unfold has_column; now rewrite C1 ..|].
    rewrite H2. cbn [bind]. rewrite current_write.
    pose proof (fill_from_cells _ _ _ _ H2) as (C2 & _ & _).
    unfold drop_columns. cbn [find].
    replace (has_column d2 "dateTime") with true
      by (unfold has_column; now rewrite C2, C1).
    cbn [negb bind]. rewrite current_write.
    do 2 eexists. split; [reflexivity|]. cbn [add_prefix index]. congruence.
  - intros out self' Hps.
    destruct (parse_sample_steps L self out self' Hps)
      as (df' & st & d1 & d2 & d3 & Htab' & Hloop & H1 & H2 & H3 & ->).
    assert (df' = df) by congruence. subst df'.
    apply explode_loop_cells in Hloop as [_ Hcells]. cbn [current rebound stored] in Hcells.
    destruct (after_loop_cells _ _ _ _ H1 H2 H3) as (A1 & A2 & _ & A4).
    split; [exact A1|]. split; [exact A2|].
    intros p d v1 v2 Hd Hv1 Hv2 M1 M2.
    assert (Hd' : cell (current st) "dateTime" p = Some d)
      by (apply Hcells; [exact Hd|left; discriminate]).
    assert (Hv1' : cell (current st) "dateTimeStart" p = Some v1)
      by (apply Hcells; [exact Hv1|left; discriminate]).
    assert (Hv2' : cell (current st) "dateTimeEnd" p = Some v2)
      by (apply Hcells; [exact Hv2|left; discriminate]).
    split.
    + destruct (A4 p v1 d Hd') as [S _]. rewrite (S Hv1'). now rewrite M1.
    + destruct (A4 p v2 d Hd') as [_ E]. rewrite (E Hv2'). now rewrite M2.
Qed.

Lemma grab_sample_window_witness :
  (exists out self',
      parse_sample some_lib example_odm = Ok (out, self') /\
      index out = index example_sample) /\
  (forall out self',
      parse_sample some_lib example_odm = Ok (out, self') ->
      cell out "Sample.dateTimeStart" 0 = Some (VTime 1612137600000000000) /\
      cell out "Sample.dateTimeEnd" 0 = Some (VTime 1612137600000000000)).
Proof.
  destruct (grab_sample_window some_lib example_odm example_sample) as [A B];
    try reflexivity.
  split.
  - apply A. intros i r [[= <- <-]|[[= <- <-]|[]]]; eexists; split; reflexivity.
  - intros out self' H. destruct (B out self' H) as (_ & _ & C).
    apply (C 0 _ VNaT VNaT); reflexivity.
Defined.

(** C6.  On the Sample table two loads were merged into, the row that
    holds the list [A; B] is not exploded: whenever [__parse_sample]
    returns, that row still holds the whole list.  The loop reads the
    label of the row (0, as both rows are labelled) as its position, so
    what it writes and copies is the row at position 0, another sample;
    and it raises when pandas flags the chained assignment. *)
Theorem site_list_row_not_exploded (L : PyLib) :
  add_to_attr L (setattr Odm_empty "sample" (Some samples_a)) "sample" (Some samples_b)
  = Ok (setattr Odm_empty "sample" (Some samples_merged), []) /\
  match parse_sample L (setattr Odm_empty "sample" (Some samples_merged)) with
  | Raise _ => True
  | Ok (out, _) =>
      cell out "Sample.sampleID" 1 = Some (VStr "s2") /\
      cell out "Sample.siteID" 1 = Some (VStr "A; B")
  end.
Proof.
  split; [reflexivity|].
  destruct (parse_sample L _) as [[out self']|e] eqn:Hps; [|exact I].
  destruct (parse_sample_steps L _ out self' Hps)
    as (df & st & d1 & d2 & d3 & Htab & Hloop & H1 & H2 & H3 & ->).
  injection Htab as <-.
  apply explode_loop_cells in Hloop as [_ Hcells]. cbn [current rebound stored] in Hcells.
  destruct (after_loop_cells _ _ _ _ H1 H2 H3) as (_ & _ & A3 & _).
  split.
  - change "Sample.sampleID" with (String.append "Sample." "sampleID").
    rewrite A3 by discriminate. apply Hcells; [reflexivity|left; discriminate].
  - change "Sample.siteID" with (String.append "Sample." "siteID").
    rewrite A3 by discriminate. apply Hcells; [reflexivity|right].
    intros i r n [[= <- <-]|[[= <- <-]|[]]]; unfold iloc_position;
      destruct ((0 <=? 0)%Z && (0 <? Z.of_nat n)%Z); try discriminate;
      destruct ((- Z.of_nat n <=? 0)%Z && (0 <? 0)%Z) eqn:E; try discriminate;
      rewrite andb_false_r in E; discriminate.
Qed.

(** With a library that flags nothing, the call returns: the first
    sample has lost its site and appears twice, with the two site ids of
    the second sample, which keeps its list. *)
Lemma site_list_row_not_exploded_run :
  exists out self',
    parse_sample some_lib (setattr Odm_empty "sample" (Some samples_merged))
    = Ok (out, self') /\
    cell out "Sample.sampleID" 0 = Some (VStr "s1") /\
    cell out "Sample.siteID" 0 = Some (VStr "A") /\
    cell out "Sample.sampleID" 1 = Some (VStr "s2") /\
    cell out "Sample.siteID" 1 = Some (VStr "A; B") /\
    cell out "Sample.sampleID" 2 = Some (VStr "s1") /\
    cell out "Sample.siteID" 2 = Some (VStr "B").
Proof. do 2 eexists. repeat split. Qed.

(** ** The envelope codec *)

Lemma map_nth_seq {A : Type} (l : list A) (d : A) :
  map (fun i => nth i l d) (seq 0 (length l)) = l.
Proof.
  induction l as [|a l IH]; simpl; [reflexivity|].
  f_equal. rewrite <- seq_shift, map_map. exact IH.
Qed.

Lemma nth_map_at {A B : Type} (f : A -> B) (l : list A) pos a (d : B) :
  nth_error l pos = Some a -> nth pos (map f l) d = f a.
Proof.
  revert pos; induction l as [|x l IH]; intros [|pos] H; simpl in *;
    try discriminate.
  - injection H as ->. reflexivity.
  - apply IH, H.
Qed.

Lemma well_shaped_to_json L df : well_shaped (to_json_split L df) = true.
Proof.
  unfold well_shaped, to_json_split; cbn [split_data split_index split_columns].
  apply andb_true_intro; split.
  - rewrite !length_map, length_seq. apply Nat.eqb_refl.
  - apply forallb_forall. intros r Hr.
    apply in_map_iff in Hr as [pos [<- _]].
    unfold col_names. rewrite !length_map. apply Nat.eqb_refl.
Qed.

Lemma read_json_to_json L df :
  read_json_split L (PSplit (to_json_split L df)) = Ok (reread_table L df).
Proof.
  unfold read_json_split. rewrite well_shaped_to_json. reflexivity.
Qed.

Lemma loads_object L fields :
  loads L (JObj fields)
  = do items <- loads_members L fields; decode_object L (dict_update [] items).
Proof. reflexivity. Qed.

Lemma loads_members_cons L k x l :
  loads_members L ((k, x) :: l)
  = do o <- loads L x; do os <- loads_members L l; Ok ((k, o) :: os).
Proof. reflexivity. Qed.

(** A table, or [None], written and read back. *)
Lemma loads_dumps_table L v :
  loads L (dumps L (object_of_table v))
  = Ok (object_of_table (option_map (reread_table L) v)).
Proof.
  destruct v as [df|]; [|reflexivity].
  cbn [object_of_table dumps option_map].
  rewrite loads_object, loads_members_cons. cbn [loads_members loads bind].
  unfold decode_object. cbn [dict_update fold_left dict_set fst snd dict_get].
  change (String.eqb "__DataFrame__" "__Odm__") with false.
  change (String.eqb "__DataFrame__" "__DataFrame__") with true.
  cbv iota. rewrite read_json_to_json. reflexivity.
Qed.

Lemma loads_members_tables L (self : Odm) :
  loads_members L (map (fun kv => (fst kv, dumps L (snd kv)))
                       (map (fun kv => (fst kv, object_of_table (snd kv))) self))
  = Ok (map (fun kv => (fst kv, object_of_table (snd kv))) (reread_Odm L self)).
Proof.
  induction self as [|[k v] self IH]; [reflexivity|].
  cbn [map fst snd reread_Odm].
  rewrite loads_members_cons, loads_dumps_table. cbn [bind].
  fold (reread_Odm L self). rewrite IH. reflexivity.
Qed.

(** The codec on an instance made by [Odm.__init__]: every table goes
    through [to_json] and [read_json], [None] stays [None]. *)
Lemma codec_on_tables L (self : Odm) :
  map fst self = map fst Odm_empty ->
  serialization_deserialization L (object_of_Odm self)
  = Ok (object_of_Odm (reread_Odm L self)).
Proof.
  intros Hkeys.
  unfold serialization_deserialization, object_of_Odm.
  cbn [dumps]. rewrite loads_object, loads_members_cons.
  rewrite loads_object, loads_members_tables.
  assert (Hk : map fst (reread_Odm L self) = map fst Odm_empty).
  { unfold reread_Odm. rewrite map_map. cbn [fst]. exact Hkeys. }
  clear Hkeys. revert Hk. generalize (reread_Odm L self) as d. intros d Hk.
  cbn in Hk.
  repeat (destruct d as [|[? ?] d]; [discriminate Hk|]).
  destruct d; [|discriminate Hk].
  cbn [map fst] in Hk. injection Hk as -> -> -> -> -> -> -> -> -> ->.
  cbn [map fst snd].
  repeat match goal with
         | |- context [object_of_table ?v] =>
             is_var v; generalize (object_of_table v); clear v; intro
         end.
  reflexivity.
Qed.

Lemma read_columns_nth L data names : forall k pos name,
  nth_error names pos = Some name ->
  nth_error (read_columns L data k names) pos
  = Some (read_column L name (map (fun r => nth (k + pos) r SNull) data)).
Proof.
  induction names as [|n names IH]; intros k [|pos] name H; simpl in *;
    try discriminate.
  - injection H as ->. rewrite Nat.add_0_r. reflexivity.
  - rewrite Nat.add_succ_r. apply (IH (S k)), H.
Qed.

(** The cells of a column, as they come back in the rows. *)
Lemma split_data_column L df pos c :
  nth_error (columns df) pos = Some c ->
  length (svalues c) = nrows df ->
  map (fun r => nth pos r SNull) (split_data (to_json_split L df)) = written L c.
Proof.
  intros Hc Hlen. unfold to_json_split; cbn [split_data].
  rewrite map_map.
  rewrite (map_ext _ (fun i => scalar_of_value L (nth i (svalues c) VNone))).
  - rewrite <- Hlen, <- (map_map (fun i => nth i (svalues c) VNone)), map_nth_seq.
    reflexivity.
  - intro i.
    exact (nth_map_at (fun c0 => scalar_of_value L (nth i (svalues c0) VNone))
                      (columns df) pos c SNull Hc).
Qed.

(** A column whose label is not date-like comes back as [reread]. *)
Lemma reread_column L df pos c :
  nth_error (columns df) pos = Some c ->
  length (svalues c) = nrows df ->
  date_like_label (sname c) = false ->
  nth_error (columns (reread_table L df)) pos = Some (reread L c).
Proof.
  intros Hc Hlen Hd. unfold reread_table; cbn [columns].
  rewrite (read_columns_nth L _ _ 0 pos (sname c)).
  - cbn [Nat.add]. rewrite (split_data_column L df pos c Hc Hlen).
    unfold read_column, reread. rewrite Hd. reflexivity.
  - unfold col_names. rewrite nth_error_map, Hc. reflexivity.
Qed.

(** No timestamp comes back in a column that was not read as dates,
    and it comes back with as many cells as were written. *)
Lemma value_of_scalar_no_timestamp dt s t : value_of_scalar dt s <> VTime t.
Proof. destruct s, dt; discriminate. Qed.

Lemma reread_no_timestamp L c t : ~ In (VTime t) (svalues (reread L c)).
Proof.
  unfold reread. cbn [svalues]. intro H. apply in_map_iff in H as [s [H _]].
  exact (value_of_scalar_no_timestamp _ _ _ H).
Qed.

Lemma reread_length L c : length (svalues (reread L c)) = length (svalues c).
Proof. unfold reread, written. cbn [svalues]. now rewrite !length_map. Qed.

(** The codec on any instance made by [Odm.__init__]: [None] stays
    [None] and every table is the one [read_json] rebuilds from the
    text [to_json] wrote, in which a column whose label is not
    date-like keeps its place, its label and its number of cells, and
    holds no timestamp. *)
Lemma codec_rereads_every_table (L : PyLib) (self : Odm) :
  map fst self = map fst Odm_empty ->
  serialization_deserialization L (object_of_Odm self)
  = Ok (object_of_Odm (reread_Odm L self))
  /\ (forall attribute, dict_get (reread_Odm L self) attribute
                        = option_map (option_map (reread_table L))
                                     (dict_get self attribute))
  /\ (forall df pos c,
        nth_error (columns df) pos = Some c ->
        length (svalues c) = nrows df ->
        date_like_label (sname c) = false ->
        nth_error (columns (reread_table L df)) pos = Some (reread L c)
        /\ sname (reread L c) = sname c
        /\ length (svalues (reread L c)) = length (svalues c)
        /\ forall t, ~ In (VTime t) (svalues (reread L c))).
Proof.
  intros Hkeys. split; [exact (codec_on_tables L self Hkeys)|]. split.
  - intro attribute. clear Hkeys.
    induction self as [|[k v] self IH]; [reflexivity|].
    cbn [reread_Odm map fst snd dict_get].
    destruct (String.eqb k attribute); [reflexivity|exact IH].
  - intros df pos c Hc Hlen Hd. split; [exact (reread_column L df pos c Hc Hlen Hd)|].
    split; [reflexivity|]. split; [apply reread_length|].
    intro t; apply reread_no_timestamp.
Qed.

(** The run of the codec on [codec_odm] with the library [some_lib]:
    the timestamp comes back as the text that was written for it. *)
Lemma codec_example_run :
  serialization_deserialization some_lib (object_of_Odm codec_odm)
  = Ok (object_of_Odm (setattr Odm_empty "sample" (Some codec_sample_read)))
  /\ cell codec_sample_read "sampleID" 0 = Some (VStr "s1")
  /\ cell codec_sample_read "sizeL" 0 = Some (VFloat 4609434218613702656%Z)
  /\ cell codec_sample_read "dateTimeStart" 0 = Some (VStr "1970-01-01T00:00:00.000Z").
Proof.
  split; [|repeat split; reflexivity].
  exact (codec_on_tables some_lib codec_odm eq_refl).
Qed.

(** C4. The instance [codec_odm] holds a Sample table of one row with
    the text column [sampleID], the numeric column [sizeL] and the
    timestamp column [dateTimeStart].  Whatever the library does with
    the cells, encoding it with [OdmEncoder] and decoding the text with
    [decode_object] returns an instance whose Sample table has the
    three columns under their labels, in their order, with one cell
    each; but [to_json] wrote the timestamp as its ISO 8601 text, and
    [read_json] tries dates on date-like labels only, which
    [dateTimeStart] is not: the cell that comes back is what the type
    conversion makes of that text, never a timestamp, so the decoded
    instance is not the one that was encoded. *)
Theorem codec_loses_the_timestamp_column (L : PyLib) :
  let stamp := 1612137600000000000%Z in
  let text_type := convert_dtype L [SStr "s1"] in
  let size_type := convert_dtype L [json_float L 4609434218613702656%Z] in
  let stamp_type := convert_dtype L [SStr (iso_format L stamp)] in
  let back :=
    mkDF (convert_axis L [SInt 0])
         [ mkSeries "sampleID" text_type
             [value_of_scalar text_type (convert_cell L text_type (SStr "s1"))];
           mkSeries "sizeL" size_type
             [value_of_scalar size_type
                (convert_cell L size_type (json_float L 4609434218613702656%Z))];
           mkSeries "dateTimeStart" stamp_type
             [value_of_scalar stamp_type
                (convert_cell L stamp_type (SStr (iso_format L stamp)))] ] in
  cell codec_sample "dateTimeStart" 0 = Some (VTime stamp)
  /\ date_like_label "dateTimeStart" = false
  /\ serialization_deserialization L (object_of_Odm codec_odm)
     = Ok (object_of_Odm (setattr Odm_empty "sample" (Some back)))
  /\ (forall t, cell back "dateTimeStart" 0 <> Some (VTime t))
  /\ serialization_deserialization L (object_of_Odm codec_odm)
     <> Ok (object_of_Odm codec_odm).
Proof.
  intros stamp text_type size_type stamp_type back.
  assert (Hrun : serialization_deserialization L (object_of_Odm codec_odm)
                 = Ok (object_of_Odm (setattr Odm_empty "sample" (Some back)))).
  { rewrite (codec_on_tables L codec_odm eq_refl). reflexivity. }
  assert (Hno : forall t, cell back "dateTimeStart" 0 <> Some (VTime t)).
  { intros t H. cbn in H. injection H as H.
    exact (value_of_scalar_no_timestamp _ _ _ H). }
  split; [reflexivity|]. split; [reflexivity|]. split; [exact Hrun|].
  split; [exact Hno|].
  rewrite Hrun. intro H.
  apply (f_equal (fun r => match r with
                           | Ok (POdm ((_, PDataFrame df) :: _)) =>
                               cell df "dateTimeStart" 0
                           | _ => None
                           end)) in H.
  exact (Hno stamp H).
Qed.

(** ** Further properties of the container

    [get_attribute_from_name], [add_to_attr], [append_odm] *)

Lemma dict_set_keys {V : Type} (d : dict V) key (v : V) :
  dict_get d key <> None -> map fst (dict_set d key v) = map fst d.
Proof.
  induction d as [|[k x] d IH]; cbn [dict_set dict_get map fst]; [congruence|].
  destruct (String.eqb k key); cbn [map fst]; [reflexivity|].
  intros H. now rewrite IH.
Qed.

Lemma dict_get_keys {V W : Type} (d : dict V) (d' : dict W) key :
  map fst d = map fst d' -> dict_get d key <> None -> dict_get d' key <> None.
Proof.
  revert d'; induction d as [|[k x] d IH]; intros [|[k' x'] d'] Hk;
    cbn [map fst dict_get] in *; try discriminate; [congruence|].
  injection Hk as -> Hk. destruct (String.eqb k' key); [discriminate|].
  now apply IH.
Qed.

Lemma dict_get_In {V : Type} (d : dict V) key :
  In key (map fst d) -> dict_get d key <> None.
Proof.
  induction d as [|[k x] d IH]; cbn [map fst dict_get In]; [tauto|].
  intros [->|H].
  - rewrite String.eqb_refl. discriminate.
  - destruct (String.eqb k key); [discriminate|now apply IH].
Qed.

(** Both names of every entry of [conversion_dict] lead back to the
    attribute of the entry, [CPHD] and [CovidPublicHealthData] to
    [cphd]; a name that is in no entry gives [None]. *)
Theorem get_attribute_from_name_inverts_conversion_dict :
  (forall attribute dico key name,
      In (attribute, dico) conversion_dict ->
      In (key, name) dico ->
      get_attribute_from_name name = Some attribute) /\
  (forall name,
      (forall attribute dico key,
          In (attribute, dico) conversion_dict -> ~ In (key, name) dico) ->
      get_attribute_from_name name = None).
Proof.
  split.
  - intros attribute dico key name Hentry Hname.
    unfold conversion_dict in Hentry. cbn [In] in Hentry.
    repeat (destruct Hentry as [Hentry|Hentry];
            [injection Hentry as <- <-; cbn [In] in Hname;
             repeat (destruct Hname as [Hname|Hname];
                     [injection Hname as <- <-; reflexivity|]);
             destruct Hname|]).
    destruct Hentry.
  - intros name Hnone. unfold get_attribute_from_name.
    match goal with
    | |- context [find ?f ?l] =>
        destruct (find f l) as [[attribute dico]|] eqn:Hfind; [|reflexivity]
    end.
    apply find_some in Hfind as [Hin Hex]. cbn [snd] in Hex.
    apply existsb_exists in Hex as [[key name'] [Hkv Heq]]. cbn [snd] in Heq.
    apply String.eqb_eq in Heq. subst name'.
    destruct (Hnone attribute dico key Hin Hkv).
Qed.

Lemma add_to_attr_returns L self attribute new_df current_value :
  getattr self attribute = Ok current_value ->
  exists self' printed,
    add_to_attr L self attribute new_df = Ok (self', printed) /\
    map fst self' = map fst self /\
    (forall other, other <> attribute -> getattr self' other = getattr self other) /\
    length printed <= 1 /\
    (current_value = None -> getattr self' attribute = Ok new_df).
Proof.
  intros Hcur. unfold add_to_attr. rewrite Hcur. cbn [bind].
  assert (Hkey : dict_get self attribute <> None).
  { unfold getattr in Hcur. destruct (dict_get self attribute); [discriminate|discriminate]. }
  assert (Hset : forall v,
             map fst (setattr self attribute v) = map fst self /\
             (forall other, other <> attribute ->
                            getattr (setattr self attribute v) other = getattr self other)).
  { intros v. split; [now apply dict_set_keys|].
    intros other Hne. unfold getattr, setattr. now rewrite dict_get_set_other. }
  destruct current_value as [current_value|].
  - match goal with |- context [match ?a with Ok _ => _ | Raise _ => _ end] =>
      destruct a as [combined_df|e] end.
    + do 2 eexists. split; [reflexivity|]. destruct (Hset (Some combined_df)).
      repeat split; auto. discriminate.
    + do 2 eexists. split; [reflexivity|]. destruct (Hset (Some current_value)).
      repeat split; auto. discriminate.
  - do 2 eexists. split; [reflexivity|]. destruct (Hset new_df).
    repeat split; auto. intros _. apply getattr_setattr.
Qed.

(** On an attribute the object has, [add_to_attr] returns whatever the
    incoming value is: it keeps the attribute names, touches no other
    attribute, and prints at most one error; an attribute that held
    [None] holds the incoming value. *)
Theorem add_to_attr_never_raises L self attribute new_df current_value :
  getattr self attribute = Ok current_value ->
  exists self' printed,
    add_to_attr L self attribute new_df = Ok (self', printed) /\
    map fst self' = map fst self /\
    (forall other, other <> attribute -> getattr self' other = getattr self other) /\
    length printed <= 1 /\
    (current_value = None -> getattr self' attribute = Ok new_df).
Proof. apply add_to_attr_returns. Qed.

Lemma add_to_attr_never_raises_witness :
  exists self' printed,
    add_to_attr some_lib (setattr Odm_empty "polygon" (Some repeated_ab)) "polygon"
                (Some plain_abc) = Ok (self', printed) /\
    map fst self' = map fst Odm_empty /\
    length printed <= 1.
Proof.
  destruct (add_to_attr_never_raises some_lib
              (setattr Odm_empty "polygon" (Some repeated_ab)) "polygon"
              (Some plain_abc) (Some repeated_ab) eq_refl)
    as (self' & printed & H & Hk & _ & Hp & _).
  exists self', printed. repeat split; assumption.
Defined.

Lemma append_odm_loop L other_odm : forall attributes self printed,
  (forall a, In a attributes -> dict_get self a <> None) ->
  (forall a, In a attributes -> dict_get other_odm a <> None) ->
  exists self' printed',
    foldM (fun acc attribute =>
             do other_value <- getattr other_odm attribute;
             do r <- add_to_attr L (fst acc) attribute other_value;
             Ok (fst r, snd acc ++ snd r))
          attributes (self, printed) = Ok (self', printed') /\
    map fst self' = map fst self.
Proof.
  induction attributes as [|a attributes IH]; intros self printed Hself Hother.
  - do 2 eexists. split; reflexivity.
  - cbn [foldM fst snd].
    destruct (dict_get other_odm a) as [other_value|] eqn:Ho;
      [|destruct (Hother a (or_introl eq_refl) Ho)].
    unfold getattr at 1. rewrite Ho. cbn [bind].
    destruct (dict_get self a) as [cur|] eqn:Hs;
      [|destruct (Hself a (or_introl eq_refl) Hs)].
    destruct (add_to_attr_returns L self a other_value cur)
      as (self1 & p1 & H1 & Hk1 & _).
    { unfold getattr. now rewrite Hs. }
    rewrite H1. cbn [bind fst snd].
    destruct (IH self1 (printed ++ p1)) as (self' & printed' & H & Hk).
    + intros b Hb. apply (dict_get_keys self); [now symmetry|].
      apply Hself. now right.
    + intros b Hb. apply Hother. now right.
    + exists self', printed'. split; [exact H|congruence].
Qed.

(** [append_odm] returns whenever the other object has the attributes
    of this one, and keeps the attribute names: the errors of the
    merges are printed, not raised. *)
Theorem append_odm_never_raises L self other_odm :
  (forall a, In a (map fst self) -> In a (map fst other_odm)) ->
  exists self' printed,
    append_odm L self other_odm = Ok (self', printed) /\
    map fst self' = map fst self.
Proof.
  intros Hsub. unfold append_odm.
  apply append_odm_loop.
  - intros a Ha. now apply dict_get_In.
  - intros a Ha. now apply dict_get_In, Hsub.
Qed.

Lemma append_odm_never_raises_witness :
  exists self' printed,
    append_odm some_lib example_odm codec_odm = Ok (self', printed) /\
    map fst self' = map fst example_odm.
Proof.
  apply (append_odm_never_raises some_lib example_odm codec_odm).
  intros a Ha. exact Ha.
Defined.

(** Appended to an object that holds nothing, an object made by
    [Odm.__init__] is copied: every attribute gets the other's value,
    and nothing is printed. *)
Theorem append_odm_to_empty L other_odm :
  map fst other_odm = map fst Odm_empty ->
  append_odm L Odm_empty other_odm = Ok (other_odm, []).
Proof.
  intros Hk. cbn in Hk.
  repeat (destruct other_odm as [|[? ?] other_odm]; [discriminate Hk|]).
  destruct other_odm; [|discriminate Hk].
  cbn [map fst] in Hk. injection Hk as -> -> -> -> -> -> -> -> -> ->.
  reflexivity.
Qed.

Lemma append_odm_to_empty_witness :
  append_odm some_lib Odm_empty example_odm = Ok (example_odm, []).
Proof. apply (append_odm_to_empty some_lib example_odm). reflexivity. Defined.

(** ** [__remove_access] and [__widen] on any table *)

Lemma find_all_false {A : Type} (P : A -> bool) l :
  (forall x, In x l -> P x = false) -> find P l = None.
Proof.
  induction l as [|x l IH]; intros H; [reflexivity|]. cbn [find].
  rewrite (H x (or_introl eq_refl)). apply IH. intros; apply H; now right.
Qed.

Lemma existsb_filter_own (P : string -> bool) names n :
  In n names -> existsb (String.eqb n) (filter P names) = P n.
Proof.
  intros Hn. destruct (P n) eqn:HP.
  - apply existsb_exists. exists n. split; [|apply String.eqb_refl].
    apply filter_In. now split.
  - apply not_true_iff_false. intros H.
    apply existsb_exists in H as (x & Hx & E). apply String.eqb_eq in E. subst x.
    apply filter_In in Hx as [_ Hx]. congruence.
Qed.

(** Dropping columns chosen among the table's own never raises. *)
Lemma drop_own_columns df (P : string -> bool) :
  drop_columns df (filter P (col_names df)) =
  Ok (mkDF (index df) (filter (fun c => negb (P (sname c))) (columns df))).
Proof.
  unfold drop_columns. rewrite find_all_false.
  - do 2 f_equal. apply filter_ext_in. intros c Hc. f_equal.
    apply existsb_filter_own. unfold col_names. now apply in_map.
  - intros l Hl. apply filter_In in Hl as [Hl _]. apply negb_false_iff.
    unfold has_column. apply existsb_exists. exists l.
    split; [exact Hl|apply String.eqb_refl].
Qed.

Lemma filter_filter_same {A : Type} (P : A -> bool) l :
  filter P (filter P l) = filter P l.
Proof.
  apply filter_all_true. intros x Hx. now apply filter_In in Hx.
Qed.

(** [__remove_access] returns on every table: the rows and the other
    columns stay as they are, in their order, no column whose name
    holds [access] in any case is left, and a second pass changes
    nothing. *)
Theorem remove_access_keeps_the_rest df :
  exists out,
    remove_access df = Ok out /\
    index out = index df /\
    columns out =
      filter (fun c => negb (Str.contains "access" (Str.lower (sname c)))) (columns df) /\
    (forall c, In c (columns out) ->
               Str.contains "access" (Str.lower (sname c)) = false) /\
    remove_access out = Ok out.
Proof.
  unfold remove_access at 1.
  rewrite (drop_own_columns df (fun col => Str.contains "access" (Str.lower col))).
  eexists. split; [reflexivity|]. cbn [index columns].
  split; [reflexivity|]. split; [reflexivity|]. split.
  - intros c Hc. apply filter_In in Hc as [_ Hc]. now apply negb_true_iff.
  - unfold remove_access.
    rewrite (drop_own_columns _ (fun col => Str.contains "access" (Str.lower col))).
    cbn [index columns]. now rewrite filter_filter_same.
Qed.

Lemma foldM_app {A S : Type} (f : S -> A -> result S) l1 l2 s :
  foldM f (l1 ++ l2) s = do s' <- foldM f l1 s; foldM f l2 s'.
Proof.
  revert s. induction l1 as [|a l1 IH]; intros s; [reflexivity|].
  cbn [app foldM]. destruct (f s a); cbn [bind]; [apply IH|reflexivity].
Qed.

Lemma new_column_names L df name dt df' :
  new_column L df name dt = Ok df' ->
  has_column df name = false ->
  index df' = index df /\ col_names df' = col_names df ++ [name].
Proof.
  unfold new_column. destruct (mapM _ _) as [vs|e]; cbn [bind]; [|discriminate].
  intros [= <-] Hnew. unfold set_column. cbn [index]. split; [reflexivity|].
  unfold col_names. cbn [columns].
  rewrite replace_column_new by exact Hnew. now rewrite map_app.
Qed.

Lemma widen_step_inv L f qs df i r df' :
  widen_step L f qs df (i, r) = Ok df' ->
  exists name v,
    feature_name_of L f qs r = Ok name /\
    row_getitem r f = Ok v /\
    index df' = index df /\
    col_names df' = add_name (col_names df) name.
Proof.
  unfold widen_step.
  destruct (feature_name_of L f qs r) as [name|e]; cbn [bind]; [|discriminate].
  destruct (row_getitem r f) as [v|e]; cbn [bind]; [|discriminate].
  destruct (df_getitem df f) as [c|e]; cbn [bind]; [|discriminate].
  assert (Hadd : add_name (col_names df) name =
                 if has_column df name then col_names df else col_names df ++ [name])
    by reflexivity.
  destruct (has_column df name) eqn:Hhas; cbn [negb bind].
  - intros [= <-]. exists name, v. rewrite Hadd. repeat split. apply col_names_loc_set.
  - destruct (new_column L df name (sdtype c)) as [df1|e] eqn:Hnew; cbn [bind];
      [|discriminate].
    intros [= <-]. exists name, v. rewrite Hadd.
    destruct (new_column_names L df name (sdtype c) df1 Hnew Hhas) as [Hi Hc].
    repeat split; [exact Hi|]. now rewrite col_names_loc_set.
Qed.

(** What a row has to offer for [feature]: the cells of the
    qualifiers and of the feature. *)
Lemma widen_rows_inv L f qs : forall rows df df',
  foldM (widen_step L f qs) rows df = Ok df' ->
  index df' = index df /\
  (exists generated, col_names df' = col_names df ++ generated) /\
  Forall (fun ir : value * row =>
            (exists name, feature_name_of L f qs (snd ir) = Ok name) /\
            (exists v, row_getitem (snd ir) f = Ok v)) rows.
Proof.
  induction rows as [|[i r] rows IH]; intros df df'; cbn [foldM].
  - intros [= <-]. split; [reflexivity|]. split; [|constructor].
    exists []. now rewrite app_nil_r.
  - destruct (widen_step L f qs df (i, r)) as [df1|e] eqn:Hstep; cbn [bind];
      [|discriminate].
    intros Hrest.
    destruct (widen_step_inv _ _ _ _ _ _ _ Hstep) as (name & v & Hn & Hv & Hi & Hc).
    destruct (IH _ _ Hrest) as (Hi' & [gen Hgen] & HF).
    split; [congruence|]. split.
    + rewrite Hgen, Hc. unfold add_name. destruct (mem name (col_names df)).
      * now exists gen.
      * exists (name :: gen). now rewrite <- app_assoc.
    + constructor; [|exact HF]. cbn [snd]. split; eauto.
Qed.

Lemma widen_features_inv L qs rows : forall features df df',
  foldM (fun df feature => foldM (widen_step L feature qs) rows df) features df = Ok df' ->
  index df' = index df /\
  (exists generated, col_names df' = col_names df ++ generated) /\
  ((rows = [] \/ features = []) -> df' = df) /\
  Forall (fun f =>
            Forall (fun ir : value * row =>
                      (exists name, feature_name_of L f qs (snd ir) = Ok name) /\
                      (exists v, row_getitem (snd ir) f = Ok v)) rows) features.
Proof.
  induction features as [|f features IH]; intros df df'; cbn [foldM].
  - intros [= <-]. split; [reflexivity|]. split; [|split; [reflexivity|constructor]].
    exists []. now rewrite app_nil_r.
  - destruct (foldM (widen_step L f qs) rows df) as [df1|e] eqn:Hrows; cbn [bind];
      [|discriminate].
    intros Hrest.
    destruct (widen_rows_inv _ _ _ _ _ _ Hrows) as (Hi & [g1 Hg1] & HF).
    destruct (IH _ _ Hrest) as (Hi' & [g2 Hg2] & Hsame & HFs).
    split; [congruence|]. split; [|split].
    + exists (g1 ++ g2). now rewrite Hg2, Hg1, app_assoc.
    + intros [Hr|Hf]; [|discriminate Hf].
      subst rows. cbn [foldM] in Hrows. injection Hrows as <-.
      apply Hsame. now left.
    + constructor; assumption.
Qed.

Lemma feature_name_reads_qualifiers L f qs r name :
  feature_name_of L f qs r = Ok name ->
  forall q, In q qs -> dict_get r q <> None.
Proof.
  unfold feature_name_of.
  destruct (mapM _ qs) as [texts|e] eqn:Hm; cbn [bind]; [|discriminate].
  intros _ q Hq. apply mapM_Forall2 in Hm.
  induction Hm as [|q0 t qs0 ts Hq0 Hm IH]; [destruct Hq|].
  destruct Hq as [->|Hq]; [|now apply IH].
  unfold row_getitem, dict_getitem in Hq0.
  destruct (dict_get r q); [discriminate|discriminate].
Qed.

Lemma read_from_row_has_column L df p n :
  dict_get (get_row L df p) n <> None -> has_column df n = true.
Proof.
  rewrite dict_get_get_row. intros H. unfold has_column, col_names.
  apply find_column_has. destruct (find_column (columns df) n); [discriminate|].
  now destruct H.
Qed.

Lemma iterrows_rows L df ir : In ir (iterrows L df) -> exists p, snd ir = get_row L df p.
Proof.
  intros Hin. apply In_nth_error in Hin as [p Hp]. destruct ir as [i r].
  apply nth_error_iterrows in Hp as [_ ->]. now exists p.
Qed.

Lemma mem_filter_out (P : string -> bool) names n :
  P n = false -> mem n (filter P names) = false.
Proof.
  intros HP. apply not_true_iff_false. intros H. apply mem_In in H.
  apply filter_In in H as [_ H]. congruence.
Qed.

Lemma widen_returns L df features qualifiers out :
  widen L df features qualifiers = Ok out ->
  index out = index df /\
  (forall n, In n (features ++ qualifiers) ->
             has_column df n = true /\ has_column out n = false) /\
  exists generated,
    col_names out =
      filter (fun n => negb (mem n (features ++ qualifiers))) (col_names df)
      ++ generated.
Proof.
  unfold widen.
  destruct (foldM _ features df) as [df1|e] eqn:Hloop; cbn [bind]; [|discriminate].
  destruct (widen_features_inv _ _ _ _ _ _ Hloop) as (Hi & [gen Hgen] & Hsame & HF).
  unfold drop_columns.
  destruct (find _ (features ++ qualifiers)) as [l|] eqn:Hfind; [discriminate|].
  intros [= <-]. cbn [index]. split; [exact Hi|]. split.
  - intros n Hn. split.
    + pose proof (find_none _ _ Hfind n Hn) as Hn1. apply negb_false_iff in Hn1.
      destruct (iterrows L df) as [|ir rows] eqn:Hrows;
        [rewrite Hsame in Hn1 by (now left); exact Hn1|].
      destruct features as [|f features];
        [rewrite Hsame in Hn1 by (now right); exact Hn1|].
      assert (Hir : In ir (iterrows L df)) by (rewrite Hrows; now left).
      destruct (iterrows_rows L df ir Hir) as [p Hp].
      apply in_app_or in Hn as [Hn|Hn].
      * rewrite Forall_forall in HF. specialize (HF n Hn).
        inversion HF as [|? ? [_ [v Hv]] _]; subst.
        rewrite Hp in Hv. apply (read_from_row_has_column L df p).
        unfold row_getitem, dict_getitem in Hv.
        destruct (dict_get (get_row L df p) n); [discriminate|discriminate].
      * inversion HF as [|? ? Hf0 _]; subst.
        inversion Hf0 as [|? ? [[name Hname] _] _]; subst.
        rewrite Hp in Hname. apply (read_from_row_has_column L df p).
        now apply (feature_name_reads_qualifiers L f qualifiers _ name).
    + unfold has_column, col_names. cbn [columns].
      rewrite (col_names_filter
                 (fun n0 => negb (existsb (String.eqb n0) (features ++ qualifiers)))).
      apply (mem_filter_out
               (fun n0 => negb (existsb (String.eqb n0) (features ++ qualifiers)))).
      apply negb_false_iff. now apply mem_In.
  - exists (filter (fun n => negb (mem n (features ++ qualifiers))) gen).
    unfold col_names at 1. cbn [columns].
    rewrite (col_names_filter
               (fun n0 => negb (existsb (String.eqb n0) (features ++ qualifiers)))).
    change (map sname (columns df1)) with (col_names df1).
    rewrite Hgen, filter_app. reflexivity.
Qed.

(** Whenever [__widen] returns, the table had every feature and every
    qualifier column, and the result has none of them; it has the rows
    of the table (the same index), and the columns that were not listed
    come first, in their order, before the generated ones. *)
Theorem widen_drops_listed_keeps_rest L df features qualifiers out :
  widen L df features qualifiers = Ok out ->
  index out = index df /\
  (forall n, In n (features ++ qualifiers) ->
             has_column df n = true /\ has_column out n = false) /\
  exists generated,
    col_names out =
      filter (fun n => negb (mem n (features ++ qualifiers))) (col_names df)
      ++ generated.
Proof. apply widen_returns. Qed.

Lemma widen_drops_listed_keeps_rest_witness :
  exists out,
    widen some_lib two_measures ["value"] ["type"; "unit"] = Ok out /\
    index out = index two_measures /\
    has_column out "value" = false.
Proof.
  destruct (widen some_lib two_measures ["value"] ["type"; "unit"]) as [out|e] eqn:E;
    [|vm_compute in E; discriminate E].
  exists out. split; [reflexivity|].
  destruct (widen_drops_listed_keeps_rest some_lib two_measures
              ["value"] ["type"; "unit"] out E) as (Hi & Hl & _).
  split; [exact Hi|]. apply (Hl "value"). now left.
Defined.

(** On a table with no row [__widen] generates nothing: it drops the
    listed columns, and raises [KeyError] when one of them is not
    there. *)
Theorem widen_no_rows L df features qualifiers :
  index df = [] ->
  widen L df features qualifiers = drop_columns df (features ++ qualifiers).
Proof.
  intros Hidx. unfold widen.
  assert (Hrows : iterrows L df = []) by (unfold iterrows; now rewrite Hidx).
  rewrite Hrows.
  assert (Hloop : forall fs, foldM (fun (d : DataFrame) (feature : string) =>
                                      foldM (widen_step L feature qualifiers) [] d)
                                   fs df = Ok df).
  { induction fs as [|f fs IH]; [reflexivity|]. cbn [foldM bind]. exact IH. }
  now rewrite Hloop.
Qed.

Lemma widen_no_rows_witness :
  widen some_lib no_measures ["value"] ["type"; "unit"]
  = Ok (mkDF [] [mkSeries "sampleID" DString []]) /\
  widen some_lib no_measures ["value"] ["type"; "aggregation"]
  = Raise (KeyError "aggregation").
Proof.
  split.
  - rewrite (widen_no_rows some_lib no_measures ["value"] ["type"; "unit"] eq_refl).
    reflexivity.
  - rewrite (widen_no_rows some_lib no_measures ["value"] ["type"; "aggregation"] eq_refl).
    reflexivity.
Defined.

(** ** Missing tables and repeated calls *)

Lemma table_of_None self attribute :
  getattr self attribute = Ok None ->
  table_of self attribute = Raise (AttributeError "NoneType").
Proof. intros H. unfold table_of. now rewrite H. Qed.

Lemma iterrows_cons L df i labels :
  index df = i :: labels ->
  exists rows, iterrows L df = (i, get_row L df 0) :: rows.
Proof.
  intros H. unfold iterrows, nrows. rewrite H. cbn [length seq map combine].
  eexists. reflexivity.
Qed.

(** [get_geoJSON] at the edges: without a Polygon table it raises
    [AttributeError]; a table with no row gives no Feature, whatever its
    columns; a table with rows and no [wkt] column raises
    [KeyError]. *)
Theorem get_geoJSON_edge_cases L self :
  (getattr self "polygon" = Ok None ->
   get_geoJSON L self = Raise (AttributeError "NoneType")) /\
  (forall polygon_df,
      table_of self "polygon" = Ok polygon_df ->
      index polygon_df = [] ->
      get_geoJSON L self = Ok (mkFeatureCollection "FeatureCollection" [])) /\
  (forall polygon_df,
      table_of self "polygon" = Ok polygon_df ->
      index polygon_df <> [] ->
      has_column polygon_df "wkt" = false ->
      get_geoJSON L self = Raise (KeyError "wkt")).
Proof.
  split; [|split].
  - intros H. unfold get_geoJSON. now rewrite (table_of_None _ _ H).
  - intros df Ht Hi. unfold get_geoJSON. rewrite Ht. cbn [bind].
    unfold iterrows. now rewrite Hi.
  - intros df Ht Hi Hw. unfold get_geoJSON. rewrite Ht. cbn [bind].
    destruct (index df) as [|i labels] eqn:Hidx; [congruence|].
    destruct (iterrows_cons L df i labels Hidx) as [rows ->].
    cbn [mapM]. unfold row_getitem, dict_getitem at 1.
    rewrite dict_get_get_row.
    destruct (find_column (columns df) "wkt") as [c|] eqn:Hc; [|reflexivity].
    assert (E : has_column df "wkt" = true).
    { unfold has_column, col_names. apply find_column_has. congruence. }
    congruence.
Qed.

Lemma getattr_setattr_other self attribute v other :
  other <> attribute -> getattr (setattr self attribute v) other = getattr self other.
Proof. intros H. unfold getattr, setattr. now rewrite dict_get_set_other. Qed.

Lemma table_of_setattr_other self attribute v other :
  other <> attribute -> table_of (setattr self attribute v) other = table_of self other.
Proof. intros H. unfold table_of. now rewrite getattr_setattr_other. Qed.

(** The object [__parse_sample] leaves differs from the one it was
    called on in the Sample table at most. *)
Lemma parse_sample_object L self out self' :
  parse_sample L self = Ok (out, self') ->
  exists t, self' = setattr self "sample" (Some t).
Proof.
  unfold parse_sample.
  destruct (table_of self "sample") as [df|e]; cbn [bind]; [|discriminate].
  destruct (foldM (explode_step L) (iterrows L df) _) as [st|e]; cbn [bind]; [|discriminate].
  destruct (fill_from (current st) _ _) as [d1|e]; cbn [bind]; [|discriminate].
  destruct (fill_from _ _ _) as [d2|e]; cbn [bind]; [|discriminate].
  destruct (drop_columns _ _) as [d3|e]; cbn [bind]; [|discriminate].
  intros [= _ <-]. eexists. reflexivity.
Qed.

Lemma bind_ext {A B : Type} (m : result A) (f g : A -> result B) :
  (forall a, f a = g a) -> bind m f = bind m g.
Proof. intros H. destruct m; cbn [bind]; [apply H|reflexivity]. Qed.

Lemma combine_per_sample_steps L self :
  combine_per_sample L self = combine_steps L self.
Proof.
  unfold combine_per_sample, combine_steps.
  apply bind_ext; intros ww. apply bind_ext; intros ww'.
  apply bind_ext; intros [sample self1]. cbn [fst snd].
  apply bind_ext; intros m1. apply bind_ext; intros sm.
  apply bind_ext; intros m2. apply bind_ext; intros site.
  apply bind_ext; intros m3. apply bind_ext; intros cphd.
  reflexivity.
Qed.

Lemma combine_per_sample_needs_tables L self attribute :
  In attribute ["ww_measure"; "sample"; "site_measure"; "site"; "cphd"] ->
  getattr self attribute = Ok None ->
  exists e, combine_per_sample L self = Raise e.
Proof.
  intros Hin Hnone. rewrite combine_per_sample_steps. unfold combine_steps.
  destruct (parse_ww_measure L self) as [ww|e] eqn:H1; cbn [bind]; [|eauto].
  destruct (agg_ww_measure_per_sample L ww) as [ww'|e]; cbn [bind]; [|eauto].
  destruct (parse_sample L self) as [[sample self1]|e] eqn:H2; cbn [bind fst snd];
    [|eauto].
  destruct (parse_sample_object _ _ _ _ H2) as [t ->].
  destruct (combine_ww_measure_and_sample L ww' sample) as [m1|e]; cbn [bind]; [|eauto].
  destruct (parse_site_measure L (setattr self "sample" (Some t))) as [sm|e] eqn:H3;
    cbn [bind]; [|eauto].
  destruct (combine_sample_site_measure L m1 sm) as [m2|e]; cbn [bind]; [|eauto].
  destruct (parse_site (setattr self "sample" (Some t))) as [site|e] eqn:H4;
    cbn [bind]; [|eauto].
  destruct (combine_site_sample L m2 site) as [m3|e]; cbn [bind]; [|eauto].
  destruct (parse_cphd L (setattr self "sample" (Some t))) as [cphd|e] eqn:H5;
    cbn [bind]; [|eauto].
  exfalso. cbn [In] in Hin.
  destruct Hin as [<-|[<-|[<-|[<-|[<-|[]]]]]].
  - unfold parse_ww_measure in H1. rewrite (table_of_None _ _ Hnone) in H1. discriminate.
  - unfold parse_sample in H2. rewrite (table_of_None _ _ Hnone) in H2. discriminate.
  - unfold parse_site_measure in H3.
    rewrite table_of_setattr_other, (table_of_None _ _ Hnone) in H3 by discriminate.
    discriminate.
  - unfold parse_site in H4.
    rewrite table_of_setattr_other, (table_of_None _ _ Hnone) in H4 by discriminate.
    discriminate.
  - unfold parse_cphd in H5.
    rewrite table_of_setattr_other, (table_of_None _ _ Hnone) in H5 by discriminate.
    discriminate.
Qed.

(** [combine_per_sample] raises when one of the five tables it reads is
    [None]: WWMeasure, Sample, SiteMeasure, Site or
    CovidPublicHealthData. *)
Theorem combine_per_sample_needs_its_tables L self attribute :
  In attribute ["ww_measure"; "sample"; "site_measure"; "site"; "cphd"] ->
  getattr self attribute = Ok None ->
  exists e, combine_per_sample L self = Raise e.
Proof. apply combine_per_sample_needs_tables. Qed.

Lemma combine_per_sample_needs_its_tables_witness :
  exists e, combine_per_sample some_lib (setattr example_odm "site" None) = Raise e.
Proof.
  apply (combine_per_sample_needs_its_tables some_lib
           (setattr example_odm "site" None) "site").
  - cbn [In]. tauto.
  - reflexivity.
Defined.

Lemma fill_from_find df target source df' :
  fill_from df target source = Ok df' ->
  index df' = index df /\
  find_column (columns df') target <> None /\
  forall name, name <> target ->
               find_column (columns df') name = find_column (columns df) name.
Proof.
  unfold fill_from, df_getitem.
  destruct (find_column (columns df) target) as [t|] eqn:Ht; cbn [bind]; [|discriminate].
  destruct (find_column (columns df) source) as [s|] eqn:Hs; cbn [bind]; [|discriminate].
  intros [= <-]. unfold set_column. cbn [index columns].
  assert (Hmem : mem target (map sname (columns df)) = true).
  { apply find_column_mem. congruence. }
  rewrite replace_column_old by exact Hmem. cbn [sname].
  split; [reflexivity|]. split.
  - rewrite (find_column_replace _ _ target target) by reflexivity.
    rewrite String.eqb_refl, Ht. discriminate.
  - intros name Hne. rewrite (find_column_replace _ _ target name) by reflexivity.
    destruct (String.eqb_spec target name); [congruence|reflexivity].
Qed.

Lemma find_column_filter_out (P : string -> bool) cols name :
  P name = false -> find_column (filter (fun c => P (sname c)) cols) name = None.
Proof.
  intros HP. induction cols as [|c cols IH]; [reflexivity|]. cbn [filter].
  destruct (P (sname c)) eqn:Hc; [|exact IH]. cbn [find_column].
  destruct (String.eqb_spec (sname c) name) as [E|E]; [congruence|exact IH].
Qed.

Lemma drop_dateTime_find df df' :
  drop_columns df ["dateTime"] = Ok df' ->
  index df' = index df /\
  find_column (columns df') "dateTime" = None /\
  forall name, name <> "dateTime" ->
               find_column (columns df') name = find_column (columns df) name.
Proof.
  unfold drop_columns. destruct (find _ _); [discriminate|].
  intros [= <-]. cbn [index columns]. split; [reflexivity|]. split.
  - apply (find_column_filter_out (fun n => negb (existsb (String.eqb n) ["dateTime"]))).
    reflexivity.
  - intros name Hne.
    apply (find_column_filter (fun n => negb (existsb (String.eqb n) ["dateTime"]))).
    cbn [existsb]. destruct (String.eqb_spec name "dateTime"); [congruence|reflexivity].
Qed.

(** A string comes in a row as the column holds it. *)
Lemma row_cell_str L df v s : row_cell L df v = VStr s <-> v = VStr s.
Proof.
  unfold row_cell, int_as_float. destruct (rows_are_float df); [|reflexivity].
  destruct v; split; intros H; try discriminate H; exact H.
Qed.

Lemma iterrows_same_column L df df' name :
  index df' = index df ->
  find_column (columns df') name = find_column (columns df) name ->
  forall i r, In (i, r) (iterrows L df') ->
              exists r0, In (i, r0) (iterrows L df) /\
                         forall s, dict_get r0 name = Some (VStr s) ->
                                   dict_get r name = Some (VStr s).
Proof.
  intros Hi Hc i r Hin. apply In_nth_error in Hin as [p Hp].
  apply nth_error_iterrows in Hp as [Hp ->]. rewrite Hi in Hp.
  exists (get_row L df p). split.
  - apply (nth_error_In _ p). now apply nth_error_iterrows.
  - intros s. rewrite !dict_get_get_row, Hc.
    destruct (find_column (columns df) name) as [c|]; [|discriminate].
    cbn [option_map]. intros [= H]. f_equal.
    apply row_cell_str. now apply row_cell_str in H.
Qed.

(** With no list of sites in the table, [__parse_sample] writes to the
    table the object holds: afterwards the object's Sample table has
    no [dateTime] column, and a second call raises. *)
Lemma parse_sample_twice L self df out self' :
  table_of self "sample" = Ok df ->
  (forall i r, In (i, r) (iterrows L df) ->
     exists s, row_getitem r "siteID" = Ok (VStr s) /\ Str.contains ";" s = false) ->
  parse_sample L self = Ok (out, self') ->
  (exists t, self' = setattr self "sample" (Some t) /\ has_column t "dateTime" = false) /\
  parse_sample L self' = Raise (KeyError "dateTime").
Proof.
  intros Htab Hrows. unfold parse_sample at 1. rewrite Htab. cbn [bind].
  rewrite (explode_loop_no_lists L (iterrows L df) Hrows).
  cbn [bind current rebound stored write].
  destruct (fill_from df _ _) as [d1|e] eqn:H1; cbn [bind]; [|discriminate].
  destruct (fill_from d1 _ _) as [d2|e] eqn:H2; cbn [bind]; [|discriminate].
  destruct (drop_columns d2 _) as [d3|e] eqn:H3; cbn [bind]; [|discriminate].
  intros [= <- <-].
  destruct (fill_from_find _ _ _ _ H1) as (I1 & T1 & O1).
  destruct (fill_from_find _ _ _ _ H2) as (I2 & T2 & O2).
  destruct (drop_dateTime_find _ _ H3) as (I3 & N3 & O3).
  split.
  - exists d3. split; [reflexivity|].
    apply not_true_iff_false. intros Hhas. unfold has_column, col_names in Hhas.
    apply find_column_has in Hhas. congruence.
  - unfold parse_sample. unfold table_of. rewrite getattr_setattr. cbn [bind].
    rewrite (explode_loop_no_lists L (iterrows L d3)).
    + cbn [bind current rebound stored].
      unfold fill_from, df_getitem.
      rewrite (O3 "dateTimeStart") by discriminate.
      rewrite (O2 "dateTimeStart") by discriminate.
      destruct (find_column (columns d1) "dateTimeStart"); [|congruence].
      cbn [bind]. now rewrite N3.
    + intros i r Hin.
      destruct (iterrows_same_column L df d3 "siteID") with (i := i) (r := r)
        as (r0 & Hin0 & E); [congruence| |exact Hin|].
      * rewrite (O3 "siteID"), (O2 "siteID"), (O1 "siteID") by discriminate.
        reflexivity.
      * destruct (Hrows i r0 Hin0) as (s & Hs & Hc). exists s. split; [|exact Hc].
        unfold row_getitem, dict_getitem in *.
        destruct (dict_get r0 "siteID") as [v0|]; [|discriminate Hs].
        injection Hs as ->. now rewrite (E s eq_refl).
Qed.

Lemma parse_ww_measure_other_table L self v :
  parse_ww_measure L (setattr self "sample" v) = parse_ww_measure L self.
Proof.
  unfold parse_ww_measure. now rewrite table_of_setattr_other by discriminate.
Qed.

(** [combine_per_sample] cannot be called twice on an object whose
    Sample table holds no list of sites: the first call takes the
    [dateTime] column out of the table the object holds, and the second
    raises [KeyError] when it looks for it. *)
Theorem combine_per_sample_is_not_repeatable L self df out self' :
  table_of self "sample" = Ok df ->
  (forall i r, In (i, r) (iterrows L df) ->
     exists s, row_getitem r "siteID" = Ok (VStr s) /\ Str.contains ";" s = false) ->
  combine_per_sample L self = Ok (out, self') ->
  (exists t, getattr self' "sample" = Ok (Some t) /\ has_column t "dateTime" = false) /\
  combine_per_sample L self' = Raise (KeyError "dateTime").
Proof.
  intros Htab Hrows. rewrite !combine_per_sample_steps. unfold combine_steps at 1.
  destruct (parse_ww_measure L self) as [ww|e] eqn:H1; cbn [bind]; [|discriminate].
  destruct (agg_ww_measure_per_sample L ww) as [ww'|e] eqn:Hagg; cbn [bind];
    [|discriminate].
  destruct (parse_sample L self) as [[sample self1]|e] eqn:H2; cbn [bind fst snd];
    [|discriminate].
  destruct (combine_ww_measure_and_sample L ww' sample) as [m1|e]; cbn [bind];
    [|discriminate].
  destruct (parse_site_measure L self1) as [sm|e]; cbn [bind]; [|discriminate].
  destruct (combine_sample_site_measure L m1 sm) as [m2|e]; cbn [bind]; [|discriminate].
  destruct (parse_site self1) as [site|e]; cbn [bind]; [|discriminate].
  destruct (combine_site_sample L m2 site) as [m3|e]; cbn [bind]; [|discriminate].
  destruct (parse_cphd L self1) as [cphd|e]; cbn [bind]; [|discriminate].
  destruct (set_index m3 "Sample.sampleID") as [m4|e]; cbn [bind]; [|discriminate].
  intros [= _ <-].
  destruct (parse_sample_twice L self df sample self1 Htab Hrows H2)
    as ((t & -> & Ht) & Hsecond).
  split.
  - exists t. split; [apply getattr_setattr|exact Ht].
  - unfold combine_steps.
    rewrite parse_ww_measure_other_table, H1. cbn [bind]. rewrite Hagg. cbn [bind].
    rewrite Hsecond. reflexivity.
Qed.

Lemma combine_per_sample_example :
  combine_per_sample some_lib example_odm = Ok (example_combined, example_odm_after).
Proof. vm_compute. reflexivity. Qed.

Lemma combine_per_sample_is_not_repeatable_witness :
  combine_per_sample some_lib example_odm_after = Raise (KeyError "dateTime").
Proof.
  apply (combine_per_sample_is_not_repeatable some_lib example_odm example_sample
           example_combined example_odm_after).
  - reflexivity.
  - intros i r [[= <- <-]|[[= <- <-]|[]]]; eexists; split; reflexivity.
  - exact combine_per_sample_example.
Defined.

(** ** [parse_types] and [type_cast_table] on any column *)

Lemma declared_type_unlisted DATA_TYPES table_name name lookup_table :
  dict_get DATA_TYPES table_name = Some lookup_table ->
  dict_get lookup_table (Str.lower name) = None ->
  declared_type DATA_TYPES table_name name = Some "string".
Proof.
  intros Ht Hn. unfold declared_type. rewrite Ht. cbn [option_map].
  unfold dict_get_default, dict in *. now rewrite Hn.
Qed.

(** The two lookups of [parse_types] that can miss: a table the
    registry does not have raises [KeyError]; a column the registry
    does not list for its table is cast as text, which never raises. *)
Theorem parse_types_outside_the_registry L DATA_TYPES table_name :
  (dict_get DATA_TYPES table_name = None ->
   forall series,
     parse_types L DATA_TYPES table_name series = Raise (KeyError table_name)) /\
  (forall lookup_table name dt vs,
      dict_get DATA_TYPES table_name = Some lookup_table ->
      dict_get lookup_table (Str.lower name) = None ->
      parse_types L DATA_TYPES table_name (mkSeries name dt vs) =
      Ok (mkSeries name DString (map (text_cell L name) vs))).
Proof.
  split.
  - intros H series. unfold parse_types, dict_getitem. now rewrite H.
  - intros lookup_table name dt vs Ht Hn.
    rewrite (parse_types_text L DATA_TYPES table_name name dt vs "string");
      [reflexivity| |now left].
    now apply (declared_type_unlisted _ _ _ lookup_table).
Qed.

(** A boolean column never raises and holds booleans only; a cell that
    is a boolean already keeps its value, and the numbers 0 and 1 both
    become [False], as the text of neither begins with [true]. *)
Theorem bool_column_never_raises L DATA_TYPES table_name name dt vs :
  declared_type DATA_TYPES table_name name = Some "bool" ->
  exists out,
    parse_types L DATA_TYPES table_name (mkSeries name dt vs) = Ok out /\
    sdtype out = DBool /\
    length (svalues out) = length vs /\
    Forall (fun v => exists b, v = VBool b) (svalues out) /\
    forall i,
      (forall b, nth_error vs i = Some (VBool b) ->
                 nth_error (svalues out) i = Some (VBool b)) /\
      (nth_error vs i = Some (VInt 0) \/ nth_error vs i = Some (VInt 1) ->
       nth_error (svalues out) i = Some (VBool false)).
Proof.
  intros H. rewrite (parse_types_bool _ _ _ _ _ _ H).
  eexists; split; [reflexivity|]. cbn [svalues sdtype].
  split; [reflexivity|]. split; [apply length_map|]. split.
  - apply Forall_map, Forall_forall. intros v _. unfold bool_cell. eauto.
  - intros i. split.
    + intros b Hb. rewrite nth_error_map, Hb. now destruct b.
    + intros [Hz|Hz]; rewrite nth_error_map, Hz; reflexivity.
Qed.

Lemma bool_column_never_raises_witness :
  exists out,
    parse_types some_lib example_registry "WWMeasure"
                (mkSeries "qualityFlag" DObject
                          [VBool true; VBool false; VInt 1; VStr "Yes"; VStr "no"])
    = Ok out /\
    sdtype out = DBool /\
    length (svalues out) = 5 /\
    nth_error (svalues out) 1 = Some (VBool false) /\
    nth_error (svalues out) 2 = Some (VBool false).
Proof.
  destruct (bool_column_never_raises some_lib example_registry "WWMeasure"
              "qualityFlag" DObject
              [VBool true; VBool false; VInt 1; VStr "Yes"; VStr "no"] eq_refl)
    as (out & H & Hd & Hl & _ & Hcells).
  exists out. split; [exact H|]. split; [exact Hd|]. split; [exact Hl|]. split.
  - apply (proj1 (Hcells 1) false). reflexivity.
  - apply (proj2 (Hcells 2)). right. reflexivity.
Defined.









(** ** More on the envelope codec *)

Lemma dict_get_update {V : Type} (items : dict V) : forall (d : dict V) key,
  NoDup (map fst items) ->
  dict_get (dict_update d items) key =
  match dict_get items key with
  | Some v => Some v
  | None => dict_get d key
  end.
Proof.
  unfold dict_update.
  induction items as [|[k v] items IH]; intros d key Hnd; [reflexivity|].
  cbn [map fst] in Hnd. inversion Hnd as [|? ? Hk Hnd']; subst.
  cbn [fold_left fst snd dict_get]. rewrite IH by exact Hnd'.
  destruct (String.eqb_spec k key) as [->|Hne].
  - assert (E : dict_get items key = None).
    { destruct (dict_get items key) as [w|] eqn:E; [|reflexivity].
      exfalso. apply Hk. clear -E.
      induction items as [|[k0 w0] items IH]; cbn [dict_get] in E; [discriminate|].
      cbn [map fst In]. destruct (String.eqb_spec k0 key); [now left|right; now apply IH]. }
    rewrite E. apply dict_get_set_same.
  - destruct (dict_get items key); [reflexivity|].
    apply dict_get_set_other. congruence.
Qed.

(** [decode_object] on an envelope [{"__Odm__": payload}]: the
    attributes the payload names get its values and the others are
    [None], but for [sample]: the payload is passed to [Odm] as its
    first argument, so without a [sample] entry the attribute holds the
    payload itself. *)
Theorem decode_object_Odm_payload L o payload :
  dict_get o "__Odm__" = Some (PDict payload) ->
  NoDup (map fst payload) ->
  exists attrs,
    decode_object L o = Ok (POdm attrs) /\
    (forall key v, dict_get payload key = Some v -> dict_get attrs key = Some v) /\
    (dict_get payload "sample" = None ->
     dict_get attrs "sample" = Some (PDict payload)) /\
    (forall key, In key (map fst Odm_empty) -> key <> "sample" ->
                 dict_get payload key = None -> dict_get attrs key = Some PNone).
Proof.
  intros Ho Hnd. unfold decode_object. rewrite Ho. cbn [bind].
  eexists. split; [reflexivity|]. split; [|split].
  - intros key v Hv. now rewrite dict_get_update, Hv.
  - intros Hs. rewrite dict_get_update, Hs by exact Hnd. reflexivity.
  - intros key Hin Hne Hk. rewrite dict_get_update, Hk by exact Hnd.
    cbn [Odm_empty Odm_init map fst In] in Hin.
    repeat (destruct Hin as [<-|Hin]; [try congruence; reflexivity|]).
    destruct Hin.
Qed.

Lemma decode_object_Odm_payload_witness :
  exists attrs,
    loads some_lib (JObj [("__Odm__", JObj [("site", JNull)])]) = Ok (POdm attrs) /\
    dict_get attrs "sample" = Some (PDict [("site", PNone)]) /\
    dict_get attrs "site" = Some PNone.
Proof.
  destruct (decode_object_Odm_payload some_lib
              [("__Odm__", PDict [("site", PNone)])] [("site", PNone)] eq_refl)
    as (attrs & H & Hin & Hs & _).
  { constructor; [intros []|constructor]. }
  exists attrs. split; [exact H|]. split.
  - apply Hs. reflexivity.
  - apply Hin. reflexivity.
Defined.

(** ** [load_files_from_folder] *)

Lemma startswith_app p rest : Str.startswith (String.append p rest) p = true.
Proof.
  induction p as [|a p IH]; [now destruct rest|].
  cbn [String.append Str.startswith]. now rewrite Ascii.eqb_refl, IH.
Qed.

Lemma contains_app stem p rest :
  Str.contains p (String.append stem (String.append p rest)) = true.
Proof.
  induction stem as [|a stem IH]; cbn [String.append].
  - destruct (String.append p rest) eqn:E; cbn [Str.contains];
      rewrite <- E, startswith_app; reflexivity.
  - cbn [Str.contains]. rewrite IH. apply orb_true_r.
Qed.

(** [load_files_from_folder] keeps, in the order of the listing, the
    names that hold no dollar sign and hold the extension somewhere:
    a name with the extension in its middle is kept as well as one that
    ends in it. *)
Theorem load_files_from_folder_keeps listdir extension :
  (forall file,
      In file (load_files_from_folder listdir extension) <->
      In file listdir /\ Str.contains "$" file = false /\
      Str.contains extension file = true) /\
  (forall stem rest,
      let file := String.append stem (String.append extension rest) in
      In file listdir -> Str.contains "$" file = false ->
      In file (load_files_from_folder listdir extension)) /\
  (forall file1 file2 before between after,
      listdir = before ++ file1 :: between ++ file2 :: after ->
      In file1 (load_files_from_folder listdir extension) ->
      In file2 (load_files_from_folder listdir extension) ->
      exists before' between' after',
        load_files_from_folder listdir extension =
        before' ++ file1 :: between' ++ file2 :: after').
Proof.
  split; [|split].
  - intros file. unfold load_files_from_folder. rewrite filter_In, andb_true_iff,
      negb_true_iff. tauto.
  - intros stem rest file Hin Hd. unfold load_files_from_folder.
    apply filter_In. split; [exact Hin|]. rewrite Hd. cbn [negb andb].
    apply contains_app.
  - intros file1 file2 before between after -> H1 H2.
    unfold load_files_from_folder in *.
    apply filter_In in H1 as [_ H1], H2 as [_ H2].
    rewrite filter_app. cbn [filter]. rewrite H1, filter_app. cbn [filter].
    rewrite H2. eauto.
Qed.

(** ** Merging the same table again *)










Lemma map_nth_positions {A B : Type} (f : nat -> B) (K : list nat) (d : B) :
  map (fun p => nth p (map f K) d) (seq 0 (length K)) = map f K.
Proof.
  rewrite <- (length_map f K). apply map_nth_seq.
Qed.


Lemma map_fst_combine {A B : Type} : forall (l1 : list A) (l2 : list B),
  length l1 = length l2 -> map fst (combine l1 l2) = l1.
Proof.
  induction l1 as [|a l1 IH]; intros [|b l2] H; cbn in *; try reflexivity;
    try discriminate.
  f_equal. apply IH. congruence.
Qed.



Lemma names_eqb_eq : forall a b, names_eqb a b = true <-> a = b.
Proof.
  unfold names_eqb. induction a as [|x a IH]; intros [|y b]; cbn;
    try (split; [discriminate|congruence]); [tauto|].
  rewrite andb_true_iff, Nat.eqb_eq, andb_true_iff, String.eqb_eq.
  specialize (IH b). rewrite andb_true_iff, Nat.eqb_eq in IH.
  split.
  - intros [Hl [-> Hf]]. f_equal. apply IH. split; [congruence|exact Hf].
  - intros [= -> ->]. split; [reflexivity|]. split; [reflexivity|].
    now apply IH.
Qed.


Lemma dtype_eqb_refl d : dtype_eqb d d = true.
Proof. now destruct d. Qed.















Lemma col_names_stack_cells df other :
  length (columns df) = length (columns other) ->
  col_names (stack_cells df other) = col_names df.
Proof.
  intros Hlen. unfold col_names, stack_cells. cbn [columns]. rewrite map_map. cbn [sname].
  rewrite <- (map_fst_combine (columns df) (columns other) Hlen) at 2.
  now rewrite map_map.
Qed.


















(** ** Column names and text cells *)

Lemma add_prefix_names pre df :
  Forall (fun n => Str.startswith n pre = true) (col_names (add_prefix pre df)).
Proof.
  unfold col_names, add_prefix. cbn [columns]. rewrite map_map. cbn [sname].
  apply Forall_map, Forall_forall. intros c _. apply startswith_app.
Qed.

(** Every column of the table a parser returns carries the prefix of
    its table, so that a column of the combined table names its
    source; for Site and Polygon the table is otherwise the stored one,
    and both raise [AttributeError] on an object without the table. *)
Theorem parsers_prefix_their_columns L self :
  (forall out, parse_ww_measure L self = Ok out ->
               Forall (fun n => Str.startswith n "WWMeasure." = true) (col_names out)) /\
  (forall out, parse_site_measure L self = Ok out ->
               Forall (fun n => Str.startswith n "SiteMeasure." = true) (col_names out)) /\
  (forall out self', parse_sample L self = Ok (out, self') ->
               Forall (fun n => Str.startswith n "Sample." = true) (col_names out)) /\
  (forall out, parse_cphd L self = Ok out ->
               Forall (fun n => Str.startswith n "CPHD." = true) (col_names out)) /\
  (forall df, table_of self "site" = Ok df ->
              parse_site self = Ok (add_prefix "Site." df) /\
              index (add_prefix "Site." df) = index df /\
              Forall (fun n => Str.startswith n "Site." = true)
                     (col_names (add_prefix "Site." df))) /\
  (forall df, table_of self "polygon" = Ok df ->
              parse_polygon self = Ok (add_prefix "Polygon." df) /\
              index (add_prefix "Polygon." df) = index df /\
              Forall (fun n => Str.startswith n "Polygon." = true)
                     (col_names (add_prefix "Polygon." df))) /\
  (getattr self "site" = Ok None ->
   parse_site self = Raise (AttributeError "NoneType")) /\
  (getattr self "polygon" = Ok None ->
   parse_polygon self = Raise (AttributeError "NoneType")).
Proof.
  repeat split.
  - intros out. unfold parse_ww_measure.
    destruct (table_of self "ww_measure"); cbn [bind]; [|discriminate].
    destruct (remove_access _); cbn [bind]; [|discriminate].
    destruct (widen _ _ _ _); cbn [bind]; [|discriminate].
    intros [= <-]. apply add_prefix_names.
  - intros out. unfold parse_site_measure.
    destruct (table_of self "site_measure"); cbn [bind]; [|discriminate].
    destruct (remove_access _); cbn [bind]; [|discriminate].
    destruct (widen _ _ _ _); cbn [bind]; [|discriminate].
    destruct (groupby_reduce _ _ _); cbn [bind]; [|discriminate].
    intros [= <-]. apply add_prefix_names.
  - intros out self' H.
    destruct (parse_sample_steps _ _ _ _ H) as (df & st & d1 & d2 & d3 & _ & _ & _ & _ & _ & ->).
    apply add_prefix_names.
  - intros out. unfold parse_cphd.
    destruct (table_of self "cphd"); cbn [bind]; [|discriminate].
    destruct (remove_access _); cbn [bind]; [|discriminate].
    destruct (widen _ _ _ _); cbn [bind]; [|discriminate].
    destruct (groupby_reduce _ _ _); cbn [bind]; [|discriminate].
    intros [= <-]. apply add_prefix_names.
  - unfold parse_site. now rewrite H.
  - apply add_prefix_names.
  - unfold parse_polygon. now rewrite H.
  - apply add_prefix_names.
  - intros H. unfold parse_site. now rewrite (table_of_None _ _ H).
  - intros H. unfold parse_polygon. now rewrite (table_of_None _ _ H).
Qed.

Lemma lower_char_twice c : Str.lower_char (Str.lower_char c) = Str.lower_char c.
Proof. destruct c as [[] [] [] [] [] [] [] []]; reflexivity. Qed.

Lemma lower_twice s : Str.lower (Str.lower s) = Str.lower s.
Proof.
  induction s as [|c s IH]; [reflexivity|].
  cbn [Str.lower]. now rewrite lower_char_twice, IH.
Qed.

(** A text column (declared [string] or [category]) never raises:
    every cell comes out as a string, in lower case unless the column
    is [wkt], whose cells keep their case. *)
Theorem text_column_never_raises L DATA_TYPES table_name name dt vs ty :
  declared_type DATA_TYPES table_name name = Some ty ->
  ty = "string" \/ ty = "category" ->
  exists out,
    parse_types L DATA_TYPES table_name (mkSeries name dt vs) = Ok out /\
    sname out = name /\
    length (svalues out) = length vs /\
    Forall (fun v => exists s, v = VStr s /\
                               (Str.lower name <> "wkt" -> Str.lower s = s))
           (svalues out) /\
    (Str.lower name = "wkt" ->
     forall i v, nth_error vs i = Some v ->
       nth_error (svalues out) i =
       Some (VStr (Re.sub true unknown_re "" (Str.strip (py_str L v))))).
Proof.
  intros Hty Hcase. rewrite (parse_types_text _ _ _ _ _ _ _ Hty Hcase).
  eexists. split; [reflexivity|]. cbn [sname svalues].
  split; [reflexivity|]. split; [apply length_map|]. split.
  - apply Forall_map, Forall_forall. intros v _. unfold text_cell.
    eexists. split; [reflexivity|]. intros Hne.
    destruct (String.eqb_spec (Str.lower name) "wkt") as [E|_]; [congruence|].
    cbn [negb]. apply lower_twice.
  - intros Hw i v Hv. rewrite nth_error_map, Hv. cbn [option_map].
    unfold text_cell. rewrite Hw. reflexivity.
Qed.

Lemma text_column_never_raises_witness :
  exists out,
    parse_types some_lib example_registry "WWMeasure"
                (mkSeries "Notes" DObject [VStr " Sunny Day "; VStr "N/A"]) = Ok out /\
    sname out = "Notes" /\
    length (svalues out) = 2.
Proof.
  destruct (text_column_never_raises some_lib example_registry "WWMeasure" "Notes"
              DObject [VStr " Sunny Day "; VStr "N/A"] "string" eq_refl
              (or_introl eq_refl))
    as (out & H & Hn & Hl & _).
  exists out. repeat split; assumption.
Defined.

(** ** An integer feature *)

(** [__widen] cannot make a column for an integer feature: as soon as
    a row is written to a column the table does not have yet, the new
    column is created from [None] and cast to the dtype of the
    feature, which [int64] refuses. *)
Theorem widen_int_feature_always_raises L df feature features qualifiers
        i labels c name :
  index df = i :: labels ->
  find_column (columns df) feature = Some c ->
  sdtype c = DInt64 ->
  feature_name_of L feature qualifiers (get_row L df 0) = Ok name ->
  has_column df name = false ->
  widen L df (feature :: features) qualifiers =
  Raise (TypeError "int() argument must be a string or a number").
Proof.
  intros Hidx Hc Hdt Hname Hnew. unfold widen. cbn [foldM].
  destruct (iterrows_cons L df i labels Hidx) as [rows ->].
  cbn [foldM]. unfold widen_step at 1. rewrite Hname. cbn [bind].
  unfold row_getitem, dict_getitem. rewrite dict_get_get_row, Hc.
  cbn [option_map bind]. unfold df_getitem. rewrite Hc. cbn [bind].
  rewrite Hnew. cbn [negb]. unfold new_column, nrows.
  rewrite Hidx, Hdt. reflexivity.
Qed.

Lemma widen_int_feature_always_raises_witness :
  widen some_lib two_counts ["value"] ["type"; "unit"] =
  Raise (TypeError "int() argument must be a string or a number").
Proof.
  apply (widen_int_feature_always_raises some_lib two_counts "value" []
           ["type"; "unit"] (VInt 0) [VInt 1]
           (mkSeries "value" DInt64 [VInt 1; VInt 2]) "covn1.n.value");
    reflexivity.
Defined.

(** ** Looking a polygon up in the export *)

Lemma get_geoJSON_loop L self :
  get_geoJSON L self =
  do polygon_df <- table_of self "polygon";
  do features <- mapM (feature_of_row L polygon_df) (iterrows L polygon_df);
  Ok (mkFeatureCollection "FeatureCollection" features).
Proof. reflexivity. Qed.

Lemma properties_fold_inv (r : row) : forall cols d0 d,
  foldM (fun d col => do v <- row_getitem r col; Ok (dict_set d col v)) cols d0 = Ok d ->
  forall c, dict_get d c =
            if existsb (String.eqb c) cols then dict_get r c else dict_get d0 c.
Proof.
  induction cols as [|col cols IH]; intros d0 d; cbn [foldM].
  - intros [= <-] c. reflexivity.
  - unfold row_getitem, dict_getitem.
    destruct (dict_get r col) as [v|] eqn:Hv; cbn [bind]; [|discriminate].
    intros H c. rewrite (IH _ _ H). cbn [existsb].
    destruct (existsb (String.eqb c) cols) eqn:E.
    + now rewrite orb_true_r.
    + rewrite orb_false_r. destruct (String.eqb_spec c col) as [->|Hne].
      * now rewrite dict_get_set_same.
      * now rewrite dict_get_set_other.
Qed.

(** The properties of a Feature are the cells of its row, for the
    columns of the table whose name does not hold [wkt]. *)
Lemma feature_of_row_properties L df p i f col :
  feature_of_row L df (i, get_row L df p) = Ok f ->
  Str.contains "wkt" col = false ->
  dict_get (f_properties f) col = dict_get (get_row L df p) col.
Proof.
  unfold feature_of_row.
  destruct (row_getitem _ "wkt") as [wkt|e]; cbn [bind]; [|discriminate].
  destruct (convert_wkt_to_geojson L wkt) as [g|]; cbn [bind]; [|discriminate].
  destruct (foldM _ _ _) as [d|e] eqn:Hd; cbn [bind]; [|discriminate].
  intros [= <-] Hc. cbn [f_properties].
  rewrite (properties_fold_inv _ _ _ _ Hd). cbn [dict_get].
  destruct (existsb (String.eqb col) _) eqn:E; [reflexivity|].
  rewrite dict_get_get_row.
  destruct (find_column (columns df) col) eqn:Hf; [|reflexivity].
  exfalso.
  assert (Hin : In col (col_names df)).
  { assert (H : find_column (columns df) col <> None) by congruence.
    apply find_column_has in H. apply existsb_exists in H as (x & Hx & Hxe).
    apply String.eqb_eq in Hxe. now subst. }
  assert (H : existsb (String.eqb col)
                (filter (fun col => negb (Str.contains "wkt" col)) (col_names df)) = true).
  { apply existsb_exists. exists col. split; [|apply String.eqb_refl].
    apply filter_In. split; [exact Hin|now rewrite Hc]. }
  congruence.
Qed.

Lemma first_feature_named_rows L df name : forall rows features,
  (forall ir, In ir rows -> exists p, snd ir = get_row L df p) ->
  (forall ir, In ir rows -> dict_get (snd ir) "name" <> None /\
                            dict_get (snd ir) "name" <> Some VNA /\
                            dict_get (snd ir) "polygonID" <> None) ->
  mapM (feature_of_row L df) rows = Ok features ->
  first_feature_named features name =
  Ok (option_map (fun ir => dict_get_default (snd ir) "polygonID" VNaN)
                 (find (row_named name) rows)).
Proof.
  induction rows as [|[i r] rows IH]; intros features Hrows Hcells; cbn [mapM].
  - intros [= <-]. reflexivity.
  - destruct (feature_of_row L df (i, r)) as [f|e] eqn:Hf; cbn [bind]; [|discriminate].
    destruct (mapM _ rows) as [fs|e] eqn:Hfs; cbn [bind]; [|discriminate].
    intros [= <-].
    destruct (Hrows (i, r) (or_introl eq_refl)) as [p Hp]. cbn [snd] in Hp. subst r.
    destruct (Hcells (i, get_row L df p) (or_introl eq_refl)) as (Hn & Hna & Hid).
    cbn [snd] in Hn, Hna, Hid.
    cbn [first_feature_named find]. unfold dict_getitem, row_named. cbn [snd].
    rewrite (feature_of_row_properties L df p i f "name" Hf eq_refl).
    rewrite (feature_of_row_properties L df p i f "polygonID" Hf eq_refl).
    destruct (dict_get (get_row L df p) "name") as [n|]; [|congruence]. cbn [bind].
    assert (Hrest : first_feature_named fs name =
                    Ok (option_map (fun ir => dict_get_default (snd ir) "polygonID" VNaN)
                                   (find (row_named name) rows))).
    { apply IH; [| |reflexivity].
      - intros ir Hin. apply Hrows. now right.
      - intros ir Hin. apply Hcells. now right. }
    destruct n; cbn [cell_equals_str bind]; try exact Hrest; [congruence|].
    destruct (String.eqb s name); [|exact Hrest].
    unfold dict_get_default. cbn [snd option_map].
    destruct (dict_get (get_row L df p) "polygonID"); [reflexivity|congruence].
Qed.

(** Looked up by name in what [get_geoJSON] returned,
    [get_id_from_name_geojson] gives the [polygonID] of the first row
    of the Polygon table that has the name, and [None] when no row has
    it: provided the table has the columns [name] and [polygonID], no
    column label twice, and no name is [pd.NA]. *)
Theorem get_id_from_name_of_the_export L self polygon_df geo name :
  table_of self "polygon" = Ok polygon_df ->
  get_geoJSON L self = Ok geo ->
  NoDup (col_names polygon_df) ->
  has_column polygon_df "name" = true ->
  has_column polygon_df "polygonID" = true ->
  (forall ir, In ir (iterrows L polygon_df) -> dict_get (snd ir) "name" <> Some VNA) ->
  get_id_from_name_geojson geo name =
  Ok (option_map (fun ir => dict_get_default (snd ir) "polygonID" VNaN)
                 (first_row_named L polygon_df name)).
Proof.
  intros Htab Hgeo _ Hname Hid Hna.
  rewrite get_geoJSON_loop, Htab in Hgeo. cbn [bind] in Hgeo.
  destruct (mapM _ _) as [features|e] eqn:Hm; cbn [bind] in Hgeo; [|discriminate].
  injection Hgeo as <-. unfold get_id_from_name_geojson, first_row_named.
  cbn [fc_features].
  apply (first_feature_named_rows L polygon_df name (iterrows L polygon_df));
    [apply iterrows_rows| |exact Hm].
  intros ir Hin. destruct (iterrows_rows _ _ _ Hin) as [p Hp].
  split; [|split; [now apply Hna|]]; rewrite Hp, dict_get_get_row.
  - apply find_column_has in Hname.
    destruct (find_column (columns polygon_df) "name"); [discriminate|congruence].
  - apply find_column_has in Hid.
    destruct (find_column (columns polygon_df) "polygonID"); [discriminate|congruence].
Qed.

Lemma get_id_from_name_of_the_export_witness :
  exists geo,
    get_geoJSON some_lib (setattr Odm_empty "polygon" (Some polygons_merged)) = Ok geo /\
    get_id_from_name_geojson geo "west" = Ok (Some (VStr "p2")) /\
    get_id_from_name_geojson geo "north" = Ok None.
Proof.
  destruct (get_geoJSON some_lib (setattr Odm_empty "polygon" (Some polygons_merged)))
    as [geo|e] eqn:E; [|vm_compute in E; discriminate E].
  exists geo. split; [reflexivity|].
  assert (Hna : forall ir, In ir (iterrows some_lib polygons_merged) ->
                           dict_get (snd ir) "name" <> Some VNA).
  { intros ir [<-|[<-|[]]]; discriminate. }
  assert (Hnd : NoDup (col_names polygons_merged)).
  { cbn. repeat (constructor; [cbn; intuition discriminate|]). constructor. }
  split.
  - exact (get_id_from_name_of_the_export some_lib
             (setattr Odm_empty "polygon" (Some polygons_merged))
             polygons_merged geo "west" eq_refl E Hnd eq_refl eq_refl Hna).
  - exact (get_id_from_name_of_the_export some_lib
             (setattr Odm_empty "polygon" (Some polygons_merged))
             polygons_merged geo "north" eq_refl E Hnd eq_refl eq_refl Hna).
Defined.

(** ** [get_data_types] *)

Lemma insert_sorted_In x y l : In y (insert_sorted x l) <-> y = x \/ In y l.
Proof.
  induction l as [|z l IH]; cbn [insert_sorted In]; [intuition|].
  destruct (String.eqb_spec x z) as [->|Hne].
  - cbn [In]. intuition.
  - destruct (String.ltb x z); cbn [In]; [intuition|]. rewrite IH. intuition.
Qed.

Lemma group_keys_In y names : In y (group_keys names) <-> In y names.
Proof.
  unfold group_keys. induction names as [|x names IH]; cbn [fold_right In]; [tauto|].
  rewrite insert_sorted_In, IH. intuition.
Qed.

Lemma mapM_dict {V : Type} (f : string -> result (string * V)) : forall keys out,
  (forall k kv, f k = Ok kv -> fst kv = k) ->
  mapM f keys = Ok out ->
  forall k, In k keys -> exists v, f k = Ok (k, v) /\ dict_get out k = Some v.
Proof.
  induction keys as [|k0 keys IH]; intros out Hf; cbn [mapM]; [intros _ k []|].
  destruct (f k0) as [[k1 v0]|e] eqn:H0; cbn [bind]; [|discriminate].
  destruct (mapM f keys) as [rest|e] eqn:Hm; cbn [bind]; [|discriminate].
  intros [= <-] k Hin. pose proof (Hf _ _ H0) as E. cbn [fst] in E. subst k1.
  cbn [dict_get]. destruct (String.eqb_spec k0 k) as [->|Hne].
  - now exists v0.
  - destruct Hin as [->|Hin]; [congruence|]. now apply (IH rest Hf eq_refl).
Qed.

Lemma has_dup_not_In x l : has_dup (x :: l) = false -> ~ In x l.
Proof.
  cbn [has_dup]. intros H Hin. apply orb_false_iff in H as [H _].
  assert (existsb (String.eqb x) l = true); [|congruence].
  apply existsb_exists. exists x. split; [exact Hin|apply String.eqb_refl].
Qed.

Lemma dict_get_unique {A V : Type} (key : A -> string) (val : A -> V) : forall l w,
  has_dup (map key l) = false ->
  In w l ->
  dict_get (map (fun v => (key v, val v)) l) (key w) = Some (val w).
Proof.
  induction l as [|a l IH]; intros w Hd Hin; [destruct Hin|].
  cbn [map dict_get]. destruct (String.eqb_spec (key a) (key w)) as [E|Hne].
  - destruct Hin as [->|Hin]; [reflexivity|].
    exfalso. cbn [map] in Hd. apply (has_dup_not_In _ _ Hd).
    rewrite E. now apply in_map.
  - destruct Hin as [->|Hin]; [congruence|].
    apply IH; [|exact Hin]. cbn [map has_dup] in Hd.
    now apply orb_false_iff in Hd as [_ Hd].
Qed.

Lemma get_data_types_declares variables DATA_TYPES v :
  get_data_types variables = Ok DATA_TYPES ->
  In v variables ->
  declared_type DATA_TYPES (tableName v) (variableName v)
  = Some (variable_type (variableType v)).
Proof.
  unfold get_data_types. intros Hm Hin.
  set (lower_row := fun v => mkVariable (tableName v) (Str.lower (variableName v))
                                        (variable_type (variableType v))) in *.
  set (lowered := map lower_row variables) in *.
  set (w := lower_row v).
  assert (Hw : In w lowered) by (unfold lowered, w; now apply in_map).
  match type of Hm with
  | mapM ?f _ = _ => assert (Hf : forall k kv, f k = Ok kv -> fst kv = k)
  end.
  { intros k kv. destruct (has_dup _); [discriminate|]. now intros [= <-]. }
  destruct (mapM_dict _ _ _ Hf Hm (tableName v)) as (d & Hd & Hget).
  - apply group_keys_In. change (tableName v) with (tableName w). now apply in_map.
  - cbv beta zeta in Hd.
    destruct (has_dup _) eqn:Hdup; [discriminate|]. injection Hd as <-.
    unfold declared_type, registry, dict in *. rewrite Hget. cbn [option_map].
    unfold dict_get_default at 2.
    change (Str.lower (variableName v)) with (variableName w).
    rewrite (dict_get_unique variableName
               (fun v => [("variableType", variableType v)]) _ w Hdup).
    + reflexivity.
    + apply filter_In. split; [exact Hw|]. apply String.eqb_refl.
Qed.

(** When [get_data_types] returns, every row of the file is in the
    registry: the lookup [parse_types] makes for the table and the
    variable, in any case of its name, finds the type of the row, with
    [boolean], [float], [integer] and [blob] renamed to the dtype
    tokens and [date] or [datetime] to [datetime64[ns]]. *)
Theorem get_data_types_declares_every_row variables DATA_TYPES v :
  get_data_types variables = Ok DATA_TYPES ->
  In v variables ->
  declared_type DATA_TYPES (tableName v) (variableName v)
  = Some (variable_type (variableType v)) /\
  variable_type "boolean" = "bool" /\
  variable_type "float" = "float64" /\
  variable_type "integer" = "int64" /\
  variable_type "blob" = "object" /\
  variable_type "date" = "datetime64[ns]" /\
  variable_type "datetime" = "datetime64[ns]" /\
  variable_type "string" = "string" /\
  variable_type "category" = "category".
Proof.
  intros H Hin. split; [exact (get_data_types_declares _ _ _ H Hin)|].
  repeat split.
Qed.

Lemma get_data_types_declares_every_row_witness :
  exists DATA_TYPES,
    get_data_types example_variables = Ok DATA_TYPES /\
    declared_type DATA_TYPES "Sample" "dateTime" = Some "datetime64[ns]" /\
    declared_type DATA_TYPES "WWMeasure" "index" = Some "int64".
Proof.
  destruct (get_data_types example_variables) as [DATA_TYPES|e] eqn:E;
    [|vm_compute in E; discriminate E].
  exists DATA_TYPES. split; [reflexivity|]. split.
  - exact (proj1 (get_data_types_declares_every_row example_variables DATA_TYPES
                    (mkVariable "Sample" "dateTime" "datetime") E
                    (or_intror (or_introl eq_refl)))).
  - exact (proj1 (get_data_types_declares_every_row example_variables DATA_TYPES
                    (mkVariable "WWMeasure" "index" "integer") E
                    (or_intror (or_intror (or_introl eq_refl))))).
Defined.

Lemma has_dup_twice n : forall l1 l2 l3, has_dup (l1 ++ n :: l2 ++ n :: l3) = true.
Proof.
  induction l1 as [|x l1 IH]; intros l2 l3; cbn [app has_dup].
  - rewrite existsb_app. cbn [existsb]. rewrite String.eqb_refl.
    cbn [orb]. now rewrite orb_true_r.
  - rewrite IH. apply orb_true_r.
Qed.

(** Two rows of one table whose variable names differ in case at most
    make [get_data_types] raise: the names are lower-cased before the
    dictionary of the table is built, and a dictionary cannot hold a
    name twice. *)
Theorem get_data_types_refuses_same_name variables v1 v2 before between after :
  variables = before ++ v1 :: between ++ v2 :: after ->
  tableName v1 = tableName v2 ->
  Str.lower (variableName v1) = Str.lower (variableName v2) ->
  exists e, get_data_types variables = Raise e.
Proof.
  intros Hv Ht Hn.
  destruct (get_data_types variables) as [DATA_TYPES|e] eqn:E; [|now exists e].
  exfalso. unfold get_data_types in E.
  match type of E with
  | mapM ?f _ = _ => assert (Hf : forall k kv, f k = Ok kv -> fst kv = k)
  end.
  { intros k kv. destruct (has_dup _); [discriminate|]. now intros [= <-]. }
  destruct (mapM_dict _ _ _ Hf E (tableName v1)) as (d & Hd & _).
  - apply group_keys_In. rewrite map_map. cbn [tableName].
    apply in_map with (f := tableName). rewrite Hv.
    apply in_or_app. right. now left.
  - cbv beta zeta in Hd. destruct (has_dup _) eqn:Hdup; [discriminate|].
    clear Hd E Hf. rewrite Hv in Hdup.
    rewrite map_app, filter_app, map_app in Hdup. cbn [map filter tableName] in Hdup.
    rewrite String.eqb_refl in Hdup. cbn [map variableName] in Hdup.
    rewrite map_app, filter_app in Hdup. cbn [map filter tableName] in Hdup.
    rewrite <- Ht, String.eqb_refl in Hdup.
    rewrite map_app in Hdup. cbn [map variableName] in Hdup.
    rewrite <- Hn, has_dup_twice in Hdup. discriminate.
Qed.

Lemma get_data_types_refuses_same_name_witness :
  exists e,
    get_data_types [ mkVariable "Sample" "dateTime" "datetime";
                     mkVariable "Sample" "sizeL" "float";
                     mkVariable "Sample" "datetime" "datetime" ] = Raise e.
Proof.
  apply (get_data_types_refuses_same_name _
           (mkVariable "Sample" "dateTime" "datetime")
           (mkVariable "Sample" "datetime" "datetime")
           [] [mkVariable "Sample" "sizeL" "float"] []);
    reflexivity.
Defined.



(** ** [load_from_excel] and [load_from_db] *)

Lemma mapM_raises {A B : Type} (f : A -> result B) e : forall l x,
  In x l -> f x = Raise e ->
  (forall y, In y l -> f y = Raise e \/ exists b, f y = Ok b) ->
  mapM f l = Raise e.
Proof.
  induction l as [|a l IH]; intros x Hin Hx Hall; [destruct Hin|].
  cbn [mapM]. destruct (Hall a (or_introl eq_refl)) as [Ha|[b Ha]]; rewrite Ha;
    [reflexivity|]. cbn [bind].
  destruct Hin as [->|Hin]; [congruence|].
  rewrite (IH x Hin Hx); [reflexivity|]. intros y Hy. apply Hall. now right.
Qed.

Lemma foldM_raises {A S : Type} (f : S -> A -> result S) x : forall l,
  In x l ->
  (forall s, exists e, f s x = Raise e) ->
  forall s, exists e, foldM f l s = Raise e.
Proof.
  induction l as [|a l IH]; intros Hin Hx s; [destruct Hin|].
  cbn [foldM]. destruct (f s a) as [s'|e] eqn:Ha; cbn [bind]; [|now exists e].
  destruct Hin as [->|Hin]; [|now apply IH].
  destruct (Hx s) as [e He]. congruence.
Qed.

Lemma odm_name_of_attribute name attribute :
  get_attribute_from_name name = Some attribute ->
  exists odm_name, odm_name_of (Some attribute) = Ok odm_name.
Proof.
  unfold get_attribute_from_name.
  match goal with
  | |- context [find ?f ?l] => destruct (find f l) as [[a dico]|] eqn:Hfind; [|discriminate]
  end.
  cbn [option_map fst]. intros [= <-]. apply find_some in Hfind as [Hin _].
  unfold conversion_dict in Hin. cbn [In] in Hin.
  repeat (destruct Hin as [Hin|Hin]; [injection Hin as <- _; eexists; reflexivity|]).
  destruct Hin.
Qed.

Lemma in_combine_map {A B : Type} (g : A -> B) x : forall l,
  In x l -> In (g x, x) (combine (map g l) l).
Proof.
  induction l as [|a l IH]; intros Hin; [destruct Hin|].
  cbn [map combine In]. destruct Hin as [->|Hin]; [now left|right; now apply IH].
Qed.

(** A name that [conversion_dict] does not have makes both loaders
    raise once the data is read: [load_from_excel] with
    [KeyError(None)], when it looks the table names up and before any
    sheet is stored; [load_from_db] when it comes to the table, at the
    latest with the [TypeError] of [getattr(self, None)]. *)
Theorem loaders_refuse_unknown_names (L : PyLib)
        (parse_types : string -> Series -> result Series) (self : Odm) names name :
  In name names ->
  get_attribute_from_name name = None ->
  (forall read_excel xls,
      read_excel names = Ok xls ->
      load_from_excel L parse_types read_excel self (Some names) = Raise (KeyError "None")) /\
  (forall read_sql,
      exists e, load_from_db L parse_types read_sql self (Some names) = Raise e).
Proof.
  intros Hin Hnone. split.
  - intros read_excel xls Hread. unfold load_from_excel. cbn [bind].
    rewrite Hread. cbn [bind].
    rewrite (mapM_raises odm_name_of (KeyError "None") _ None); [reflexivity| |reflexivity|].
    + rewrite <- Hnone. now apply in_map.
    + intros [attribute|] Hy; [right|now left].
      apply in_map_iff in Hy as (sheet & Hs & _).
      now apply (odm_name_of_attribute sheet).
  - intros read_sql. unfold load_from_db. cbn [bind].
    apply (foldM_raises _ (None, name)).
    + rewrite <- Hnone. now apply in_combine_map.
    + intros s. destruct (read_sql name) as [df|e]; cbn [bind]; [|now exists e].
      destruct (apply_columns _ df) as [c|e]; cbn [bind]; [|now exists e].
      eexists. reflexivity.
Qed.

Lemma loaders_refuse_unknown_names_witness :
  load_from_excel some_lib (fun _ series => Ok series)
                  (fun sheets => Ok (map (fun s => (s, polygons_a)) sheets))
                  Odm_empty (Some ["Polygon"; "Polygons"])
  = Raise (KeyError "None").
Proof.
  apply (proj1 (loaders_refuse_unknown_names some_lib (fun _ series => Ok series) Odm_empty
                  ["Polygon"; "Polygons"] "Polygons"
                  (or_intror (or_introl eq_refl)) eq_refl)
               (fun sheets => Ok (map (fun s => (s, polygons_a)) sheets))
               [("Polygon", polygons_a); ("Polygons", polygons_a)]).
  reflexivity.
Defined.

Lemma conversion_names_excel :
  conversion_names "excel_name" =
  Ok ["WWMeasure"; "SiteMeasure"; "Sample"; "Site"; "Polygon"; "CPHD"; "Reporter";
      "Lab"; "AssayMethod"; "Instrument"].
Proof. reflexivity. Qed.

Lemma load_from_excel_step (L : PyLib) (parse_types : string -> Series -> result Series)
      (xls : dict DataFrame) (self : Odm) (printed : list exn) attribute odm_name sheet
      rest (sheet_of : string -> DataFrame) (cast : string -> DataFrame) :
  dict_get xls sheet = Some (sheet_of sheet) ->
  apply_columns (parse_types odm_name)
    (if String.eqb sheet "WWMeasure" && has_column (sheet_of sheet) "assayMethodID"
     then rename_column "assayMethodID" "assayID" (sheet_of sheet)
     else sheet_of sheet) = Ok (cast attribute) ->
  getattr self attribute = Ok None ->
  foldM (fun acc item =>
           let '(attribute, odm_name, sheet) := item in
           do df <- dict_getitem xls sheet;
           let df := if String.eqb sheet "WWMeasure" && has_column df "assayMethodID"
                     then rename_column "assayMethodID" "assayID" df
                     else df in
           do type_cast_df <- apply_columns (parse_types odm_name) df;
           add_to_named_attr L acc attribute type_cast_df)
        ((Some attribute, odm_name, sheet) :: rest) (self, printed)
  = foldM (fun acc item =>
           let '(attribute, odm_name, sheet) := item in
           do df <- dict_getitem xls sheet;
           let df := if String.eqb sheet "WWMeasure" && has_column df "assayMethodID"
                     then rename_column "assayMethodID" "assayID" df
                     else df in
           do type_cast_df <- apply_columns (parse_types odm_name) df;
           add_to_named_attr L acc attribute type_cast_df)
        rest (setattr self attribute (Some (cast attribute)), printed).
Proof.
  intros Hx Hc Hn. cbn [foldM]. unfold dict_getitem at 1. rewrite Hx. cbn [bind].
  rewrite Hc. cbn [bind]. unfold add_to_named_attr, add_to_attr. cbn [fst snd].
  rewrite Hn. cbn [bind fst snd]. now rewrite app_nil_r.
Qed.

Ltac load_step lem Hxls Hcast sheet_of cast a o s :=
  rewrite (lem _ _ a o s _ sheet_of cast);
  [ | apply (Hxls a [("odm_name", o); ("excel_name", s)]);
      [cbn [In]; repeat (first [left; reflexivity | right]) | reflexivity]
    | apply (Hcast a [("odm_name", o); ("excel_name", s)]);
      [cbn [In]; repeat (first [left; reflexivity | right]) | reflexivity | reflexivity]
    | reflexivity ].

(** Into an object that holds nothing, [load_from_excel] with the
    default sheets stores every sheet, type-cast under the table name
    of its entry, in the attribute of the entry: the sheet [CPHD] is
    cast as [CovidPublicHealthData] and stored in [cphd]; in the
    sheet [WWMeasure] a column [assayMethodID] is first renamed to
    [assayID].  Nothing is printed. *)
Theorem load_from_excel_fills_an_empty_object (L : PyLib)
        (parse_types : string -> Series -> result Series)
        (read_excel : list string -> result (dict DataFrame)) (xls : dict DataFrame)
        (sheet_of cast : string -> DataFrame) :
  read_excel ["WWMeasure"; "SiteMeasure"; "Sample"; "Site"; "Polygon"; "CPHD";
              "Reporter"; "Lab"; "AssayMethod"; "Instrument"] = Ok xls ->
  (forall attribute dico sheet,
      In (attribute, dico) conversion_dict ->
      dict_get dico "excel_name" = Some sheet ->
      dict_get xls sheet = Some (sheet_of sheet)) ->
  (forall attribute dico sheet odm_name,
      In (attribute, dico) conversion_dict ->
      dict_get dico "excel_name" = Some sheet ->
      dict_get dico "odm_name" = Some odm_name ->
      apply_columns (parse_types odm_name)
        (if String.eqb sheet "WWMeasure" && has_column (sheet_of sheet) "assayMethodID"
         then rename_column "assayMethodID" "assayID" (sheet_of sheet)
         else sheet_of sheet) = Ok (cast attribute)) ->
  load_from_excel L parse_types read_excel Odm_empty None =
  Ok (Odm_init (Some (cast "sample")) (Some (cast "ww_measure")) (Some (cast "site"))
               (Some (cast "site_measure")) (Some (cast "reporter"))
               (Some (cast "lab")) (Some (cast "assay_method"))
               (Some (cast "instrument")) (Some (cast "polygon"))
               (Some (cast "cphd")),
      []).
Proof.
  intros Hread Hxls Hcast. unfold load_from_excel.
  rewrite conversion_names_excel. cbn [bind]. rewrite Hread. cbn [bind].
  change (map get_attribute_from_name _)
    with [Some "ww_measure"; Some "site_measure"; Some "sample"; Some "site";
          Some "polygon"; Some "cphd"; Some "reporter"; Some "lab";
          Some "assay_method"; Some "instrument"].
  change (mapM odm_name_of _)
    with (@Ok (list string)
              ["WWMeasure"; "SiteMeasure"; "Sample"; "Site"; "Polygon";
               "CovidPublicHealthData"; "Reporter"; "Lab"; "AssayMethod";
               "Instrument"]).
  cbn [bind combine].
  unfold conversion_dict in Hxls, Hcast.
  load_step (load_from_excel_step L parse_types xls) Hxls Hcast sheet_of cast
            "ww_measure" "WWMeasure" "WWMeasure".
  load_step (load_from_excel_step L parse_types xls) Hxls Hcast sheet_of cast
            "site_measure" "SiteMeasure" "SiteMeasure".
  load_step (load_from_excel_step L parse_types xls) Hxls Hcast sheet_of cast
            "sample" "Sample" "Sample".
  load_step (load_from_excel_step L parse_types xls) Hxls Hcast sheet_of cast
            "site" "Site" "Site".
  load_step (load_from_excel_step L parse_types xls) Hxls Hcast sheet_of cast
            "polygon" "Polygon" "Polygon".
  load_step (load_from_excel_step L parse_types xls) Hxls Hcast sheet_of cast
            "cphd" "CovidPublicHealthData" "CPHD".
  load_step (load_from_excel_step L parse_types xls) Hxls Hcast sheet_of cast
            "reporter" "Reporter" "Reporter".
  load_step (load_from_excel_step L parse_types xls) Hxls Hcast sheet_of cast
            "lab" "Lab" "Lab".
  load_step (load_from_excel_step L parse_types xls) Hxls Hcast sheet_of cast
            "assay_method" "AssayMethod" "AssayMethod".
  load_step (load_from_excel_step L parse_types xls) Hxls Hcast sheet_of cast
            "instrument" "Instrument" "Instrument".
  reflexivity.
Qed.

Lemma load_from_excel_fills_an_empty_object_witness :
  load_from_excel some_lib (fun _ series => Ok series)
                  (fun sheets => Ok (map (fun s => (s, polygons_a)) sheets))
                  Odm_empty None
  = Ok (Odm_init (Some polygons_a) (Some polygons_a) (Some polygons_a)
                 (Some polygons_a) (Some polygons_a) (Some polygons_a)
                 (Some polygons_a) (Some polygons_a) (Some polygons_a)
                 (Some polygons_a), []).
Proof.
  apply (load_from_excel_fills_an_empty_object some_lib
           (fun _ series => Ok series)
           (fun sheets => Ok (map (fun s => (s, polygons_a)) sheets))
           (map (fun s => (s, polygons_a))
                ["WWMeasure"; "SiteMeasure"; "Sample"; "Site"; "Polygon"; "CPHD";
                 "Reporter"; "Lab"; "AssayMethod"; "Instrument"])
           (fun _ => polygons_a) (fun _ => polygons_a)).
  - reflexivity.
  - intros attribute dico sheet Hin Hs. unfold conversion_dict in Hin. cbn [In] in Hin.
    repeat (destruct Hin as [Hin|Hin];
            [injection Hin as <- <-; injection Hs as <-; reflexivity|]).
    destruct Hin.
  - intros attribute dico sheet odm_name Hin Hs Ho.
    unfold conversion_dict in Hin. cbn [In] in Hin.
    repeat (destruct Hin as [Hin|Hin];
            [injection Hin as <- <-; injection Hs as <-; reflexivity|]).
    destruct Hin.
Defined.
